(** * core-js-dates: calendar utilities of [src/core-js-dates-tasks.js]

    A shallow embedding of the JavaScript functions of the repository and
    of the part of the ECMAScript [Date] / [Intl] platform they call.

    Conventions of the model.
    - A JavaScript number is an integer or NaN: an [option Z], [None]
      standing for NaN.  Numbers that are not integers are outside the
      model; where the source computes one, the call leaves the model.
    - A time value is a number of milliseconds since the epoch, at most
      8.64e15 in absolute value, or NaN (the Invalid Date).  Every place
      where ECMAScript clips a computed time ([TimeClip]: the [Date]
      constructors, [setDate], [setMonth]) clips it in the model.
    - The local time zone of the process is a fixed offset [tz] from UTC,
      in milliseconds and of less than a day (no daylight saving
      changes); every function whose source reads local fields takes it
      as its first argument.
    - A [Date] object that the source mutates in place or hands back to
      its caller lives in a store ([heap]) and is passed by reference; a
      [Date] that is only read is passed by its time value.
    - [Date.parse] is the reading of V8, the engine of Node.js, on a few
      layouts of strings; on any other string a call leaves the model. *)

From stdpp Require Import gmap.
From Stdlib Require Import ZArith List String Ascii Bool Lia.
From Stdlib Require Import DecimalString DecimalN DecimalZ DecimalFacts.
Import ListNotations.

Local Open Scope Z_scope.

(** ** ECMAScript time arithmetic (ECMA-262, "Time Values and Time Range") *)

Module ES.

Definition msPerDay : Z := 86400000.
Definition msPerHour : Z := 3600000.
Definition msPerMinute : Z := 60000.
Definition msPerSecond : Z := 1000.

Definition Day (t : Z) : Z := t / msPerDay.
Definition TimeWithinDay (t : Z) : Z := t mod msPerDay.

(** The Gregorian leap-year rule, as in [DaysInYear]. *)
Definition leap (y : Z) : bool :=
  if negb (y mod 4 =? 0) then false
  else if negb (y mod 100 =? 0) then true
  else y mod 400 =? 0.

Definition DaysInYear (y : Z) : Z := if leap y then 366 else 365.

Definition DayFromYear (y : Z) : Z :=
  365 * (y - 1970) + (y - 1969) / 4 - (y - 1901) / 100 + (y - 1601) / 400.

Definition TimeFromYear (y : Z) : Z := msPerDay * DayFromYear y.

(** [YearFromTime t] is "the largest integer y such that
    TimeFromYear(y) <= t", that is the year [y] whose days hold the day
    of [t].  It is computed from an estimate that is off by at most one
    year ([YearFromDay_spec] below shows the result is that year). *)
Definition YearFromDay (d : Z) : Z :=
  let y := 1970 + (400 * d) / 146097 in
  if d <? DayFromYear y then y - 1
  else if DayFromYear (y + 1) <=? d then y + 1
  else y.

(** Month (0 = January) and day of the month of a day number: the
    tables of [MonthFromTime] and [DateFromTime]. *)
Definition MonthFromDay (d : Z) : Z :=
  let dy := d - DayFromYear (YearFromDay d) in
  let l := if leap (YearFromDay d) then 1 else 0 in
  if dy <? 31 then 0
  else if dy <? 59 + l then 1
  else if dy <? 90 + l then 2
  else if dy <? 120 + l then 3
  else if dy <? 151 + l then 4
  else if dy <? 181 + l then 5
  else if dy <? 212 + l then 6
  else if dy <? 243 + l then 7
  else if dy <? 273 + l then 8
  else if dy <? 304 + l then 9
  else if dy <? 334 + l then 10
  else 11.

Definition DateFromDay (d : Z) : Z :=
  let dy := d - DayFromYear (YearFromDay d) in
  let l := if leap (YearFromDay d) then 1 else 0 in
  match MonthFromDay d with
  | 0 => dy + 1
  | 1 => dy - 30
  | 2 => dy - 58 - l
  | 3 => dy - 89 - l
  | 4 => dy - 119 - l
  | 5 => dy - 150 - l
  | 6 => dy - 180 - l
  | 7 => dy - 211 - l
  | 8 => dy - 242 - l
  | 9 => dy - 272 - l
  | 10 => dy - 303 - l
  | _ => dy - 333 - l
  end.

(** Day 0, the first of January 1970, was a Thursday (4). *)
Definition WeekDayOfDay (d : Z) : Z := (d + 4) mod 7.

Definition YearFromTime (t : Z) : Z := YearFromDay (Day t).
Definition MonthFromTime (t : Z) : Z := MonthFromDay (Day t).
Definition DateFromTime (t : Z) : Z := DateFromDay (Day t).
Definition WeekDay (t : Z) : Z := WeekDayOfDay (Day t).

Definition HourFromTime (t : Z) : Z := (t / msPerHour) mod 24.
Definition MinFromTime (t : Z) : Z := (t / msPerMinute) mod 60.
Definition SecFromTime (t : Z) : Z := (t / msPerSecond) mod 60.

Definition MakeTime (hour min sec ms : Z) : Z :=
  hour * msPerHour + min * msPerMinute + sec * msPerSecond + ms.

(** Days of the year that precede month [m] (0 = January). *)
Definition DaysBeforeMonth (l : bool) (m : Z) : Z :=
  let l := if l then 1 else 0 in
  match m with
  | 0 => 0
  | 1 => 31
  | 2 => 59 + l
  | 3 => 90 + l
  | 4 => 120 + l
  | 5 => 151 + l
  | 6 => 181 + l
  | 7 => 212 + l
  | 8 => 243 + l
  | 9 => 273 + l
  | 10 => 304 + l
  | _ => 334 + l
  end.

(** [MakeDay]: the month is carried into the year, the date is added as a
    plain number of days, so that day 0 is the last day of the month
    before and day 32 runs into the month after. *)
Definition MakeDay (year month date : Z) : Z :=
  let ym := year + month / 12 in
  let mn := month mod 12 in
  DayFromYear ym + DaysBeforeMonth (leap ym) mn + date - 1.

Definition MakeDate (day time : Z) : Z := day * msPerDay + time.

(** Fixed-offset local time. *)
Definition LocalTime (tz t : Z) : Z := t + tz.
Definition UTC (tz t : Z) : Z := t - tz.

(** [MakeFullYear]: the two-digit-year rule of the [Date] constructor. *)
Definition MakeFullYear (y : Z) : Z :=
  if (0 <=? y) && (y <=? 99) then 1900 + y else y.


(** The length of month [m] (0 = January) of year [y]. *)
Definition DaysInMonth (y m : Z) : Z :=
  match m with
  | 1 => if leap y then 29 else 28
  | 3 | 5 | 8 | 10 => 30
  | _ => 31
  end.

(** The time range: 100,000,000 days on either side of the epoch. *)
Definition maxTime : Z := 8640000000000000.

(** [TimeClip]: a time beyond the range is NaN. *)
Definition TimeClip (t : Z) : option Z :=
  if Z.abs t <=? maxTime then Some t else None.

End ES.

Import ES.

(** ** Results *)

(** What a call does: it returns, it is still running when the fuel of a
    [while] loop (or of a loop whose counter the body changes) is used
    up, or it leaves the model (an input string that is not of a modelled
    layout, a number that is not an integer, a reference to no object). *)
Inductive result (A : Type) : Type :=
  | Ok (a : A)
  | OutOfFuel
  | Stuck.
Arguments Ok {A} a.
Arguments OutOfFuel {A}.
Arguments Stuck {A}.

#[export] Instance result_ret : MRet result := fun A a => Ok a.
#[export] Instance result_bind : MBind result := fun A B f m =>
  match m with
  | Ok a => f a
  | OutOfFuel => OutOfFuel
  | Stuck => Stuck
  end.

(** ** Numbers *)

(** [a === b], [a <= b], [a < b], [a + b] and [a % b] on numbers: a
    comparison with NaN is false, an operation on NaN is NaN.  [%] takes
    the sign of the dividend. *)
Definition num_eqb (a b : option Z) : bool :=
  match a, b with
  | Some x, Some y => x =? y
  | _, _ => false
  end.

Definition num_leb (a b : option Z) : bool :=
  match a, b with
  | Some x, Some y => x <=? y
  | _, _ => false
  end.

Definition num_ltb (a b : option Z) : bool :=
  match a, b with
  | Some x, Some y => x <? y
  | _, _ => false
  end.

Definition num_add (a b : option Z) : option Z :=
  match a, b with
  | Some x, Some y => Some (x + y)
  | _, _ => None
  end.

Definition num_rem (a b : option Z) : option Z :=
  match a, b with
  | Some x, Some y => if y =? 0 then None else Some (Z.rem x y)
  | _, _ => None
  end.

(** ** Time values *)

(** The local fields of a time value [t]. *)
Definition local_year (tz t : Z) : Z := YearFromTime (LocalTime tz t).
Definition local_month (tz t : Z) : Z := MonthFromTime (LocalTime tz t).
Definition local_date (tz t : Z) : Z := DateFromTime (LocalTime tz t).
Definition local_weekday (tz t : Z) : Z := WeekDay (LocalTime tz t).

(** The time that [new Date(year, month, date, hours, minutes, seconds)]
    computes from its arguments, before it is clipped. *)
Definition time_of_fields (tz year month date hours minutes seconds : Z) : Z :=
  UTC tz (MakeDate (MakeDay (MakeFullYear year) month date)
                   (MakeTime hours minutes seconds 0)).

Definition time_of_date (tz year month date : Z) : Z :=
  time_of_fields tz year month date 0 0 0.

(** The time that [setDate(n)] computes for a date of time value [t],
    before it is clipped. *)
Definition time_setDate (tz t n : Z) : Z :=
  let lt := LocalTime tz t in
  UTC tz (MakeDate (MakeDay (YearFromTime lt) (MonthFromTime lt) n)
                   (TimeWithinDay lt)).

(** The same for [setMonth(m)]. *)
Definition time_setMonth (tz t m : Z) : Z :=
  let lt := LocalTime tz t in
  UTC tz (MakeDate (MakeDay (YearFromTime lt) m (DateFromTime lt))
                   (TimeWithinDay lt)).

(** ** [Date] objects by time value

    The time value of a [Date] is an [option Z], [None] for the Invalid
    Date; the arguments and results of its methods are numbers. *)

(** [new Date(year, month, date, hours, minutes, seconds)], local time. *)
Definition Date_of_fields (tz : Z) (year month date hours minutes seconds : option Z)
  : option Z :=
  match year, month, date, hours, minutes, seconds with
  | Some y, Some mo, Some d, Some h, Some mi, Some s =>
      TimeClip (time_of_fields tz y mo d h mi s)
  | _, _, _, _, _, _ => None
  end.

(** [new Date(year, month, date)]; [new Date(year, month)] is
    [new Date(year, month, 1)]. *)
Definition Date_local (tz : Z) (year month date : option Z) : option Z :=
  Date_of_fields tz year month date (Some 0) (Some 0) (Some 0).

(** [new Date(value)] for a number [value]. *)
Definition Date_of_value (value : option Z) : option Z :=
  match value with
  | Some v => TimeClip v
  | None => None
  end.

Definition valueOf (tv : option Z) : option Z := tv.

Definition getFullYear (tz : Z) (tv : option Z) : option Z :=
  match tv with Some t => Some (local_year tz t) | None => None end.
Definition getMonth (tz : Z) (tv : option Z) : option Z :=
  match tv with Some t => Some (local_month tz t) | None => None end.
Definition getDate (tz : Z) (tv : option Z) : option Z :=
  match tv with Some t => Some (local_date tz t) | None => None end.
Definition getDay (tz : Z) (tv : option Z) : option Z :=
  match tv with Some t => Some (local_weekday tz t) | None => None end.

(** [date.setDate(n)]: the time value after the call. *)
Definition setDate (tz : Z) (tv n : option Z) : option Z :=
  match tv, n with
  | Some t, Some n => TimeClip (time_setDate tz t n)
  | _, _ => None
  end.

(** [date.setMonth(m)]: the time value after the call. *)
Definition setMonth (tz : Z) (tv m : option Z) : option Z :=
  match tv, m with
  | Some t, Some m => TimeClip (time_setMonth tz t m)
  | _, _ => None
  end.

(** ** Strings and numbers *)

Local Open Scope string_scope.
Local Open Scope list_scope.
Local Open Scope Z_scope.

(** [String(n)] for an integer [n]. *)
Definition String_of_Z (n : Z) : string := NilEmpty.string_of_int (Z.to_int n).

(** [Number(s)] for a non-empty string of decimal digits; every other
    string is outside the model and yields [None]. *)
Definition Number_of_string (s : string) : option Z :=
  match s with
  | EmptyString => None
  | _ =>
      match NilEmpty.uint_of_string s with
      | Some u => Some (Z.of_N (N.of_uint u))
      | None => None
      end
  end.

Fixpoint replicate_char (n : nat) (c : ascii) : string :=
  match n with
  | O => EmptyString
  | S k => String c (replicate_char k c)
  end.

(** [s.padStart(n, c)] for a one-character filler. *)
Definition padStart (n : nat) (c : ascii) (s : string) : string :=
  String.append (replicate_char (n - String.length s) c) s.

(** [s.split(sep)] for a one-character separator. *)
Fixpoint split (sep : ascii) (s : string) : list string :=
  match s with
  | EmptyString => [EmptyString]
  | String c r =>
      if Ascii.eqb c sep then EmptyString :: split sep r
      else match split sep r with
           | h :: t => String c h :: t
           | [] => [String c EmptyString]
           end
  end.

(** ** [Date.parse]

    The layouts of the model, read as V8 reads them:
    - [YYYY-MM-DD]: midnight UTC;
    - [YYYY-MM-DDTHH:mm], [YYYY-MM-DDTHH:mm:ss] and
      [YYYY-MM-DDTHH:mm:ss.sss]: local time, or the time of the zone
      designator that follows, [Z], [+HH:mm] or [-HH:mm];
    - [DD Mon YYYY HH:mm:ss UTC] with [DD] from 01 to 31 and a clock
      from 00:00:00 to 23:59:59, where a year below 50 is read as
      2000 + year and a year from 50 to 99 as 1900 + year.
    In the first two layouts a month outside 01..12, a day outside
    01..31 and a clock beyond 23:59:59 other than 24:00:00 give NaN.  A
    day from 29 to 31 that the month does not have is not refused:
    [MakeDay] carries it into the next month.  A string without any
    digit gives NaN.  On every other string the call leaves the model;
    so it does on a string [YYYY-MM-DD] of a year from 0001 to 0031 whose
    month or day is out of bounds, which V8 reads again in the order
    month, day, year. *)

Definition is_digit (c : ascii) : bool :=
  let n := nat_of_ascii c in (48 <=? n)%nat && (n <=? 57)%nat.

Fixpoint has_digit (s : string) : bool :=
  match s with
  | EmptyString => false
  | String c r => is_digit c || has_digit r
  end.

(** The number that the [len] digits at position [pos] write. *)
Definition field (s : string) (pos len : nat) : option Z :=
  let f := substring pos len s in
  if Nat.eqb (String.length f) len then Number_of_string f else None.

Definition char_at (s : string) (pos : nat) (c : ascii) : bool :=
  match String.get pos s with
  | Some c' => Ascii.eqb c c'
  | None => false
  end.

Definition month_of_name (s : string) : option Z :=
  if String.eqb s "Jan" then Some 1 else if String.eqb s "Feb" then Some 2
  else if String.eqb s "Mar" then Some 3 else if String.eqb s "Apr" then Some 4
  else if String.eqb s "May" then Some 5 else if String.eqb s "Jun" then Some 6
  else if String.eqb s "Jul" then Some 7 else if String.eqb s "Aug" then Some 8
  else if String.eqb s "Sep" then Some 9 else if String.eqb s "Oct" then Some 10
  else if String.eqb s "Nov" then Some 11 else if String.eqb s "Dec" then Some 12
  else None.

(** A clock is from 00:00:00 to 23:59:59, or 24:00:00.000. *)
Definition clock_ok (h mi s ms : Z) : bool :=
  ((h <=? 23) && (mi <=? 59) && (s <=? 59))
  || ((h =? 24) && (mi =? 0) && (s =? 0) && (ms =? 0)).

(** The time of the fields read, NaN when one is out of bounds. *)
Definition make_instant (y mo d h mi s ms : Z) : option Z :=
  if (1 <=? mo) && (mo <=? 12) && (1 <=? d) && (d <=? 31) && clock_ok h mi s ms
  then Some (MakeDate (MakeDay y (mo - 1) d) (MakeTime h mi s ms))
  else None.

(** The date part [YYYY-MM-DD] at the head of [s]. *)
Definition iso_date (s : string) : option (Z * Z * Z) :=
  if char_at s 4 "-" && char_at s 7 "-" then
    match field s 0 4, field s 5 2, field s 8 2 with
    | Some y, Some mo, Some d => Some (y, mo, d)
    | _, _, _ => None
    end
  else None.

(** The time part [THH:mm], [THH:mm:ss] or [THH:mm:ss.sss] after the
    date, and the position that follows it. *)
Definition iso_time (s : string) : option (Z * Z * Z * Z * nat) :=
  if char_at s 10 "T" && char_at s 13 ":" then
    match field s 11 2, field s 14 2 with
    | Some h, Some mi =>
        if char_at s 16 ":" then
          match field s 17 2 with
          | Some sec =>
              if char_at s 19 "." then
                match field s 20 3 with
                | Some ms => Some (h, mi, sec, ms, 23%nat)
                | None => None
                end
              else Some (h, mi, sec, 0, 19%nat)
          | None => None
          end
        else Some (h, mi, 0, 0, 16%nat)
    | _, _ => None
    end
  else None.

(** The zone designator from position [p] to the end of [s]: none (the
    local zone), [Z], [+HH:mm] or [-HH:mm].  The result is the offset of
    the zone from UTC, NaN when its hours or minutes are out of bounds. *)
Definition iso_zone (tz : Z) (s : string) (p : nat) : option (option Z) :=
  let n := String.length s in
  if Nat.eqb n p then Some (Some tz)
  else if Nat.eqb n (p + 1) && char_at s p "Z" then Some (Some 0)
  else if Nat.eqb n (p + 6) && (char_at s p "+" || char_at s p "-")
          && char_at s (p + 3) ":" then
    match field s (p + 1) 2, field s (p + 4) 2 with
    | Some hh, Some mm =>
        if (hh <=? 23) && (mm <=? 59) then
          let off := hh * msPerHour + mm * msPerMinute in
          Some (Some (if char_at s p "+" then off else - off))
        else Some None
    | _, _ => None
    end
  else None.

(** The strings [YYYY-MM-DD] of the model: the fields are in bounds, or
    the year is not a day number. *)
Definition date_only (y mo d : Z) : bool :=
  ((1 <=? mo) && (mo <=? 12) && (1 <=? d) && (d <=? 31))
  || negb ((1 <=? y) && (y <=? 31)).

(** [None]: the string is not of an ISO layout of the model. *)
Definition parse_iso (tz : Z) (s : string) : option (option Z) :=
  match iso_date s with
  | None => None
  | Some (y, mo, d) =>
      if Nat.eqb (String.length s) 10 then
        if date_only y mo d then Some (make_instant y mo d 0 0 0 0) else None
      else
        match iso_time s with
        | None => None
        | Some (h, mi, sec, ms, p) =>
            match iso_zone tz s p with
            | None => None
            | Some off =>
                Some match make_instant y mo d h mi sec ms, off with
                     | Some t, Some off => Some (t - off)
                     | _, _ => None
                     end
            end
        end
  end.

(** The year of a string that is not in an ISO layout. *)
Definition legacy_year (y : Z) : Z :=
  if y <=? 49 then 2000 + y else if y <=? 99 then 1900 + y else y.

(** [None]: the string is not of the layout [DD Mon YYYY HH:mm:ss UTC]. *)
Definition parse_legacy (s : string) : option (option Z) :=
  if Nat.eqb (String.length s) 24 && char_at s 2 " " && char_at s 6 " "
     && char_at s 11 " " && char_at s 14 ":" && char_at s 17 ":"
     && char_at s 20 " " && String.eqb (substring 21 3 s) "UTC"
  then
    match field s 0 2, month_of_name (substring 3 3 s), field s 7 4,
          field s 12 2, field s 15 2, field s 18 2 with
    | Some d, Some mo, Some y, Some h, Some mi, Some sec =>
        if (1 <=? d) && (d <=? 31) && (h <=? 23) && (mi <=? 59) && (sec <=? 59)
        then Some (make_instant (legacy_year y) mo d h mi sec 0)
        else None
    | _, _, _, _, _, _ => None
    end
  else None.

Definition Date_parse (tz : Z) (s : string) : result (option Z) :=
  if negb (has_digit s) then Ok None
  else
    match parse_iso tz s with
    | Some tv => Ok tv
    | None =>
        match parse_legacy s with
        | Some tv => Ok tv
        | None => Stuck
        end
    end.

(** [new Date(s)] for a string [s]: the time value of the new object. *)
Definition Date_of_string (tz : Z) (s : string) : result (option Z) :=
  tv ← Date_parse tz s; mret (Date_of_value tv).

(** ** [Intl] date and time rendering

    Only what the source calls: the [en-US] rendering selected by an
    options object, and the default time rendering of a few locales. *)

Inductive Locale := en_US | en_GB | ru_RU.

Inductive FieldStyle := numeric | long.

(** Named zones of the options object.  [Africa/Dakar] was on its local
    mean time, 16 minutes and 8 seconds behind Greenwich, until the
    first day of 1912, and has been on GMT, without daylight saving,
    since then. *)
Inductive TimeZone := Africa_Dakar | Etc_UTC.

(** The offset of a zone from UTC at the instant [t]. *)
Definition zoneOffset (z : TimeZone) (t : Z) : Z :=
  match z with
  | Africa_Dakar => if t <? -1830383032000 then -968000 else 0
  | Etc_UTC => 0
  end.

Record DateTimeFormatOptions := {
  weekday : option FieldStyle;
  hour : option FieldStyle;
  minute : option FieldStyle;
  second : option FieldStyle;
  timeZone : option TimeZone
}.

Definition weekday_long (w : Z) : string :=
  match w with
  | 0 => "Sunday"
  | 1 => "Monday"
  | 2 => "Tuesday"
  | 3 => "Wednesday"
  | 4 => "Thursday"
  | 5 => "Friday"
  | _ => "Saturday"
  end.

Definition two_digit (n : Z) : string := padStart 2 "0" (String_of_Z n).

(** The year of the era, as a [numeric] year is printed. *)
Definition yearOfEra (y : Z) : Z := if y <=? 0 then 1 - y else y.

(** [M/D/YYYY] of a local time value. *)
Definition en_US_date (lt : Z) : string :=
  String_of_Z (MonthFromTime lt + 1) ++ "/" ++ String_of_Z (DateFromTime lt)
  ++ "/" ++ String_of_Z (yearOfEra (YearFromTime lt)).

(** [h:mm:ss AM|PM] of a local time value: the 12-hour clock of [en-US]. *)
Definition en_US_time (lt : Z) : string :=
  let h := HourFromTime lt in
  let h12 := if h mod 12 =? 0 then 12 else h mod 12 in
  String_of_Z h12 ++ ":" ++ two_digit (MinFromTime lt) ++ ":"
  ++ two_digit (SecFromTime lt) ++ (if h <? 12 then " AM" else " PM").

(** [HH:mm:ss] of a local time value: the 24-hour clock. *)
Definition h23_time (lt : Z) : string :=
  two_digit (HourFromTime lt) ++ ":" ++ two_digit (MinFromTime lt) ++ ":"
  ++ two_digit (SecFromTime lt).

(** [date.toLocaleDateString("en-US", options)].  The zone is the one of
    the options, the local one when they name none.  Without a weekday the
    date fields default to numeric year, month and day; the clock is
    printed when hour, minute and second are all asked for. *)
Definition toLocaleDateString_en_US
    (options : DateTimeFormatOptions) (tz : Z) (tv : option Z) : string :=
  match tv with
  | None => "Invalid Date"
  | Some t =>
      let off := match timeZone options with
                 | Some z => zoneOffset z t
                 | None => tz
                 end in
      let lt := LocalTime off t in
      let day := match weekday options with
                 | Some _ => weekday_long (WeekDay lt)
                 | None => en_US_date lt
                 end in
      match hour options, minute options, second options with
      | Some _, Some _, Some _ => day ++ ", " ++ en_US_time lt
      | _, _, _ => day
      end
  end.

(** [date.toLocaleTimeString()]: the default clock of the ambient locale,
    in the local zone. *)
Definition toLocaleTimeString (locale : Locale) (tz : Z) (tv : option Z) : string :=
  match tv with
  | None => "Invalid Date"
  | Some t =>
      match locale with
      | en_US => en_US_time (LocalTime tz t)
      | en_GB | ru_RU => h23_time (LocalTime tz t)
      end
  end.

(** ** The store of [Date] objects, and its monad *)

Definition loc := positive.
Abbreviation heap := (gmap loc (option Z)).

(** A computation on the store of [Date] objects. *)
Definition M (A : Type) : Type := heap -> result (A * heap).

#[export] Instance M_ret : MRet M := fun A a h => Ok (a, h).
#[export] Instance M_bind : MBind M := fun A B f m h =>
  match m h with
  | Ok (a, h') => f a h'
  | OutOfFuel => OutOfFuel
  | Stuck => Stuck
  end.

Definition out_of_fuel {A} : M A := fun _ => OutOfFuel.

(** A fresh object of time value [tv]. *)
Definition new_Date (tv : option Z) : M loc := fun h =>
  let l := fresh (dom h) in Ok (l, <[l := tv]> h).

Definition read (d : loc) : M (option Z) := fun h =>
  match h !! d with
  | Some tv => Ok (tv, h)
  | None => Stuck
  end.

Definition write (d : loc) (tv : option Z) : M unit := fun h =>
  match h !! d with
  | Some _ => Ok (tt, <[d := tv]> h)
  | None => Stuck
  end.

(** The methods of a [Date] object held in the store. *)
Module Obj.
Definition valueOf (d : loc) : M (option Z) := tv ← read d; mret (valueOf tv).
Definition getFullYear (tz : Z) (d : loc) : M (option Z) :=
  tv ← read d; mret (getFullYear tz tv).
Definition getMonth (tz : Z) (d : loc) : M (option Z) :=
  tv ← read d; mret (getMonth tz tv).
Definition getDate (tz : Z) (d : loc) : M (option Z) :=
  tv ← read d; mret (getDate tz tv).
Definition getDay (tz : Z) (d : loc) : M (option Z) :=
  tv ← read d; mret (getDay tz tv).
Definition setDate (tz : Z) (d : loc) (n : option Z) : M unit :=
  tv ← read d; write d (setDate tz tv n).
Definition setMonth (tz : Z) (d : loc) (m : option Z) : M unit :=
  tv ← read d; write d (setMonth tz tv m).
End Obj.

(** * The functions of [core-js-dates-tasks.js] *)


(** [getTime]: [date.toLocaleTimeString()], in the ambient locale. *)
Definition getTime (locale : Locale) (tz : Z) (date : option Z) : string :=
  toLocaleTimeString locale tz date.

(** [getDayName]:
    [new Date(date).toLocaleDateString("en-US", {weekday: "long"})]. *)
Definition getDayName (tz : Z) (date : string) : result string :=
  tv ← Date_of_string tz date;
  mret (toLocaleDateString_en_US
          {| weekday := Some long; hour := None; minute := None; second := None;
             timeZone := None |}
          tz tv).

(** [getNextFriday]: the loop [while (dayName !== 5)]. *)
Fixpoint getNextFriday_while (fuel : nat) (tz : Z) (date : loc)
    (dayName day : option Z) : M unit :=
  if num_eqb dayName (Some 5) then mret tt
  else
    match fuel with
    | O => out_of_fuel
    | S fuel =>
        _ ← Obj.setDate tz date day;            (* date.setDate(day++) *)
        let day := num_add day (Some 1) in
        dayName ← Obj.getDay tz date;
        getNextFriday_while fuel tz date dayName day
    end.

Definition getNextFriday (fuel : nat) (tz : Z) (date : loc) : M loc :=
  dayName ← Obj.getDay tz date;
  day ← Obj.getDate tz date;
  let day := num_add day (Some 1) in
  _ ← Obj.setDate tz date day;                  (* date.setDate(++day) *)
  dayName ← Obj.getDay tz date;
  _ ← getNextFriday_while fuel tz date dayName day;
  mret date.

(** [getCountDaysInMonth]: [new Date(year, month, 0).getDate()]. *)
Definition getCountDaysInMonth (tz : Z) (month year : Z) : option Z :=
  getDate tz (Date_local tz (Some year) (Some month) (Some 0)).

(** [getCountDaysOnPeriod].  The quotient by the milliseconds of a day is
    a number of the model when the two instants are a whole number of
    days apart; the difference and the quotient are then exact. *)
Definition getCountDaysOnPeriod (tz : Z) (dateStart dateEnd : string)
  : result (option Z) :=
  e ← Date_of_string tz dateEnd;
  s ← Date_of_string tz dateStart;
  match valueOf e, valueOf s with
  | Some e, Some s =>
      if (e - s) mod (1000 * 60 * 60 * 24) =? 0
      then Ok (Some ((e - s) / (1000 * 60 * 60 * 24) + 1))
      else Stuck
  | _, _ => Ok None
  end.

(** [isDateInPeriod]; [&&] does not evaluate its right side when the
    left one is false. *)
Record DatePeriod := { start : string; end_ : string }.

Definition isDateInPeriod (tz : Z) (date : string) (period : DatePeriod)
  : result bool :=
  obj ← Date_of_string tz date;
  s ← Date_of_string tz (start period);
  if num_leb (valueOf s) (valueOf obj)          (* obj.valueOf() >= ... *)
  then e ← Date_of_string tz (end_ period); mret (num_leb (valueOf obj) (valueOf e))
  else mret false.

(** [formatDate]. *)
Definition formatDate (tz : Z) (date : string) : result string :=
  let options :=
    {| weekday := None; hour := Some numeric; minute := Some numeric;
       second := Some numeric; timeZone := Some Africa_Dakar |} in
  tv ← Date_of_string tz date;
  mret (toLocaleDateString_en_US options tz tv).

(** The rounds of a loop [for (let i = lo; i <= hi; i++)] whose body
    leaves [i] alone: none when a bound is NaN.  [rounds_lt] is the same
    for a loop [for (let i = lo; i < hi; i++)]. *)
Definition rounds (lo hi : option Z) : nat :=
  match lo, hi with
  | Some lo, Some hi => Z.to_nat (hi - lo + 1)
  | _, _ => O
  end.

Definition rounds_lt (lo hi : option Z) : nat :=
  match lo, hi with
  | Some lo, Some hi => Z.to_nat (hi - lo)
  | _, _ => O
  end.

(** [getCountWeekendsInMonth].  The local object [date] is threaded as its
    time value; what the code writes to the console is left out.
    [weekend_days n i (date, count)] is [n] rounds, from [i] on, of
    [for (let i = 2; i <= days; i++) { if (date.getDay() === 0 ||
    date.getDay() === 6) count++; date.setDate(i); }]. *)
Fixpoint weekend_days (tz : Z) (n : nat) (i : Z) (st : option Z * Z) : option Z * Z :=
  match n with
  | O => st
  | S n =>
      let '(date, count) := st in
      let count :=
        if num_eqb (getDay tz date) (Some 0) || num_eqb (getDay tz date) (Some 6)
        then count + 1 else count in
      let date := setDate tz date (Some i) in
      weekend_days tz n (i + 1) (date, count)
  end.

Definition getCountWeekendsInMonth (tz : Z) (month year : Z) : Z :=
  let count := 0 in
  let days := getDate tz (Date_local tz (Some year) (Some month) (Some 0)) in
  let date := Date_local tz (Some year) (Some (month - 1)) (Some 1) in
  let '(date, count) := weekend_days tz (rounds (Some 2) days) 2 (date, count) in
  if num_eqb (getDay tz date) (Some 0) || num_eqb (getDay tz date) (Some 6)
  then count + 1 else count.

(** [getWeekNumberByDate].  The local object [d] is threaded as its time
    value.  [scan_days n j (d, count)] is [n] rounds, from [j] on, of
    [for (let j = 2; j <= days; j++) { if (d.getDay() === 1) count++;
    d.setDate(j); }]. *)
Fixpoint scan_days (tz : Z) (n : nat) (j : Z) (st : option Z * Z) : option Z * Z :=
  match n with
  | O => st
  | S n =>
      let '(d, count) := st in
      let count := if num_eqb (getDay tz d) (Some 1) then count + 1 else count in
      let d := setDate tz d (Some j) in
      scan_days tz n (j + 1) (d, count)
  end.

(** The loop over [j] and the test that follows it. *)
Definition scan_month (tz : Z) (d days : option Z) (count : Z) : Z :=
  let '(d, count) := scan_days tz (rounds (Some 2) days) 2 (d, count) in
  if num_eqb (getDay tz d) (Some 1) then count + 1 else count.

(** [n] rounds, from [i] on, of [for (let i = 0; i < month; i++)]. *)
Fixpoint scan_months (tz : Z) (n : nat) (year : option Z) (i count : Z) : Z :=
  match n with
  | O => count
  | S n =>
      let d := Date_local tz year (Some i) (Some 1) in
      let days := getDate tz (Date_local tz year (Some (i + 1)) (Some 0)) in
      scan_months tz n year (i + 1) (scan_month tz d days count)
  end.

Definition getWeekNumberByDate (tz : Z) (date : option Z) : Z :=
  let year := getFullYear tz date in
  let month := getMonth tz date in
  let d := Date_local tz year (Some 0) (Some 1) in
  let dayName := getDay tz d in
  let count := if negb (num_eqb dayName (Some 1)) then 1 else 0 in
  let count := scan_months tz (rounds_lt (Some 0) month) year 0 count in
  let days := getDate tz date in
  let d := Date_local tz year month (Some 1) in
  scan_month tz d days count.

(** [getNextFridayThe13th].  The result is [None] when the function falls
    off its end ([undefined]).  [first_scan n i] is [n] rounds, from [i]
    on, of the loop over the rest of the month of [date]. *)
Fixpoint first_scan (tz : Z) (n : nat) (date : loc) (i : Z) : M (option loc) :=
  match n with
  | O => mret None
  | S n =>
      _ ← Obj.setDate tz date (Some i);
      dayName ← Obj.getDay tz date;
      if num_eqb dayName (Some 5) && (i =? 13) then mret (Some date)
      else first_scan tz n date (i + 1)
  end.

(** [n] rounds, from [j] on, of [for (let j = 1; j <= days; j++)]. *)
Fixpoint month_scan (tz : Z) (n : nat) (copy : loc) (j : Z) : M (option loc) :=
  match n with
  | O => mret None
  | S n =>
      _ ← Obj.setDate tz copy (Some j);
      dayName ← Obj.getDay tz copy;
      if num_eqb dayName (Some 5) && (j =? 13) then mret (Some copy)
      else month_scan tz n copy (j + 1)
  end.

(** [n] rounds, from [i] on, of [for (let i = month + 1; i < 11; i++)]. *)
Fixpoint later_months (tz : Z) (n : nat) (copy : loc) (i : Z) : M (option loc) :=
  match n with
  | O => mret None
  | S n =>
      y ← Obj.getFullYear tz copy;
      m ← Obj.getMonth tz copy;
      let days := getDate tz (Date_local tz y m (Some 0)) in
      _ ← Obj.setMonth tz copy (Some i);
      r ← month_scan tz (rounds (Some 1) days) copy 1;
      match r with
      | Some d => mret (Some d)
      | None => later_months tz n copy (i + 1)
      end
  end.

Definition getNextFridayThe13th (tz : Z) (date : loc) : M (option loc) :=
  t ← Obj.valueOf date;
  copy ← new_Date (Date_of_value t);
  day ← Obj.getDate tz date;
  y ← Obj.getFullYear tz date;
  m ← Obj.getMonth tz date;
  let days := getDate tz (Date_local tz y (num_add m (Some 1)) (Some 0)) in
  r ← match day with
      | Some day => first_scan tz (rounds (Some (day + 1)) days) date (day + 1)
      | None => mret None
      end;
  match r with
  | Some d => mret (Some d)
  | None =>
      month ← Obj.getMonth tz copy;
      match month with
      | Some month =>
          later_months tz (rounds_lt (Some (month + 1)) (Some 11)) copy (month + 1)
      | None => mret None
      end
  end.

(** [getQuarter]; [a > b] is [b < a]. *)
Definition getQuarter (tz : Z) (date : option Z) : Z :=
  let year := getFullYear tz date in
  let quarter := valueOf (Date_local tz year (Some 2) (Some 31)) in
  if num_leb (valueOf date) quarter then 1
  else if num_ltb quarter (valueOf date)
          && num_leb (valueOf date) (valueOf (Date_local tz year (Some 5) (Some 31)))
  then 2
  else if num_ltb (valueOf (Date_local tz year (Some 5) (Some 31))) (valueOf date)
          && num_leb (valueOf date) (valueOf (Date_local tz year (Some 8) (Some 31)))
  then 3
  else 4.

(** [getWorkSchedule]. *)

(** One entry: [String(j).padStart(2,"0") + "-" +
    String(m).padStart(2,"0") + "-" + year]. *)
Definition entry (j m year : Z) : string :=
  padStart 2 "0" (String_of_Z j) ++ "-" ++ padStart 2 "0" (String_of_Z m)
  ++ "-" ++ String_of_Z year.

(** The loop [for (let j = start; j <= days; j++)] of month [i], for a
    number [days]; its state is [j], [start], [count] and [schedule]. *)
Fixpoint month_days (fuel : nat) (countWorkDays countOffDays year i days : Z)
    (j start count : Z) (schedule : list string)
  : result (Z * Z * list string) :=
  if j <=? days then
    match fuel with
    | O => OutOfFuel
    | S fuel =>
        let schedule := schedule ++ [entry j (if 10 <=? i then i else i + 1) year] in
        let count := count + 1 in
        if countWorkDays <=? count then
          let count := 0 in
          let j := j + countOffDays in
          let start := if days <? j then start + (j - days) else start in
          month_days fuel countWorkDays countOffDays year i days (j + 1) start count schedule
        else
          month_days fuel countWorkDays countOffDays year i days (j + 1) start count schedule
    end
  else Ok (start, count, schedule).

(** [n] rounds, from [i] on, of [for (let i = monthStart; i < month; i++)];
    when [days] is NaN the loop over [j] runs no round. *)
Fixpoint months_before (fuel : nat) (tz : Z) (n : nat)
    (countWorkDays countOffDays year i : Z)
    (start count : Z) (schedule : list string)
  : result (Z * Z * list string) :=
  match n with
  | O => Ok (start, count, schedule)
  | S n =>
      let days := getDate tz (Date_local tz (Some year) (Some (i + 1)) (Some 0)) in
      match match days with
            | Some days =>
                month_days fuel countWorkDays countOffDays year i days
                  start start count schedule
            | None => Ok (start, count, schedule)
            end with
      | Ok (start, count, schedule) =>
          months_before fuel tz n countWorkDays countOffDays year (i + 1) start count schedule
      | OutOfFuel => OutOfFuel
      | Stuck => Stuck
      end
  end.

(** The loop [for (let i = start; i <= end; i++)] of the last month. *)
Fixpoint last_month (fuel : nat) (countWorkDays countOffDays year month end_ : Z)
    (i count : Z) (sch : list string) : result (list string) :=
  if i <=? end_ then
    match fuel with
    | O => OutOfFuel
    | S fuel =>
        let sch := sch ++ [entry i (if 10 <=? month then month else month + 1) year] in
        let count := count + 1 in
        if countWorkDays <=? count then
          let count := 0 in
          let i := i + countOffDays in
          last_month fuel countWorkDays countOffDays year month end_ (i + 1) count sch
        else
          last_month fuel countWorkDays countOffDays year month end_ (i + 1) count sch
    end
  else Ok sch.

(** [s[0] == 0] and [s[0] == "0"] on a string of digits. *)
Definition first_is_zero (s : string) : bool :=
  match s with
  | String c _ => Ascii.eqb c "0"
  | EmptyString => false
  end.

Definition getWorkSchedule (fuel : nat) (tz : Z) (period : DatePeriod)
    (countWorkDays countOffDays : Z) : result (list string) :=
  let ps := split "-" (start period) in
  let pe := split "-" (end_ period) in
  match ps !! 0%nat ≫= Number_of_string, pe !! 0%nat ≫= Number_of_string,
        pe !! 2%nat ≫= Number_of_string,
        pe !! 1%nat, ps !! 1%nat with
  | Some start, Some end_, Some year, Some month, Some monthStart =>
      match Number_of_string monthStart, Number_of_string month with
      | Some nStart, Some nEnd =>
          let count := 0 in
          let monthStart := if first_is_zero monthStart then nStart - 1 else nStart in
          let month := if first_is_zero month then nEnd - 1 else nEnd in
          match months_before fuel tz (Z.to_nat (month - monthStart))
                  countWorkDays countOffDays year monthStart start count [] with
          | Ok (start, count, schedule) =>
              match last_month fuel countWorkDays countOffDays year month end_
                      start count [] with
              | Ok sch => Ok (schedule ++ sch)
              | OutOfFuel => OutOfFuel
              | Stuck => Stuck
              end
          | OutOfFuel => OutOfFuel
          | Stuck => Stuck
          end
      | _, _ => Stuck
      end
  | _, _, _, _, _ => Stuck
  end.

(** [isLeapYear]. *)
Definition isLeapYear (tz : Z) (date : option Z) : bool :=
  let year := getFullYear tz date in
  if negb (num_eqb (num_rem year (Some 4)) (Some 0)) then false
  else if negb (num_eqb (num_rem year (Some 100)) (Some 0)) then true
  else if negb (num_eqb (num_rem year (Some 400)) (Some 0)) then false
  else true.

(** * Notions of the specification *)

(** The strings of the model that fix their instant by themselves: the
    date-only form, the date-time forms that end in a zone designator
    ([Z] or an offset), and the [UTC] form. *)
Definition utc_form (s : string) : bool :=
  match iso_date s with
  | Some (y, mo, d) =>
      if Nat.eqb (String.length s) 10 then date_only y mo d
      else
        match iso_time s with
        | Some (_, _, _, _, p) =>
            negb (Nat.eqb (String.length s) p)
            && match iso_zone 0 s p with Some _ => true | None => false end
        | None => false
        end
  | None => match parse_legacy s with Some _ => true | None => false end
  end.

(** The week counter in the words of the specification: 1 if January 1
    of the year of the date is not a Monday, else 0, plus one for every
    Monday among the days from January 1 up to and including the date.
    Days are numbered from the epoch. *)

Fixpoint mondays_from (n : nat) (k : Z) : Z :=
  match n with
  | O => 0
  | S n => (if WeekDayOfDay k =? 1 then 1 else 0) + mondays_from n (k + 1)
  end.

Definition week_counter (tz : Z) (date : Z) : Z :=
  let today := Day (LocalTime tz date) in
  let jan1 := DayFromYear (YearFromDay today) in
  (if WeekDayOfDay jan1 =? 1 then 0 else 1)
  + mondays_from (Z.to_nat (today - jan1 + 1)) jan1.

(** The quarter of a month numbered from 0. *)
Definition quarter_of_month (m : Z) : Z := m / 3 + 1.

(** The days of the schedule inside one month, in the words of the
    specification: day [j] of [start..end] is a work day when its offset
    from [start] falls in the first [workDays] days of a cycle. *)
Definition work_day (workDays offDays start j : Z) : bool :=
  (j - start) mod (workDays + offDays) <? workDays.

Fixpoint days_from (n : nat) (j : Z) : list Z :=
  match n with
  | O => []
  | S n => j :: days_from n (j + 1)
  end.

Definition work_days (workDays offDays start end_ : Z) : list Z :=
  List.filter (work_day workDays offDays start)
              (days_from (Z.to_nat (end_ - start + 1)) start).

(** A date in the form [DD-MM-YYYY]. *)
Definition dd_mm_yyyy (d m y : Z) : string :=
  padStart 2 "0" (String_of_Z d) ++ "-" ++ padStart 2 "0" (String_of_Z m)
  ++ "-" ++ padStart 4 "0" (String_of_Z y).


(** * Auxiliary definitions of the proofs *)

(** ** Reading the fields of a [DD-MM-YYYY] string *)

Fixpoint no_dash (s : string) : bool :=
  match s with
  | EmptyString => true
  | String c r => negb (Ascii.eqb c "-") && no_dash r
  end.

(** [n], printed on [width] digits, has no hyphen and reads back as [n]. *)
Definition reads_back (width : nat) (n : Z) : bool :=
  let s := padStart width "0" (String_of_Z n) in
  no_dash s
  && match Number_of_string s with
     | Some v => v =? n
     | None => false
     end.


Definition four_digits (y : Z) : bool :=
  reads_back 4 y
  && String.eqb (padStart 4 "0" (String_of_Z y)) (String_of_Z y).

(** Day [j] is a work day for a walk that stands on day [i] with [c] work
    days of the current cycle behind it. *)
Definition in_work_phase (w o i c j : Z) : bool := (j - i + c) mod (w + o) <? w.

(** ** Days instead of time values *)

(** A month from 0 to 11 and a day of that month. *)
Definition civil_ok (y m dd : Z) : Prop :=
  0 <= m <= 11 /\ 1 <= dd <= DaysInMonth y m.

(** [setDate] and the loop of [getNextFriday] on day numbers: the time
    within the day and the zone play no part in them. *)
Definition set_day (d n : Z) : Z := MakeDay (YearFromDay d) (MonthFromDay d) n.

Fixpoint friday_from (fuel : nat) (d day : Z) : option Z :=
  if WeekDayOfDay d =? 5 then Some d
  else
    match fuel with
    | O => None
    | S fuel => friday_from fuel (set_day d day) (day + 1)
    end.

Definition next_friday_day (fuel : nat) (d : Z) : option Z :=
  let day := DateFromDay d + 1 in
  friday_from fuel (set_day d day) day.

(** ** The same loop on a calendar cursor

    A cursor keeps the day number with its weekday, year, month and day
    of month, so that a step needs no division of day numbers: day [n]
    of the month of the cursor is found by walking over whole months. *)

Fixpoint norm (k : nat) (y m n : Z) : option (Z * Z * Z) :=
  let len := DaysInMonth y m in
  if n <=? len then Some (y, m, n)
  else
    match k with
    | O => None
    | S k =>
        if m =? 11 then norm k (y + 1) 0 (n - len)
        else norm k y (m + 1) (n - len)
    end.

Record cursor := { c_day : Z; c_wd : Z; c_y : Z; c_m : Z; c_d : Z }.

Definition cursor_ok (st : cursor) : Prop :=
  civil_ok (c_y st) (c_m st) (c_d st)
  /\ MakeDay (c_y st) (c_m st) (c_d st) = c_day st
  /\ c_wd st = WeekDayOfDay (c_day st).

Definition fast_set (st : cursor) (n : Z) : option cursor :=
  match norm 4 (c_y st) (c_m st) n with
  | Some (y, m, d) =>
      Some {| c_day := c_day st + (n - c_d st);
              c_wd := (c_wd st + (n - c_d st)) mod 7;
              c_y := y; c_m := m; c_d := d |}
  | None => None
  end.

Fixpoint fast_while (fuel : nat) (st : cursor) (day : Z) : option Z :=
  if c_wd st =? 5 then Some (c_day st)
  else
    match fuel with
    | O => None
    | S fuel =>
        match fast_set st day with
        | Some st' => fast_while fuel st' (day + 1)
        | None => None
        end
    end.

Definition fast_next_friday (fuel : nat) (st : cursor) : option Z :=
  let day := c_d st + 1 in
  match fast_set st day with
  | Some st' => fast_while fuel st' day
  | None => None
  end.

(** The loop started on the day of the cursor ends, within 62 rounds, on
    a later day. *)
Definition fast_ok (st : cursor) : bool :=
  match fast_next_friday 62 st with
  | Some r => c_day st <? r
  | None => false
  end.

(** [fast_ok] on [n] days in a row. *)
Fixpoint check_all (n : nat) (st : cursor) : bool :=
  match n with
  | O => true
  | S n =>
      if fast_ok st then
        match fast_set st (c_d st + 1) with
        | Some st' => check_all n st'
        | None => false
        end
      else false
  end.

Definition epoch_cursor : cursor :=
  {| c_day := 0; c_wd := 4; c_y := 1970; c_m := 0; c_d := 1 |}.

(** The days of 400 years. *)
Definition period_days : Z := 146097.

(** ** Counting weekend days *)

(** The Saturdays and Sundays among [n] days from day [k] on. *)
Fixpoint weekends_from (n : nat) (k : Z) : Z :=
  match n with
  | O => 0
  | S n =>
      (if (WeekDayOfDay k =? 0) || (WeekDayOfDay k =? 6) then 1 else 0)
      + weekends_from n (k + 1)
  end.

(** ** The next Friday *)

(** Days from a day of weekday [w] to the first Friday after it. *)
Definition days_to_friday (w : Z) : Z := if w =? 5 then 7 else (5 - w) mod 7.

(** ** Friday the 13th *)

(** A date found by a scan is a Friday the 13th. *)
Definition friday_13th (tz : Z) (h : heap) (res : option loc) : Prop :=
  match res with
  | None => True
  | Some r =>
      exists t, h !! r = Some (Some t)
                /\ local_weekday tz t = 5 /\ local_date tz t = 13
  end.

(** The two halves of [getNextFridayThe13th]: the scan of the rest of the
    month, and the scan of the later months on the copy. *)
Definition rest_of_month (tz : Z) (date : loc) (tv : option Z) : M (option loc) :=
  match getDate tz tv with
  | Some day =>
      first_scan tz
        (rounds (Some (day + 1))
           (getDate tz (Date_local tz (getFullYear tz tv)
                                   (num_add (getMonth tz tv) (Some 1)) (Some 0))))
        date (day + 1)
  | None => mret None
  end.

Definition rest_of_year (tz : Z) (copy : loc) : M (option loc) :=
  month ← Obj.getMonth tz copy;
  match month with
  | Some month =>
      later_months tz (rounds_lt (Some (month + 1)) (Some 11)) copy (month + 1)
  | None => mret None
  end.

(** ** Cursors *)

(** A cursor that is valid stands on local day [k]. *)
Definition on_day (tz : Z) (d : option Z) (k : Z) : Prop :=
  match d with
  | Some t => Day (LocalTime tz t) = k
  | None => True
  end.

(** ** The time range *)

(** The offset of a zone is less than a day. *)
Definition time_zone (tz : Z) : Prop := - msPerDay < tz < msPerDay.

(** The days whose every local time is inside the time range, in every
    zone. *)
Definition safe_day (d : Z) : Prop := -99999998 <= d <= 99999998.

(** The years whose days, and those of a month before and after, are all
    safe: every year but the first and the last of the time range. *)
Definition year_ok (y : Z) : Prop := -271820 <= y <= 275759.

(** The days from which a walk of [fuel] steps, each to a day number of
    at most 100 in the month of the day before, meets safe days only. *)
Definition walk_ok (fuel : nat) (d : Z) : Prop :=
  -99999998 + 31 * Z.of_nat fuel <= d <= 99999998 - 100 * Z.of_nat fuel.

(** The years that are at least twenty years from the ends of the time
    range: a walk of 63 steps from one of their days is safe. *)
Definition scan_year (y : Z) : Prop := -271800 <= y <= 275700.

(** * Properties *)

(** ** The platform model on the examples of the source *)

Example parse_epoch tz : Date_parse tz "01 Jan 1970 00:00:00 UTC" = Ok (Some 0).
Proof. reflexivity. Qed.
Example parse_1995 tz : Date_parse tz "04 Dec 1995 00:12:00 UTC" = Ok (Some 818035920000).
Proof. reflexivity. Qed.
Example parse_iso_z tz : Date_parse tz "2024-01-30T00:00:00.000Z" = Ok (Some 1706572800000).
Proof. reflexivity. Qed.
Example parse_iso_local :
  Date_parse 3600000 "2024-01-30T00:00:00" = Ok (Some (1706572800000 - 3600000)).
Proof. reflexivity. Qed.
Example parse_iso_offset tz :
  Date_parse tz "2024-01-30T00:00:00+01:00" = Ok (Some (1706572800000 - 3600000)).
Proof. reflexivity. Qed.
Example parse_carried tz : Date_parse tz "2024-02-30" = Date_parse tz "2024-03-01".
Proof. reflexivity. Qed.
Example parse_month_13 tz : Date_parse tz "2024-13-01" = Ok None.
Proof. reflexivity. Qed.
Example parse_two_digit_year tz :
  Date_parse tz "01 Jan 0050 00:00:00 UTC" = Date_parse tz "01 Jan 1950 00:00:00 UTC".
Proof. reflexivity. Qed.
Example parse_no_digit tz : Date_parse tz "next tuesday" = Ok None.
Proof. reflexivity. Qed.
Example parse_other tz : Date_parse tz "Jan 30 2024" = Stuck.
Proof. reflexivity. Qed.

(** ** Local time and UTC *)

Lemma LocalTime_UTC tz t : LocalTime tz (UTC tz t) = t.
Proof. unfold LocalTime, UTC. lia. Qed.

Lemma UTC_LocalTime tz t : UTC tz (LocalTime tz t) = t.
Proof. unfold LocalTime, UTC. lia. Qed.

Lemma UTC_leb tz a b : (UTC tz a <=? UTC tz b) = (a <=? b).
Proof. unfold UTC. destruct (Z.leb_spec a b), (Z.leb_spec (a - tz) (b - tz)); lia. Qed.

Lemma UTC_ltb tz a b : (UTC tz a <? UTC tz b) = (a <? b).
Proof. unfold UTC. destruct (Z.ltb_spec a b), (Z.ltb_spec (a - tz) (b - tz)); lia. Qed.

(** ** Clipping *)

Lemma TimeClip_in t : Z.abs t <= maxTime -> TimeClip t = Some t.
Proof. intros H. unfold TimeClip. destruct (Z.leb_spec (Z.abs t) maxTime); [reflexivity | lia]. Qed.

Lemma TimeClip_out t : maxTime < Z.abs t -> TimeClip t = None.
Proof. intros H. unfold TimeClip. destruct (Z.leb_spec (Z.abs t) maxTime); [lia | reflexivity]. Qed.

Lemma TimeClip_Some t t' : TimeClip t = Some t' -> t' = t /\ Z.abs t <= maxTime.
Proof.
  unfold TimeClip. destruct (Z.leb_spec (Z.abs t) maxTime) as [L|L]; [| discriminate].
  intros E. injection E as <-. now split.
Qed.

(** ** The calendar *)

Lemma div4_step y :
  (y + 1 - 1969) / 4 = (y - 1969) / 4 + (if y mod 4 =? 0 then 1 else 0).
Proof. destruct (Z.eqb_spec (y mod 4) 0); Z.div_mod_to_equations; lia. Qed.

Lemma div100_step y :
  (y + 1 - 1901) / 100 = (y - 1901) / 100 + (if y mod 100 =? 0 then 1 else 0).
Proof. destruct (Z.eqb_spec (y mod 100) 0); Z.div_mod_to_equations; lia. Qed.

Lemma div400_step y :
  (y + 1 - 1601) / 400 = (y - 1601) / 400 + (if y mod 400 =? 0 then 1 else 0).
Proof. destruct (Z.eqb_spec (y mod 400) 0); Z.div_mod_to_equations; lia. Qed.

Lemma mod400_100 y : y mod 400 = 0 -> y mod 100 = 0.
Proof. intros. Z.div_mod_to_equations. lia. Qed.

Lemma mod100_4 y : y mod 100 = 0 -> y mod 4 = 0.
Proof. intros. Z.div_mod_to_equations. lia. Qed.

(** A year has the days that separate its first day from the next. *)
Lemma DayFromYear_step y : DayFromYear (y + 1) = DayFromYear y + DaysInYear y.
Proof.
  unfold DayFromYear, DaysInYear, leap.
  rewrite div4_step, div100_step, div400_step.
  destruct (Z.eqb_spec (y mod 4) 0) as [H4|H4];
    destruct (Z.eqb_spec (y mod 100) 0) as [H100|H100];
    destruct (Z.eqb_spec (y mod 400) 0) as [H400|H400]; cbn [negb];
    try (apply mod400_100 in H400); try (apply mod100_4 in H100); lia.
Qed.

Lemma DaysInYear_pos y : 365 <= DaysInYear y <= 366.
Proof. unfold DaysInYear. destruct (leap y); lia. Qed.

Lemma DayFromYear_approx y :
  146097 * (y - 1970) - 607 <= 400 * DayFromYear y <= 146097 * (y - 1970) + 593.
Proof. unfold DayFromYear. Z.div_mod_to_equations. lia. Qed.

(** [YearFromDay d] is the year whose days hold day [d]. *)
Lemma YearFromDay_spec d :
  DayFromYear (YearFromDay d) <= d < DayFromYear (YearFromDay d + 1).
Proof.
  unfold YearFromDay.
  set (y := 1970 + 400 * d / 146097).
  assert (Hy : 146097 * (y - 1970) <= 400 * d < 146097 * (y - 1970) + 146097)
    by (subst y; Z.div_mod_to_equations; lia).
  clearbody y.
  pose proof (DayFromYear_approx (y - 1)) as A0.
  pose proof (DayFromYear_approx y) as A1.
  pose proof (DayFromYear_approx (y + 1)) as A2.
  pose proof (DayFromYear_approx (y + 2)) as A3.
  destruct (Z.ltb_spec d (DayFromYear y)).
  - replace (y - 1 + 1) with y by lia. lia.
  - destruct (Z.leb_spec (DayFromYear (y + 1)) d).
    + replace (y + 1 + 1) with (y + 2) by lia. lia.
    + lia.
Qed.

Lemma DayFromYear_mono_nat y (n : nat) :
  DayFromYear y + 365 * Z.of_nat n <= DayFromYear (y + Z.of_nat n).
Proof.
  induction n as [|n IH].
  - replace (y + Z.of_nat 0) with y by lia. lia.
  - replace (y + Z.of_nat (S n)) with (y + Z.of_nat n + 1) by lia.
    rewrite DayFromYear_step. pose proof (DaysInYear_pos (y + Z.of_nat n)). lia.
Qed.

Lemma DayFromYear_lt y y' : y < y' -> DayFromYear (y + 1) <= DayFromYear y'.
Proof.
  intros H. pose proof (DayFromYear_mono_nat (y + 1) (Z.to_nat (y' - (y + 1)))) as M.
  replace (y + 1 + Z.of_nat (Z.to_nat (y' - (y + 1)))) with y' in M by lia. lia.
Qed.

Lemma YearFromDay_unique d y :
  DayFromYear y <= d < DayFromYear (y + 1) -> YearFromDay d = y.
Proof.
  intros H. pose proof (YearFromDay_spec d) as S.
  destruct (Z.lt_trichotomy (YearFromDay d) y) as [L|[E|G]]; [| exact E |].
  - pose proof (DayFromYear_lt _ _ L). lia.
  - pose proof (DayFromYear_lt _ _ G). lia.
Qed.

(** *** Year, month and day of a day number *)

Lemma MakeDay_in_year y m n :
  0 <= m <= 11 ->
  MakeDay y m n = DayFromYear y + DaysBeforeMonth (leap y) m + n - 1.
Proof.
  intros Hm. unfold MakeDay.
  assert (m / 12 = 0 /\ m mod 12 = m) as [-> ->]
    by (Z.div_mod_to_equations; lia).
  now rewrite Z.add_0_r.
Qed.

Lemma month_cases m :
  0 <= m <= 11 ->
  m = 0 \/ m = 1 \/ m = 2 \/ m = 3 \/ m = 4 \/ m = 5 \/ m = 6 \/ m = 7
  \/ m = 8 \/ m = 9 \/ m = 10 \/ m = 11.
Proof. lia. Qed.

Ltac each_month H :=
  apply month_cases in H;
  repeat (destruct H as [->|H]); [ .. | subst ].

Lemma MakeDay_day_of_year y m dd :
  civil_ok y m dd ->
  0 <= DaysBeforeMonth (leap y) m + dd - 1 < DaysInYear y.
Proof.
  intros [Hm Hd]. unfold DaysInYear. revert Hd.
  each_month Hm; cbn [DaysInMonth DaysBeforeMonth]; destruct (leap y); lia.
Qed.

Lemma YearFromDay_MakeDay y m dd :
  civil_ok y m dd -> YearFromDay (MakeDay y m dd) = y.
Proof.
  intros H. pose proof (MakeDay_day_of_year y m dd H) as B.
  destruct H as [Hm _]. rewrite MakeDay_in_year by exact Hm.
  apply YearFromDay_unique. rewrite DayFromYear_step. lia.
Qed.

Ltac ltb_cases :=
  repeat match goal with
         | |- context [?a <? ?b] => destruct (Z.ltb_spec a b); try lia
         end.

Lemma MonthFromDay_MakeDay y m dd :
  civil_ok y m dd -> MonthFromDay (MakeDay y m dd) = m.
Proof.
  intros H. unfold MonthFromDay. rewrite (YearFromDay_MakeDay y m dd H).
  destruct H as [Hm Hd]. rewrite MakeDay_in_year by exact Hm.
  replace (DayFromYear y + DaysBeforeMonth (leap y) m + dd - 1 - DayFromYear y)
    with (DaysBeforeMonth (leap y) m + dd - 1) by lia.
  revert Hd.
  each_month Hm; cbn [DaysInMonth DaysBeforeMonth]; destruct (leap y); intros Hd;
    ltb_cases; reflexivity.
Qed.

Lemma DateFromDay_MakeDay y m dd :
  civil_ok y m dd -> DateFromDay (MakeDay y m dd) = dd.
Proof.
  intros H. unfold DateFromDay.
  rewrite (MonthFromDay_MakeDay y m dd H), (YearFromDay_MakeDay y m dd H).
  destruct H as [Hm Hd]. rewrite MakeDay_in_year by exact Hm.
  each_month Hm; cbn [DaysBeforeMonth]; destruct (leap y); lia.
Qed.

Lemma MonthFromDay_range d : 0 <= MonthFromDay d <= 11.
Proof. unfold MonthFromDay. ltb_cases. Qed.

(** Every day number is the day of its year, month and day of month. *)
Lemma civil_of_day d :
  civil_ok (YearFromDay d) (MonthFromDay d) (DateFromDay d)
  /\ MakeDay (YearFromDay d) (MonthFromDay d) (DateFromDay d) = d.
Proof.
  pose proof (MonthFromDay_range d) as R.
  rewrite MakeDay_in_year by exact R. unfold civil_ok.
  pose proof (YearFromDay_spec d) as S. rewrite DayFromYear_step in S.
  unfold DateFromDay, MonthFromDay, DaysInYear in *.
  set (y := YearFromDay d) in *. set (dy := d - DayFromYear y) in *.
  assert (Hd : d = DayFromYear y + dy) by (subst dy; lia).
  assert (Hdy : 0 <= dy < (if leap y then 366 else 365)) by (subst dy; lia).
  clearbody dy. clear S R.
  destruct (leap y) eqn:L; ltb_cases;
    cbn [DaysInMonth DaysBeforeMonth]; rewrite ?L; lia.
Qed.

Lemma MakeDay_add y m n k : MakeDay y m (n + k) = MakeDay y m n + k.
Proof. unfold MakeDay. lia. Qed.

(** Past the last day of a month [MakeDay] runs into the next month, and
    past December into January of the next year. *)
Lemma MakeDay_rollover y m n :
  0 <= m <= 11 ->
  MakeDay y m n
  = if m =? 11 then MakeDay (y + 1) 0 (n - DaysInMonth y m)
    else MakeDay y (m + 1) (n - DaysInMonth y m).
Proof.
  intros Hm. rewrite (MakeDay_in_year y m) by exact Hm.
  destruct (Z.eqb_spec m 11) as [->|Hne].
  - rewrite (MakeDay_in_year (y + 1) 0) by lia.
    rewrite DayFromYear_step. unfold DaysInYear.
    cbn [DaysInMonth DaysBeforeMonth]. destruct (leap y), (leap (y + 1)); lia.
  - rewrite (MakeDay_in_year y (m + 1)) by lia.
    each_month Hm; try lia;
      match goal with
      | |- context [DaysBeforeMonth _ (?a + 1)] =>
          let v := eval vm_compute in (a + 1) in change (a + 1) with v
      end;
      cbn [DaysInMonth DaysBeforeMonth]; destruct (leap y); lia.
Qed.

(** *** The period of 400 years *)

Lemma DayFromYear_400 y k : DayFromYear (y + 400 * k) = DayFromYear y + 146097 * k.
Proof. unfold DayFromYear. Z.div_mod_to_equations. lia. Qed.

Lemma leap_400 y k : leap (y + 400 * k) = leap y.
Proof.
  unfold leap.
  assert ((y + 400 * k) mod 4 = y mod 4) as -> by (Z.div_mod_to_equations; lia).
  assert ((y + 400 * k) mod 100 = y mod 100) as -> by (Z.div_mod_to_equations; lia).
  assert ((y + 400 * k) mod 400 = y mod 400) as -> by (Z.div_mod_to_equations; lia).
  reflexivity.
Qed.

Lemma YearFromDay_400 d k : YearFromDay (d + 146097 * k) = YearFromDay d + 400 * k.
Proof.
  apply YearFromDay_unique. pose proof (YearFromDay_spec d) as S.
  replace (YearFromDay d + 400 * k + 1) with (YearFromDay d + 1 + 400 * k) by lia.
  rewrite !DayFromYear_400. lia.
Qed.

Lemma MonthFromDay_400 d k : MonthFromDay (d + 146097 * k) = MonthFromDay d.
Proof.
  unfold MonthFromDay. rewrite YearFromDay_400, DayFromYear_400, leap_400.
  replace (d + 146097 * k - (DayFromYear (YearFromDay d) + 146097 * k))
    with (d - DayFromYear (YearFromDay d)) by lia.
  reflexivity.
Qed.

Lemma DateFromDay_400 d k : DateFromDay (d + 146097 * k) = DateFromDay d.
Proof.
  unfold DateFromDay. rewrite MonthFromDay_400, YearFromDay_400, DayFromYear_400, leap_400.
  replace (d + 146097 * k - (DayFromYear (YearFromDay d) + 146097 * k))
    with (d - DayFromYear (YearFromDay d)) by lia.
  reflexivity.
Qed.

Lemma WeekDayOfDay_400 d k : WeekDayOfDay (d + 146097 * k) = WeekDayOfDay d.
Proof. unfold WeekDayOfDay. Z.div_mod_to_equations. lia. Qed.

Lemma MakeDay_400 y m n k : MakeDay (y + 400 * k) m n = MakeDay y m n + 146097 * k.
Proof.
  unfold MakeDay.
  replace (y + 400 * k + m / 12) with (y + m / 12 + 400 * k) by lia.
  rewrite DayFromYear_400, leap_400. lia.
Qed.

(** *** Time values and their days *)

Lemma Day_MakeDate d tw : 0 <= tw < msPerDay -> Day (MakeDate d tw) = d.
Proof.
  intros H. unfold Day, MakeDate, msPerDay in *. Z.div_mod_to_equations. lia.
Qed.

Lemma TimeWithinDay_MakeDate d tw :
  0 <= tw < msPerDay -> TimeWithinDay (MakeDate d tw) = tw.
Proof.
  intros H. unfold TimeWithinDay, MakeDate, msPerDay in *. Z.div_mod_to_equations. lia.
Qed.

Lemma TimeWithinDay_range t : 0 <= TimeWithinDay t < msPerDay.
Proof. unfold TimeWithinDay, msPerDay. Z.div_mod_to_equations. lia. Qed.

Lemma MakeDate_Day t : MakeDate (Day t) (TimeWithinDay t) = t.
Proof. unfold MakeDate, Day, TimeWithinDay, msPerDay. Z.div_mod_to_equations. lia. Qed.

(** ** Days and years inside the time range *)

Lemma DayFromYear_le y y' : y <= y' -> DayFromYear y <= DayFromYear y'.
Proof.
  intros H. destruct (Z.eq_dec y y') as [->|Hne]; [lia |].
  pose proof (DayFromYear_lt y y' ltac:(lia)) as L.
  rewrite DayFromYear_step in L. pose proof (DaysInYear_pos y). lia.
Qed.

(** A local time of a safe day is a time value in every zone. *)
Lemma safe_time tz d tw :
  time_zone tz -> safe_day d -> 0 <= tw < msPerDay ->
  TimeClip (UTC tz (MakeDate d tw)) = Some (UTC tz (MakeDate d tw)).
Proof.
  unfold time_zone, safe_day. intros Hz Hd Ht. apply TimeClip_in.
  unfold UTC, MakeDate, maxTime, msPerDay in *. lia.
Qed.

(** The days of a year that is not at an end of the range, and those of
    a month before and after it, are safe. *)
Lemma year_ok_days y d :
  year_ok y -> DayFromYear y - 31 <= d <= DayFromYear (y + 1) + 31 -> safe_day d.
Proof.
  unfold year_ok, safe_day. intros Hy Hd.
  pose proof (DayFromYear_le (-271820) y ltac:(lia)) as L.
  pose proof (DayFromYear_le (y + 1) 275760 ltac:(lia)) as U.
  change (DayFromYear (-271820)) with (-99999744) in L.
  change (DayFromYear 275760) with 99999744 in U. lia.
Qed.

(** The days that [MakeDay] reaches from a month of a year with a day
    number from 0 to 32. *)
Lemma MakeDay_near_year y m n :
  0 <= m <= 12 -> 0 <= n <= 32 ->
  DayFromYear y - 31 <= MakeDay y m n <= DayFromYear (y + 1) + 31.
Proof.
  intros Hm Hn. destruct (Z.eq_dec m 12) as [->|Hne].
  - unfold MakeDay. change (12 / 12) with 1. change (12 mod 12) with 0.
    cbn [DaysBeforeMonth]. pose proof (DayFromYear_step y) as S.
    pose proof (DaysInYear_pos y). lia.
  - rewrite MakeDay_in_year by lia. rewrite DayFromYear_step.
    unfold DaysInYear.
    assert (Hm' : 0 <= m <= 11) by lia. clear Hm Hne.
    each_month Hm'; cbn [DaysBeforeMonth]; destruct (leap y); lia.
Qed.

Lemma local_year_days tz t :
  DayFromYear (local_year tz t) <= Day (LocalTime tz t)
  < DayFromYear (local_year tz t + 1).
Proof. apply YearFromDay_spec. Qed.

(** *** Constructors and setters that do not clip *)

Lemma Date_of_fields_ok tz y m n h mi s :
  time_zone tz -> year_ok (MakeFullYear y) -> 0 <= m <= 12 -> 0 <= n <= 32 ->
  0 <= h < 24 -> 0 <= mi < 60 -> 0 <= s < 60 ->
  Date_of_fields tz (Some y) (Some m) (Some n) (Some h) (Some mi) (Some s)
  = Some (time_of_fields tz y m n h mi s).
Proof.
  intros Hz Hy Hm Hn Hh Hmi Hs. unfold Date_of_fields, time_of_fields.
  apply safe_time; [exact Hz | |].
  - apply (year_ok_days _ _ Hy). now apply MakeDay_near_year.
  - unfold MakeTime, msPerDay, msPerHour, msPerMinute, msPerSecond. lia.
Qed.

Lemma Date_local_ok tz y m n :
  time_zone tz -> year_ok (MakeFullYear y) -> 0 <= m <= 12 -> 0 <= n <= 32 ->
  Date_local tz (Some y) (Some m) (Some n) = Some (time_of_date tz y m n).
Proof.
  intros Hz Hy Hm Hn. unfold Date_local, time_of_date.
  apply Date_of_fields_ok; trivial; lia.
Qed.

(** ** Work schedule *)

Section Ranges.

(** A property checked on every number of a range holds for each of them. *)
Lemma days_from_forallb (P : Z -> bool) n lo :
  forallb P (days_from n lo) = true ->
  forall z, lo <= z < lo + Z.of_nat n -> P z = true.
Proof.
  revert lo. induction n as [|n IH]; intros lo H z Hz.
  - simpl in Hz. lia.
  - cbn [days_from forallb] in H. apply andb_prop in H as [H0 H1].
    destruct (Z.eq_dec z lo) as [->|Hne]; [exact H0 |].
    apply (IH (lo + 1)); [exact H1 | lia].
Qed.

Lemma range_forallb (P : Z -> bool) lo hi :
  forallb P (days_from (Z.to_nat (hi - lo + 1)) lo) = true ->
  forall z, lo <= z <= hi -> P z = true.
Proof. intros H z Hz. apply (days_from_forallb P _ lo H). lia. Qed.

Lemma days_from_app a b lo :
  days_from (a + b) lo = days_from a lo ++ days_from b (lo + Z.of_nat a).
Proof.
  revert lo. induction a as [|a IH]; intros lo.
  - simpl. now rewrite Z.add_0_r.
  - cbn [Nat.add days_from]. rewrite IH. cbn [app]. do 3 f_equal. lia.
Qed.

Lemma filter_days_from_ext (P Q : Z -> bool) n lo :
  (forall z, lo <= z < lo + Z.of_nat n -> P z = Q z) ->
  List.filter P (days_from n lo) = List.filter Q (days_from n lo).
Proof.
  revert lo. induction n as [|n IH]; intros lo H; [reflexivity |].
  cbn [days_from List.filter]. rewrite (H lo) by lia.
  rewrite (IH (lo + 1)); [reflexivity |]. intros z Hz. apply H. lia.
Qed.

Lemma filter_days_from_none (P : Z -> bool) n lo :
  (forall z, lo <= z < lo + Z.of_nat n -> P z = false) ->
  List.filter P (days_from n lo) = [].
Proof.
  revert lo. induction n as [|n IH]; intros lo H; [reflexivity |].
  cbn [days_from List.filter]. rewrite (H lo) by lia.
  apply IH. intros z Hz. apply H. lia.
Qed.

End Ranges.

(** *** Reading the fields of a [DD-MM-YYYY] string *)

Lemma split_no_dash s : no_dash s = true -> split "-" s = [s].
Proof.
  induction s as [|c r IH]; [reflexivity |].
  cbn [no_dash split]. intros H. apply andb_prop in H as [Hc Hr].
  apply negb_true_iff in Hc. rewrite Hc, (IH Hr). reflexivity.
Qed.

Lemma split_field s r :
  no_dash s = true -> split "-" (s ++ String "-" r) = s :: split "-" r.
Proof.
  induction s as [|c s IH]; intros H.
  - reflexivity.
  - cbn [no_dash] in H. apply andb_prop in H as [Hc Hs].
    apply negb_true_iff in Hc.
    change ((String c s ++ String "-" r)%string) with (String c (s ++ String "-" r)%string).
    cbn [split]. rewrite Hc, (IH Hs). reflexivity.
Qed.

Lemma two_digits_read_back n :
  0 <= n <= 99 ->
  no_dash (padStart 2 "0" (String_of_Z n)) = true /\
  Number_of_string (padStart 2 "0" (String_of_Z n)) = Some n.
Proof.
  intros Hn.
  assert (H : reads_back 2 n = true).
  { apply (range_forallb (reads_back 2) 0 99); [vm_compute; reflexivity | lia]. }
  unfold reads_back in H. apply andb_prop in H as [H1 H2]. split; [exact H1 |].
  destruct (Number_of_string _) as [v|]; [| discriminate].
  apply Z.eqb_eq in H2. now subst.
Qed.

Lemma year_reads_back y :
  1000 <= y <= 9999 ->
  no_dash (padStart 4 "0" (String_of_Z y)) = true /\
  Number_of_string (padStart 4 "0" (String_of_Z y)) = Some y /\
  padStart 4 "0" (String_of_Z y) = String_of_Z y.
Proof.
  intros Hy.
  assert (H : four_digits y = true).
  { apply (range_forallb four_digits 1000 9999); [vm_compute; reflexivity | lia]. }
  unfold four_digits, reads_back in H.
  apply andb_prop in H as [H H3]. apply andb_prop in H as [H1 H2].
  split; [exact H1 |]. split.
  - destruct (Number_of_string _) as [v|]; [| discriminate].
    apply Z.eqb_eq in H2. now subst.
  - now apply String.eqb_eq.
Qed.

Lemma month_field m :
  1 <= m <= 12 ->
  (if 10 <=? (if first_is_zero (padStart 2 "0" (String_of_Z m)) then m - 1 else m)
   then (if first_is_zero (padStart 2 "0" (String_of_Z m)) then m - 1 else m)
   else (if first_is_zero (padStart 2 "0" (String_of_Z m)) then m - 1 else m) + 1) = m.
Proof.
  intros Hm.
  assert (m = 1 \/ m = 2 \/ m = 3 \/ m = 4 \/ m = 5 \/ m = 6 \/ m = 7 \/ m = 8
          \/ m = 9 \/ m = 10 \/ m = 11 \/ m = 12) as H by lia.
  repeat (destruct H as [->|H]; [reflexivity |]). subst. reflexivity.
Qed.

Lemma split_dd_mm_yyyy d m y :
  0 <= d <= 99 -> 0 <= m <= 99 -> 1000 <= y <= 9999 ->
  split "-" (dd_mm_yyyy d m y)
  = [padStart 2 "0" (String_of_Z d); padStart 2 "0" (String_of_Z m);
     padStart 4 "0" (String_of_Z y)].
Proof.
  intros Hd Hm Hy. unfold dd_mm_yyyy.
  destruct (two_digits_read_back d Hd) as [Nd _].
  destruct (two_digits_read_back m Hm) as [Nm _].
  destruct (year_reads_back y Hy) as [Ny _].
  change (?a ++ "-" ++ ?b)%string with (a ++ String "-" b)%string.
  rewrite (split_field _ _ Nd).
  change (?a ++ "-" ++ ?b)%string with (a ++ String "-" b)%string.
  rewrite (split_field _ _ Nm), (split_no_dash _ Ny). reflexivity.
Qed.

(** ** Strings that [Date.parse] reads *)

Lemma digit_first a r v : Number_of_string (String a r) = Some v -> is_digit a = true.
Proof.
  unfold Number_of_string. cbn [NilEmpty.uint_of_string].
  destruct (NilEmpty.uint_of_string r) as [u|]; [| discriminate].
  destruct (uint_of_char a (Some u)) as [u'|] eqn:E; [| discriminate]. intros _.
  apply uint_of_char_spec in E.
  repeat (destruct E as [[-> _] | E]; [reflexivity |]).
  destruct E as [-> _]. reflexivity.
Qed.

Lemma has_digit_substring s : forall p l,
  has_digit (substring p l s) = true -> has_digit s = true.
Proof.
  induction s as [|c r IH]; intros p l; destruct p as [|p], l as [|l];
    cbn [substring has_digit]; try discriminate; trivial.
  - intros H. apply orb_prop in H as [H|H]; [now rewrite H |].
    apply IH in H. rewrite H. apply orb_true_r.
  - intros H. apply IH in H. rewrite H. apply orb_true_r.
  - intros H. apply IH in H. rewrite H. apply orb_true_r.
Qed.

Lemma field_has_digit s p l v : field s p (S l) = Some v -> has_digit s = true.
Proof.
  unfold field. destruct (substring p (S l) s) as [|a r] eqn:F; [discriminate |].
  destruct (Nat.eqb (String.length (String a r)) (S l)); [| discriminate].
  intros H. apply digit_first in H.
  apply (has_digit_substring s p (S l)). rewrite F. cbn [has_digit]. now rewrite H.
Qed.

Lemma iso_date_has_digit s x : iso_date s = Some x -> has_digit s = true.
Proof.
  unfold iso_date. destruct (char_at s 4 "-" && char_at s 7 "-"); [| discriminate].
  destruct (field s 0 4) as [y|] eqn:F; [| discriminate]. intros _.
  exact (field_has_digit s 0 3 y F).
Qed.

Lemma parse_legacy_has_digit s x : parse_legacy s = Some x -> has_digit s = true.
Proof.
  unfold parse_legacy.
  match goal with |- (if ?c then _ else _) = _ -> _ => destruct c; [| discriminate] end.
  destruct (field s 0 2) as [d|] eqn:F; [| discriminate]. intros _.
  exact (field_has_digit s 0 1 d F).
Qed.

(** A string without a digit is of no layout. *)
Lemma no_digit_no_layout tz s :
  has_digit s = false -> parse_iso tz s = None /\ parse_legacy s = None.
Proof.
  intros H. split.
  - unfold parse_iso. destruct (iso_date s) as [x|] eqn:I; [| reflexivity].
    apply iso_date_has_digit in I. congruence.
  - destruct (parse_legacy s) as [x|] eqn:L; [| reflexivity].
    apply parse_legacy_has_digit in L. congruence.
Qed.

Lemma iso_zone_designator tz s p :
  Nat.eqb (String.length s) p = false -> iso_zone tz s p = iso_zone 0 s p.
Proof. intros H. unfold iso_zone. now rewrite H. Qed.

(** The strings of [utc_form] are read as the same instant in every zone. *)
Lemma Date_parse_utc_form s :
  utc_form s = true -> exists tv, forall tz, Date_parse tz s = Ok tv.
Proof.
  unfold utc_form, Date_parse.
  destruct (iso_date s) as [[[y mo] d]|] eqn:I.
  - rewrite (iso_date_has_digit s _ I). cbn [negb]. unfold parse_iso. rewrite I.
    destruct (Nat.eqb (String.length s) 10); [intros ->; now eexists |].
    destruct (iso_time s) as [[[[[h mi] sec] ms] p]|]; [| discriminate].
    destruct (Nat.eqb (String.length s) p) eqn:N; [discriminate |]. cbn [negb andb].
    destruct (iso_zone 0 s p) as [off|] eqn:Z0; [| discriminate]. intros _.
    eexists. intros tz. rewrite (iso_zone_designator tz s p N), Z0. reflexivity.
  - destruct (parse_legacy s) as [tv|] eqn:L; [| discriminate]. intros _.
    rewrite (parse_legacy_has_digit s _ L). cbn [negb].
    exists tv. intros tz. unfold parse_iso. now rewrite I.
Qed.

(** *** The form [YYYY-MM-DD] *)









(** *** The loop over the days of the last month *)

Lemma in_work_phase_work w o i c j :
  0 < o -> 0 <= j - i + c < w -> in_work_phase w o i c j = true.
Proof.
  intros Ho H. unfold in_work_phase. rewrite Z.mod_small by lia.
  apply Z.ltb_lt. lia.
Qed.

Lemma in_work_phase_off w o i c j :
  0 < w -> w <= j - i + c < w + o -> in_work_phase w o i c j = false.
Proof.
  intros Hw H. unfold in_work_phase. rewrite Z.mod_small by lia.
  apply Z.ltb_ge. lia.
Qed.

Lemma in_work_phase_next_cycle w o i c j :
  0 < w -> 0 < o -> c + 1 = w ->
  in_work_phase w o i c j = in_work_phase w o (i + o + 1) 0 j.
Proof.
  intros Hw Ho Hc. unfold in_work_phase.
  replace (j - i + c) with (j - (i + o + 1) + 0 + 1 * (w + o)) by lia.
  now rewrite Z_mod_plus_full.
Qed.

Lemma in_work_phase_next_day w o i c j :
  in_work_phase w o i c j = in_work_phase w o (i + 1) (c + 1) j.
Proof. unfold in_work_phase. f_equal. f_equal. lia. Qed.

Lemma last_month_spec w o year month end_ :
  0 < w -> 0 < o ->
  forall fuel i c sch,
    0 <= c < w ->
    (Z.to_nat (end_ - i + 1) <= fuel)%nat ->
    last_month fuel w o year month end_ i c sch
    = Ok (sch ++ map (fun j => entry j (if 10 <=? month then month else month + 1) year)
                     (List.filter (in_work_phase w o i c)
                                  (days_from (Z.to_nat (end_ - i + 1)) i))).
Proof.
  intros Hw Ho. induction fuel as [|fuel IH]; intros i c sch Hc Hfuel.
  - assert (Z.to_nat (end_ - i + 1) = 0%nat) as -> by lia.
    cbn [last_month days_from List.filter map].
    destruct (Z.leb_spec i end_); [lia |]. now rewrite List.app_nil_r.
  - cbn [last_month]. destruct (Z.leb_spec i end_) as [Hie|Hie].
    2:{ assert (Z.to_nat (end_ - i + 1) = 0%nat) as -> by lia.
        cbn [days_from List.filter map]. now rewrite List.app_nil_r. }
    replace (Z.to_nat (end_ - i + 1)) with (S (Z.to_nat (end_ - i))) by lia.
    cbn [days_from List.filter].
    rewrite (in_work_phase_work w o i c i) by lia.
    cbn [map].
    destruct (Z.leb_spec w (c + 1)) as [Hfull|Hmore].
    + (* the cycle's work days are done: skip the off days *)
      assert (Hcw : c + 1 = w) by lia.
      rewrite IH by lia. rewrite <- List.app_assoc. cbn [app].
      apply f_equal, f_equal, f_equal, f_equal. symmetry.
      destruct (Z.le_gt_cases o (end_ - i)) as [Hlong|Hshort].
      * replace (Z.to_nat (end_ - i))
          with (Z.to_nat o + Z.to_nat (end_ - (i + o + 1) + 1))%nat by lia.
        rewrite days_from_app. rewrite List.filter_app.
        rewrite (filter_days_from_none (in_work_phase w o i c)).
        2:{ intros z Hz. apply in_work_phase_off; lia. }
        cbn [app]. replace (i + 1 + Z.of_nat (Z.to_nat o)) with (i + o + 1) by lia.
        apply filter_days_from_ext. intros z _.
        now apply in_work_phase_next_cycle.
      * replace (Z.to_nat (end_ - (i + o + 1) + 1)) with 0%nat by lia.
        cbn [days_from List.filter].
        apply filter_days_from_none. intros z Hz. apply in_work_phase_off; lia.
    + rewrite IH by lia. rewrite <- List.app_assoc. cbn [app].
      apply f_equal, f_equal, f_equal, f_equal. symmetry.
      replace (Z.to_nat (end_ - (i + 1) + 1)) with (Z.to_nat (end_ - i)) by lia.
      apply filter_days_from_ext. intros z _. apply in_work_phase_next_day.
Qed.

Lemma DaysInMonth_le_31 y m : DaysInMonth y m <= 31.
Proof.
  unfold DaysInMonth.
  repeat match goal with
         | |- context [match ?x with _ => _ end] => destruct x
         end; lia.
Qed.

(** X25.  For a period whose start and end lie in the same month of the
    same year (a year of four digits without leading zero), with start
    <= end, and positive [workDays] and [offDays], [getWorkSchedule]
    returns, in ascending order, exactly the days [j] of [start..end]
    whose offset from the start satisfies [(j - start) mod (workDays +
    offDays) < workDays], each as a zero-padded [DD-MM-YYYY] string of
    that month and year; the loop needs one unit of fuel per day of the
    period at most.  In particular the schedule of 01-01-2024 ..
    10-01-2024 with 1 and 1 is the five odd days. *)
Theorem getWorkSchedule_within_one_month :
  (forall tz d1 d2 m y w o fuel,
      1 <= m <= 12 -> 1000 <= y <= 9999 ->
      1 <= d1 -> d1 <= d2 -> d2 <= DaysInMonth y (m - 1) ->
      0 < w -> 0 < o ->
      (Z.to_nat (d2 - d1 + 1) <= fuel)%nat ->
      getWorkSchedule fuel tz
        {| start := dd_mm_yyyy d1 m y; end_ := dd_mm_yyyy d2 m y |} w o
      = Ok (map (fun j => dd_mm_yyyy j m y) (work_days w o d1 d2)))
  /\ (forall tz,
      getWorkSchedule 10 tz {| start := "01-01-2024"; end_ := "10-01-2024" |} 1 1
      = Ok ["01-01-2024"; "03-01-2024"; "05-01-2024"; "07-01-2024"; "09-01-2024"]).
Proof.
  split; [| intros tz; vm_compute; reflexivity].
  intros tz d1 d2 m y w o fuel Hm Hy Hd1 Hd12 Hd2 Hw Ho Hfuel.
  pose proof (DaysInMonth_le_31 y (m - 1)) as H31.
  unfold getWorkSchedule. cbn [start end_].
  rewrite !split_dd_mm_yyyy by lia.
  destruct (two_digits_read_back d1 ltac:(lia)) as [_ Pd1].
  destruct (two_digits_read_back d2 ltac:(lia)) as [_ Pd2].
  destruct (two_digits_read_back m ltac:(lia)) as [_ Pm].
  destruct (year_reads_back y Hy) as (_ & Py & Hpad).
  cbn [lookup list_lookup mbind option_bind].
  rewrite Pd1, Pd2, Py, Pm.
  set (month := if first_is_zero (padStart 2 "0" (String_of_Z m)) then m - 1 else m).
  replace (Z.to_nat (month - month)) with 0%nat by lia.
  cbn [months_before].
  rewrite (last_month_spec w o y month d2 Hw Ho) by lia.
  cbn [app]. f_equal. unfold work_days.
  rewrite (filter_days_from_ext (in_work_phase w o d1 0) (work_day w o d1)).
  2:{ intros z _. unfold in_work_phase, work_day. now rewrite Z.add_0_r. }
  apply map_ext. intros j. unfold entry, dd_mm_yyyy.
  subst month. rewrite (month_field m Hm), Hpad. reflexivity.
Qed.

Lemma getWorkSchedule_within_one_month_witness :
  getWorkSchedule 15 0 {| start := "01-01-2024"; end_ := "15-01-2024" |} 1 3
  = Ok ["01-01-2024"; "05-01-2024"; "09-01-2024"; "13-01-2024"].
Proof.
  apply (proj1 getWorkSchedule_within_one_month 0 1 15 1 2024 1 3 15%nat);
    try lia; vm_compute; first [discriminate | lia].
Defined.

(** C1.  Across a month boundary the day number carried into the next
    month is [start + (j - days)], not the day the cycle falls on: for
    03-01-2024 .. 05-02-2024 with one work day and one day off the
    schedule jumps from 31 January to 4 February, and 2 February, 30
    days after the start and so a work day, is missing.  Across a year
    boundary the loops run no round, since the only year is that of the
    end of the period: 31-12-2023 .. 01-01-2024 gives the empty
    schedule, without its first day. *)
Theorem getWorkSchedule_across_months :
  (getWorkSchedule 100 0 {| start := "03-01-2024"; end_ := "05-02-2024" |} 1 1
   = Ok (map (fun j => dd_mm_yyyy j 1 2024) (work_days 1 1 3 31) ++ ["04-02-2024"])
   /\ MakeDay 2024 1 2 - MakeDay 2024 0 3 = 30
   /\ work_day 1 1 0 30 = true
   /\ ~ In "02-02-2024"
          (map (fun j => dd_mm_yyyy j 1 2024) (work_days 1 1 3 31) ++ ["04-02-2024"]))
  /\ (getWorkSchedule 100 0 {| start := "31-12-2023"; end_ := "01-01-2024" |} 1 1
      = Ok []
      /\ work_day 1 1 0 0 = true).
Proof.
  split; [split; [vm_compute; reflexivity | split; [reflexivity | split; [reflexivity |]]]
         | split; reflexivity].
  vm_compute. intros H.
  repeat (destruct H as [H|H]; [discriminate H |]). exact H.
Qed.
(** ** [getWorkSchedule] at the edges *)

(** Inside one month the schedule is the loop over the last month. *)
Lemma getWorkSchedule_same_month fuel tz d1 d2 m y w o :
  1 <= m <= 12 -> 1000 <= y <= 9999 -> 0 <= d1 <= 99 -> 0 <= d2 <= 99 ->
  exists month,
    (if 10 <=? month then month else month + 1) = m
    /\ getWorkSchedule fuel tz
         {| start := dd_mm_yyyy d1 m y; end_ := dd_mm_yyyy d2 m y |} w o
       = match last_month fuel w o y month d2 d1 0 [] with
         | Ok sch => Ok sch
         | OutOfFuel => OutOfFuel
         | Stuck => Stuck
         end.
Proof.
  intros Hm Hy Hd1 Hd2.
  exists (if first_is_zero (padStart 2 "0" (String_of_Z m)) then m - 1 else m).
  split; [exact (month_field m Hm) |].
  unfold getWorkSchedule. cbn [start end_].
  rewrite !split_dd_mm_yyyy by lia.
  destruct (two_digits_read_back d1 Hd1) as [_ Pd1].
  destruct (two_digits_read_back d2 Hd2) as [_ Pd2].
  destruct (two_digits_read_back m ltac:(lia)) as [_ Pm].
  destruct (year_reads_back y Hy) as (_ & Py & _).
  cbn [lookup list_lookup mbind option_bind].
  rewrite Pd1, Pd2, Py, Pm.
  set (month := if first_is_zero (padStart 2 "0" (String_of_Z m)) then m - 1 else m).
  replace (Z.to_nat (month - month)) with 0%nat by lia.
  cbn [months_before].
  destruct (last_month fuel w o y month d2 d1 0 []); reflexivity.
Qed.

(** X17.  A period of one month whose end is before its start gives the
    empty schedule, whatever the two counts and without a round of the
    loop. *)
Theorem getWorkSchedule_reversed fuel tz d1 d2 m y w o :
  1 <= m <= 12 -> 1000 <= y <= 9999 -> 0 <= d2 -> d2 < d1 -> d1 <= 99 ->
  getWorkSchedule fuel tz
    {| start := dd_mm_yyyy d1 m y; end_ := dd_mm_yyyy d2 m y |} w o
  = Ok [].
Proof.
  intros Hm Hy H0 Hlt H99.
  destruct (getWorkSchedule_same_month fuel tz d1 d2 m y w o Hm Hy)
    as (month & _ & ->); try lia.
  destruct fuel; cbn [last_month]; destruct (Z.leb_spec d1 d2); try lia; reflexivity.
Qed.

Lemma getWorkSchedule_reversed_witness :
  getWorkSchedule 0 0 {| start := "10-01-2024"; end_ := "01-01-2024" |} 0 (-5) = Ok [].
Proof. apply (getWorkSchedule_reversed 0 0 10 1 1 2024 0 (-5)); lia. Defined.

Lemma last_month_never_ends w year month end_ :
  w <= 1 ->
  forall fuel i count sch,
    0 <= count -> i <= end_ ->
    last_month fuel w (-1) year month end_ i count sch = OutOfFuel.
Proof.
  intros Hw. induction fuel as [|fuel IH]; intros i count sch Hc Hi;
    cbn [last_month]; destruct (Z.leb_spec i end_); try lia; [reflexivity |].
  destruct (Z.leb_spec w (count + 1)); [| lia].
  apply IH; lia.
Qed.

(** X18.  With [countOffDays] -1 and [countWorkDays] 1 or less the loop
    never leaves the first day of a period of one month: the call does
    not return, whatever fuel it is given. *)
Theorem getWorkSchedule_never_returns fuel tz d1 d2 m y w :
  1 <= m <= 12 -> 1000 <= y <= 9999 -> 0 <= d1 -> d1 <= d2 -> d2 <= 99 ->
  w <= 1 ->
  getWorkSchedule fuel tz
    {| start := dd_mm_yyyy d1 m y; end_ := dd_mm_yyyy d2 m y |} w (-1)
  = OutOfFuel.
Proof.
  intros Hm Hy H0 Hle H99 Hw.
  destruct (getWorkSchedule_same_month fuel tz d1 d2 m y w (-1) Hm Hy)
    as (month & _ & ->); try lia.
  rewrite last_month_never_ends by lia. reflexivity.
Qed.

Lemma getWorkSchedule_never_returns_witness :
  getWorkSchedule 1000 0 {| start := "01-01-2024"; end_ := "10-01-2024" |} 1 (-1)
  = OutOfFuel.
Proof. apply (getWorkSchedule_never_returns 1000 0 1 10 1 2024 1); lia. Defined.

Lemma last_month_every_day w year month end_ :
  forall fuel i count sch,
    (Z.to_nat (end_ - i + 1) <= fuel)%nat ->
    last_month fuel w 0 year month end_ i count sch
    = Ok (sch ++ map (fun j => entry j (if 10 <=? month then month else month + 1) year)
                     (days_from (Z.to_nat (end_ - i + 1)) i)).
Proof.
  induction fuel as [|fuel IH]; intros i count sch Hfuel.
  - assert (Z.to_nat (end_ - i + 1) = 0%nat) as -> by lia.
    cbn [last_month days_from map].
    destruct (Z.leb_spec i end_); [lia |]. now rewrite List.app_nil_r.
  - cbn [last_month]. destruct (Z.leb_spec i end_) as [Hie|Hie].
    2:{ assert (Z.to_nat (end_ - i + 1) = 0%nat) as -> by lia.
        cbn [days_from map]. now rewrite List.app_nil_r. }
    replace (Z.to_nat (end_ - i + 1)) with (S (Z.to_nat (end_ - i))) by lia.
    cbn [days_from map].
    replace (Z.to_nat (end_ - i)) with (Z.to_nat (end_ - (i + 1) + 1)) by lia.
    rewrite Z.add_0_r.
    destruct (w <=? count + 1); rewrite IH by lia;
      rewrite <- List.app_assoc; reflexivity.
Qed.

(** X19.  With [countOffDays] 0 every day of a period of one month is in
    the schedule, whatever [countWorkDays]. *)
Theorem getWorkSchedule_no_off_days fuel tz d1 d2 m y w :
  1 <= m <= 12 -> 1000 <= y <= 9999 -> 0 <= d1 -> d1 <= d2 -> d2 <= 99 ->
  (Z.to_nat (d2 - d1 + 1) <= fuel)%nat ->
  getWorkSchedule fuel tz
    {| start := dd_mm_yyyy d1 m y; end_ := dd_mm_yyyy d2 m y |} w 0
  = Ok (map (fun j => dd_mm_yyyy j m y) (days_from (Z.to_nat (d2 - d1 + 1)) d1)).
Proof.
  intros Hm Hy H0 Hle H99 Hfuel.
  destruct (getWorkSchedule_same_month fuel tz d1 d2 m y w 0 Hm Hy)
    as (month & Em & ->); try lia.
  rewrite last_month_every_day by exact Hfuel. cbn [app]. f_equal.
  apply map_ext. intros j. unfold entry, dd_mm_yyyy.
  destruct (year_reads_back y Hy) as (_ & _ & ->). now rewrite Em.
Qed.

Lemma getWorkSchedule_no_off_days_witness :
  getWorkSchedule 3 0 {| start := "29-02-2024"; end_ := "31-02-2024" |} 2 0
  = Ok ["29-02-2024"; "30-02-2024"; "31-02-2024"]%string.
Proof.
  apply (getWorkSchedule_no_off_days 3 0 29 31 2 2024 2); lia.
Defined.

(** ** The store *)

Lemma bind_Ok {A B} (m : M A) (f : A -> M B) (h h' : heap) a :
  m h = Ok (a, h') -> (m ≫= f) h = f a h'.
Proof. unfold mbind, M_bind. now intros ->. Qed.

Lemma read_run (d : loc) tv (h : heap) : h !! d = Some tv -> read d h = Ok (tv, h).
Proof. unfold read. now intros ->. Qed.

Lemma write_run (d : loc) tv tv' (h : heap) :
  h !! d = Some tv -> write d tv' h = Ok (tt, <[d := tv']> h).
Proof. unfold write. now intros ->. Qed.

Lemma valueOf_run (d : loc) tv (h : heap) :
  h !! d = Some tv -> Obj.valueOf d h = Ok (tv, h).
Proof. intros H. unfold Obj.valueOf. now rewrite (bind_Ok _ _ _ _ _ (read_run _ _ _ H)). Qed.

Lemma getDay_run tz (d : loc) tv (h : heap) :
  h !! d = Some tv -> Obj.getDay tz d h = Ok (getDay tz tv, h).
Proof. intros H. unfold Obj.getDay. now rewrite (bind_Ok _ _ _ _ _ (read_run _ _ _ H)). Qed.

Lemma getDate_run tz (d : loc) tv (h : heap) :
  h !! d = Some tv -> Obj.getDate tz d h = Ok (getDate tz tv, h).
Proof. intros H. unfold Obj.getDate. now rewrite (bind_Ok _ _ _ _ _ (read_run _ _ _ H)). Qed.

Lemma getMonth_run tz (d : loc) tv (h : heap) :
  h !! d = Some tv -> Obj.getMonth tz d h = Ok (getMonth tz tv, h).
Proof. intros H. unfold Obj.getMonth. now rewrite (bind_Ok _ _ _ _ _ (read_run _ _ _ H)). Qed.

Lemma getFullYear_run tz (d : loc) tv (h : heap) :
  h !! d = Some tv -> Obj.getFullYear tz d h = Ok (getFullYear tz tv, h).
Proof. intros H. unfold Obj.getFullYear. now rewrite (bind_Ok _ _ _ _ _ (read_run _ _ _ H)). Qed.

Lemma setDate_run tz (d : loc) tv n (h : heap) :
  h !! d = Some tv -> Obj.setDate tz d n h = Ok (tt, <[d := setDate tz tv n]> h).
Proof.
  intros H. unfold Obj.setDate.
  rewrite (bind_Ok _ _ _ _ _ (read_run _ _ _ H)). now apply write_run with tv.
Qed.

Lemma setMonth_run tz (d : loc) tv m (h : heap) :
  h !! d = Some tv -> Obj.setMonth tz d m h = Ok (tt, <[d := setMonth tz tv m]> h).
Proof.
  intros H. unfold Obj.setMonth.
  rewrite (bind_Ok _ _ _ _ _ (read_run _ _ _ H)). now apply write_run with tv.
Qed.

Lemma lookup_just_set (d : loc) (tv : option Z) (h : heap) : <[d := tv]> h !! d = Some tv.
Proof. apply lookup_insert_eq. Qed.

Create HintDb run discriminated.
#[local] Hint Resolve getDay_run getDate_run getMonth_run getFullYear_run
  setDate_run setMonth_run read_run valueOf_run lookup_just_set : run.

Ltac run := erewrite bind_Ok by eauto with run.

Lemma new_Date_run tv (h : heap) :
  new_Date tv h = Ok (fresh (dom h), <[fresh (dom h) := tv]> h).
Proof. reflexivity. Qed.

Lemma fresh_not_stored (h : heap) : h !! fresh (dom h) = None.
Proof. apply not_elem_of_dom, is_fresh. Qed.

(** ** Time values and their local days *)

Lemma getDay_day tz t : local_weekday tz t = WeekDayOfDay (Day (LocalTime tz t)).
Proof. unfold local_weekday, WeekDay. reflexivity. Qed.

Lemma setDate_day tz t n :
  time_setDate tz t n
  = UTC tz (MakeDate (set_day (Day (LocalTime tz t)) n) (TimeWithinDay (LocalTime tz t))).
Proof. unfold time_setDate, set_day, YearFromTime, MonthFromTime. reflexivity. Qed.

Lemma LocalTime_setDate tz t n :
  Day (LocalTime tz (time_setDate tz t n)) = set_day (Day (LocalTime tz t)) n
  /\ TimeWithinDay (LocalTime tz (time_setDate tz t n)) = TimeWithinDay (LocalTime tz t).
Proof.
  rewrite setDate_day, LocalTime_UTC.
  pose proof (TimeWithinDay_range (LocalTime tz t)).
  now rewrite Day_MakeDate, TimeWithinDay_MakeDate.
Qed.

Lemma DaysInMonth_range y m : 28 <= DaysInMonth y m <= 31.
Proof.
  unfold DaysInMonth.
  repeat match goal with
         | |- context [match ?x with _ => _ end] => destruct x
         end; lia.
Qed.

Lemma DateFromDay_range d : 1 <= DateFromDay d <= 31.
Proof.
  destruct (civil_of_day d) as ([_ H] & _).
  pose proof (DaysInMonth_range (YearFromDay d) (MonthFromDay d)). lia.
Qed.

Lemma set_day_in_month y m k n :
  civil_ok y m k -> set_day (MakeDay y m k) n = MakeDay y m n.
Proof.
  intros H. unfold set_day.
  now rewrite (YearFromDay_MakeDay y m k H), (MonthFromDay_MakeDay y m k H).
Qed.

(** [setDate] moves the day by the difference of the day numbers. *)
Lemma set_day_shift d n : set_day d n = d + (n - DateFromDay d).
Proof.
  destruct (civil_of_day d) as (_ & Ed). unfold set_day.
  replace n with (DateFromDay d + (n - DateFromDay d)) at 1 by lia.
  now rewrite MakeDay_add, Ed.
Qed.

Lemma getDay_Some tz t : getDay tz (Some t) = Some (local_weekday tz t).
Proof. reflexivity. Qed.

Lemma getFullYear_Some tz t : getFullYear tz (Some t) = Some (local_year tz t).
Proof. reflexivity. Qed.

Lemma getMonth_Some tz t : getMonth tz (Some t) = Some (local_month tz t).
Proof. reflexivity. Qed.

Lemma getDate_Some tz t : getDate tz (Some t) = Some (local_date tz t).
Proof. reflexivity. Qed.

Lemma num_eqb_Some a b : num_eqb (Some a) (Some b) = (a =? b).
Proof. reflexivity. Qed.

Lemma num_leb_Some a b : num_leb (Some a) (Some b) = (a <=? b).
Proof. reflexivity. Qed.

Lemma num_ltb_Some a b : num_ltb (Some a) (Some b) = (a <? b).
Proof. reflexivity. Qed.

Lemma setDate_Some tz t n :
  setDate tz (Some t) (Some n) = TimeClip (time_setDate tz t n).
Proof. reflexivity. Qed.

Lemma setDate_safe tz t n :
  time_zone tz ->
  safe_day (set_day (Day (LocalTime tz t)) n) ->
  setDate tz (Some t) (Some n) = Some (time_setDate tz t n).
Proof.
  intros Hz Hs. unfold setDate. rewrite setDate_day.
  apply safe_time; [exact Hz | exact Hs | apply TimeWithinDay_range].
Qed.

Lemma setDate_ok tz t n :
  time_zone tz -> year_ok (local_year tz t) -> 0 <= n <= 32 ->
  setDate tz (Some t) (Some n) = Some (time_setDate tz t n).
Proof.
  intros Hz Hy Hn. apply setDate_safe; [exact Hz |].
  unfold local_year, YearFromTime in Hy. unfold set_day.
  apply (year_ok_days _ _ Hy). apply MakeDay_near_year; [| exact Hn].
  pose proof (MonthFromDay_range (Day (LocalTime tz t))). lia.
Qed.

Lemma setDate_walk tz t n fuel :
  time_zone tz -> 1 <= n <= 100 ->
  walk_ok (S fuel) (Day (LocalTime tz t)) ->
  setDate tz (Some t) (Some n) = Some (time_setDate tz t n)
  /\ walk_ok fuel (Day (LocalTime tz (time_setDate tz t n))).
Proof.
  intros Hz Hn Hw.
  destruct (LocalTime_setDate tz t n) as [E _].
  pose proof (set_day_shift (Day (LocalTime tz t)) n) as S.
  pose proof (DateFromDay_range (Day (LocalTime tz t))) as R.
  unfold walk_ok in *. rewrite Nat2Z.inj_succ in Hw.
  split.
  - apply setDate_safe; [exact Hz |]. unfold safe_day. lia.
  - rewrite E. lia.
Qed.

(** ** Months *)

Lemma MakeFullYear_id y : ~ 0 <= y <= 99 -> MakeFullYear y = y.
Proof.
  intros H. unfold MakeFullYear.
  destruct (Z.leb_spec 0 y), (Z.leb_spec y 99); cbn [andb]; lia.
Qed.

Lemma MakeFullYear_ok y : year_ok y -> year_ok (MakeFullYear y).
Proof.
  unfold year_ok, MakeFullYear.
  destruct (Z.leb_spec 0 y), (Z.leb_spec y 99); cbn [andb]; lia.
Qed.

(** The local day of the time of [new Date(year, month, date)]. *)
Lemma Day_Date_local_full tz y m n :
  Day (LocalTime tz (time_of_date tz y m n)) = MakeDay (MakeFullYear y) m n.
Proof.
  unfold time_of_date, time_of_fields. rewrite LocalTime_UTC.
  apply Day_MakeDate.
  unfold MakeTime, msPerDay, msPerHour, msPerMinute, msPerSecond. lia.
Qed.

Lemma Day_Date_local tz y m n :
  ~ 0 <= y <= 99 -> Day (LocalTime tz (time_of_date tz y m n)) = MakeDay y m n.
Proof. intros H. now rewrite Day_Date_local_full, (MakeFullYear_id y H). Qed.

(** Day 0 of a month is the last day of the month before it. *)
Lemma MakeDay_day_0 y m :
  0 <= m <= 11 -> MakeDay y (m + 1) 0 = MakeDay y m (DaysInMonth y m).
Proof.
  intros Hm. rewrite (MakeDay_rollover y m (DaysInMonth y m) Hm), Z.sub_diag.
  destruct (Z.eqb_spec m 11) as [->|Hne]; [| reflexivity].
  unfold MakeDay. change (11 + 1) with 12. change (12 / 12) with 1.
  change (0 / 12) with 0. change (12 mod 12) with 0. change (0 mod 12) with 0.
  replace (y + 1 + 0) with (y + 1) by lia. reflexivity.
Qed.

Lemma first_of_next_month y i :
  0 <= i <= 10 -> MakeDay y (i + 1) 1 = MakeDay y i 1 + DaysInMonth y i.
Proof.
  intros Hi. rewrite <- MakeDay_add.
  rewrite (MakeDay_rollover y i (1 + DaysInMonth y i)) by lia.
  destruct (Z.eqb_spec i 11); [lia |]. f_equal. lia.
Qed.

(** The day of the month of the time of [new Date(year, m + 1, 0)] is
    the length of month [m]. *)
Lemma length_of_month tz y m :
  0 <= m <= 11 ->
  local_date tz (time_of_date tz y (m + 1) 0) = DaysInMonth (MakeFullYear y) m.
Proof.
  intros Hm. unfold local_date, DateFromTime.
  rewrite Day_Date_local_full, MakeDay_day_0 by exact Hm.
  pose proof (DaysInMonth_range (MakeFullYear y) m).
  apply DateFromDay_MakeDay. split; lia.
Qed.

Lemma Date_local_safe tz y m n :
  time_zone tz -> safe_day (MakeDay (MakeFullYear y) m n) ->
  Date_local tz (Some y) (Some m) (Some n) = Some (time_of_date tz y m n).
Proof.
  intros Hz Hs. unfold Date_local, Date_of_fields, time_of_date, time_of_fields.
  apply safe_time; [exact Hz | exact Hs |].
  unfold MakeTime, msPerDay, msPerHour, msPerMinute, msPerSecond. lia.
Qed.

(** [new Date(year, m + 1, 0).getDate()] inside the time range. *)
Lemma days_of_month tz y m :
  time_zone tz -> year_ok (MakeFullYear y) -> 0 <= m <= 11 ->
  getDate tz (Date_local tz (Some y) (Some (m + 1)) (Some 0))
  = Some (DaysInMonth (MakeFullYear y) m).
Proof.
  intros Hz Hy Hm. rewrite Date_local_ok by (trivial; lia).
  unfold getDate. now rewrite length_of_month.
Qed.

Lemma date_value tz t :
  t = UTC tz (MakeDate (Day (LocalTime tz t)) (TimeWithinDay (LocalTime tz t))).
Proof. now rewrite MakeDate_Day, UTC_LocalTime. Qed.

Lemma local_fields tz t :
  0 <= local_month tz t <= 11
  /\ 1 <= local_date tz t <= DaysInMonth (local_year tz t) (local_month tz t).
Proof.
  unfold local_date, local_month, local_year, DateFromTime, MonthFromTime, YearFromTime.
  destruct (civil_of_day (Day (LocalTime tz t))) as (H & _). exact H.
Qed.

(** A time whose local day is safe is a time value. *)
Lemma time_value_safe tz t :
  time_zone tz -> safe_day (Day (LocalTime tz t)) -> TimeClip t = Some t.
Proof.
  intros Hz Hs. rewrite (date_value tz t) at 1 2.
  apply safe_time; [exact Hz | exact Hs | apply TimeWithinDay_range].
Qed.

Lemma time_value_ok tz t :
  time_zone tz -> year_ok (local_year tz t) -> TimeClip t = Some t.
Proof.
  intros Hz Hy. apply (time_value_safe tz t Hz).
  apply (year_ok_days _ _ Hy). pose proof (local_year_days tz t). lia.
Qed.

(** The local days of the time values. *)
Lemma time_value_day tz t :
  time_zone tz -> Z.abs t <= maxTime -> -100000001 <= Day (LocalTime tz t) <= 100000000.
Proof.
  unfold time_zone, maxTime, LocalTime, Day, msPerDay. intros Hz Ht.
  Z.div_mod_to_equations. lia.
Qed.

(** ** Weekdays *)

Lemma WeekDayOfDay_range k : 0 <= WeekDayOfDay k < 7.
Proof. unfold WeekDayOfDay. apply Z.mod_pos_bound. reflexivity. Qed.

Lemma WeekDayOfDay_succ k : WeekDayOfDay (k + 1) = (WeekDayOfDay k + 1) mod 7.
Proof. unfold WeekDayOfDay. Z.div_mod_to_equations. lia. Qed.

Ltac by_weekday k :=
  rewrite ?WeekDayOfDay_succ;
  pose proof (WeekDayOfDay_range k);
  generalize dependent (WeekDayOfDay k);
  let w := fresh "w" in
  let H := fresh "H" in
  intros w H;
  assert (w = 0 \/ w = 1 \/ w = 2 \/ w = 3 \/ w = 4 \/ w = 5 \/ w = 6) as H' by lia;
  clear H;
  repeat (destruct H' as [->|H']); subst; vm_compute.

Lemma TimeClip_cases t : TimeClip t = None \/ TimeClip t = Some t.
Proof. unfold TimeClip. destruct (Z.abs t <=? maxTime); auto. Qed.

(** ** [getNextFriday] *)

(** *** The loop on day numbers *)

Lemma friday_from_friday fuel : forall d day r,
  friday_from fuel d day = Some r -> WeekDayOfDay r = 5.
Proof.
  induction fuel as [|fuel IH]; intros d day r; cbn [friday_from];
    destruct (Z.eqb_spec (WeekDayOfDay d) 5) as [E|E]; intros H;
    try (injection H as <-; exact E); try discriminate.
  exact (IH _ _ _ H).
Qed.

Lemma next_friday_day_friday fuel d r :
  next_friday_day fuel d = Some r -> WeekDayOfDay r = 5.
Proof. unfold next_friday_day. apply friday_from_friday. Qed.

Lemma friday_from_more_fuel fuel : forall fuel' d day r,
  (fuel <= fuel')%nat ->
  friday_from fuel d day = Some r -> friday_from fuel' d day = Some r.
Proof.
  induction fuel as [|fuel IH]; intros fuel' d day r Hle; cbn [friday_from].
  - destruct fuel'; cbn [friday_from];
      destruct (WeekDayOfDay d =? 5); intros H; try exact H; discriminate.
  - destruct fuel' as [|fuel']; [lia |]. cbn [friday_from].
    destruct (WeekDayOfDay d =? 5); [trivial |].
    apply IH. lia.
Qed.

Lemma next_friday_day_more_fuel fuel fuel' d r :
  (fuel <= fuel')%nat ->
  next_friday_day fuel d = Some r -> next_friday_day fuel' d = Some r.
Proof. unfold next_friday_day. apply friday_from_more_fuel. Qed.

Lemma set_day_400 d n k : set_day (d + 146097 * k) n = set_day d n + 146097 * k.
Proof. unfold set_day. now rewrite YearFromDay_400, MonthFromDay_400, MakeDay_400. Qed.

Lemma friday_from_400 fuel k : forall d day r,
  friday_from fuel d day = Some r ->
  friday_from fuel (d + 146097 * k) day = Some (r + 146097 * k).
Proof.
  induction fuel as [|fuel IH]; intros d day r; cbn [friday_from];
    rewrite WeekDayOfDay_400; destruct (WeekDayOfDay d =? 5); intros H;
    try (injection H as <-; reflexivity); try discriminate.
  rewrite set_day_400. now apply IH.
Qed.

Lemma next_friday_day_400 fuel k d r :
  next_friday_day fuel d = Some r ->
  next_friday_day fuel (d + 146097 * k) = Some (r + 146097 * k).
Proof.
  unfold next_friday_day. rewrite DateFromDay_400, set_day_400.
  apply friday_from_400.
Qed.

(** *** The loop on a calendar cursor *)

Lemma norm_correct k : forall y m n y' m' n',
  0 <= m <= 11 -> 1 <= n ->
  norm k y m n = Some (y', m', n') ->
  civil_ok y' m' n' /\ MakeDay y' m' n' = MakeDay y m n.
Proof.
  induction k as [|k IH]; intros y m n y' m' n' Hm Hn; cbn [norm];
    destruct (Z.leb_spec n (DaysInMonth y m)) as [Hle|Hgt]; intros H;
    try (injection H as <- <- <-; split; [split; lia | reflexivity]);
    try discriminate.
  rewrite (MakeDay_rollover y m n Hm).
  destruct (Z.eqb_spec m 11) as [->|Hne]; apply IH in H; try lia; exact H.
Qed.

Lemma cursor_fields st :
  cursor_ok st ->
  YearFromDay (c_day st) = c_y st /\ MonthFromDay (c_day st) = c_m st
  /\ DateFromDay (c_day st) = c_d st.
Proof.
  intros (C & <- & _).
  now rewrite YearFromDay_MakeDay, MonthFromDay_MakeDay, DateFromDay_MakeDay.
Qed.

Lemma fast_set_correct st n st' :
  cursor_ok st -> 1 <= n ->
  fast_set st n = Some st' ->
  cursor_ok st' /\ c_day st' = set_day (c_day st) n.
Proof.
  intros Hst Hn. unfold fast_set.
  destruct (norm 4 (c_y st) (c_m st) n) as [[[y m] d]|] eqn:N; [| discriminate].
  intros H. injection H as <-. cbn [c_day c_wd c_y c_m c_d].
  destruct (cursor_fields st Hst) as (Ey & Em & Ed).
  destruct Hst as ([Hm Hd] & Hday & Hwd).
  apply norm_correct in N as [C E]; [| exact Hm | exact Hn].
  assert (S : set_day (c_day st) n = c_day st + (n - c_d st)).
  { unfold set_day. rewrite Ey, Em.
    replace n with (c_d st + (n - c_d st)) at 1 by lia.
    now rewrite MakeDay_add, Hday. }
  split; [| now rewrite S].
  unfold cursor_ok. cbn [c_day c_wd c_y c_m c_d].
  split; [exact C |]. split.
  - rewrite E, <- S. unfold set_day. now rewrite Ey, Em.
  - rewrite Hwd. unfold WeekDayOfDay. Z.div_mod_to_equations. lia.
Qed.

Lemma fast_while_correct fuel : forall st day r,
  cursor_ok st -> 1 <= day ->
  fast_while fuel st day = Some r ->
  friday_from fuel (c_day st) day = Some r.
Proof.
  induction fuel as [|fuel IH]; intros st day r Hst Hday; cbn [fast_while friday_from];
    pose proof Hst as (C & D & W); rewrite <- W;
    destruct (c_wd st =? 5); trivial.
  destruct (fast_set st day) as [st'|] eqn:F; [| discriminate].
  apply fast_set_correct in F as [Hst' <-]; [| exact Hst | exact Hday].
  apply IH; [exact Hst' | lia].
Qed.

Lemma fast_ok_correct st :
  cursor_ok st -> fast_ok st = true ->
  exists r, next_friday_day 62 (c_day st) = Some r /\ c_day st < r.
Proof.
  intros Hst. unfold fast_ok, fast_next_friday, next_friday_day.
  destruct (cursor_fields st Hst) as (_ & _ & ->).
  assert (1 <= c_d st + 1) by (destruct Hst as ((_ & ?) & _); lia).
  destruct (fast_set st (c_d st + 1)) as [st'|] eqn:F; [| discriminate].
  apply fast_set_correct in F as [Hst' <-]; [| exact Hst | lia].
  destruct (fast_while 62 st' (c_d st + 1)) as [r|] eqn:W; [| discriminate].
  apply fast_while_correct in W; [| exact Hst' | lia].
  intros L. exists r. split; [exact W | now apply Z.ltb_lt].
Qed.

Lemma check_all_correct n : forall st,
  cursor_ok st -> check_all n st = true ->
  forall k, 0 <= k < Z.of_nat n ->
    exists r, next_friday_day 62 (c_day st + k) = Some r /\ c_day st + k < r.
Proof.
  induction n as [|n IH]; intros st Hst H k Hk; [lia |].
  cbn [check_all] in H.
  destruct (fast_ok st) eqn:Ok1; [| discriminate].
  destruct (fast_set st (c_d st + 1)) as [st'|] eqn:F; [| discriminate].
  destruct (Z.eq_dec k 0) as [->|Hne].
  - rewrite Z.add_0_r. now apply fast_ok_correct.
  - assert (1 <= c_d st + 1) by (destruct Hst as ((_ & ?) & _); lia).
    pose proof (cursor_fields st Hst) as (Ey & Em & Ed).
    apply fast_set_correct in F as [Hst' E]; [| exact Hst | lia].
    assert (c_day st' = c_day st + 1) as E1.
    { rewrite E. unfold set_day. rewrite Ey, Em, MakeDay_add.
      destruct Hst as (_ & -> & _). reflexivity. }
    destruct (IH st' Hst' H (k - 1)) as (r & R & L); [lia |].
    rewrite E1 in R, L. replace (c_day st + 1 + (k - 1)) with (c_day st + k) in * by lia.
    now exists r.
Qed.

Lemma epoch_cursor_ok : cursor_ok epoch_cursor.
Proof. repeat split; vm_compute; congruence. Qed.

(** The 146097 runs of the loop, one for each starting day of 400 years. *)
Lemma check_400_years : check_all (Z.to_nat period_days) epoch_cursor = true.
Proof. vm_compute. reflexivity. Qed.

(** On every day the loop ends within 62 rounds, on a later Friday. *)
Lemma next_friday_day_total d :
  exists r, next_friday_day 62 d = Some r /\ d < r /\ WeekDayOfDay r = 5.
Proof.
  assert (B : Z.of_nat (Z.to_nat period_days) = 146097)
    by (apply Z2Nat.id; discriminate).
  assert (Hk : 0 <= d mod 146097 < Z.of_nat (Z.to_nat period_days))
    by (rewrite B; apply Z.mod_pos_bound; reflexivity).
  destruct (check_all_correct _ _ epoch_cursor_ok check_400_years _ Hk)
    as (r & R & L).
  change (c_day epoch_cursor) with 0 in R, L. rewrite Z.add_0_l in R, L.
  apply (next_friday_day_400 62 (d / 146097)) in R.
  assert (E : d mod 146097 + 146097 * (d / 146097) = d)
    by (rewrite Z.add_comm; symmetry; apply Z.div_mod; discriminate).
  rewrite E in R.
  exists (r + 146097 * (d / 146097)). split; [exact R |]. split.
  - rewrite <- E at 1. lia.
  - exact (next_friday_day_friday _ _ _ R).
Qed.

(** *** The loop on the store *)

(** As long as it meets safe days, the loop touches the object of its
    argument only, and what it does to it is [friday_from] on the local
    day. *)
Lemma getNextFriday_while_run tz (date : loc) :
  time_zone tz ->
  forall fuel0 fuel day t (h : heap) r,
    (fuel0 <= fuel)%nat ->
    h !! date = Some (Some t) ->
    1 <= day -> day + Z.of_nat fuel0 <= 100 ->
    walk_ok fuel0 (Day (LocalTime tz t)) ->
    friday_from fuel0 (Day (LocalTime tz t)) day = Some r ->
    getNextFriday_while fuel tz date (Some (local_weekday tz t)) (Some day) h
    = Ok (tt, <[date := Some (UTC tz (MakeDate r (TimeWithinDay (LocalTime tz t))))]> h).
Proof.
  intros Hz.
  assert (Stop : forall fuel day t (h : heap),
             h !! date = Some (Some t) ->
             WeekDayOfDay (Day (LocalTime tz t)) = 5 ->
             getNextFriday_while fuel tz date (Some (local_weekday tz t)) (Some day) h
             = Ok (tt, <[date := Some (UTC tz (MakeDate (Day (LocalTime tz t))
                                                 (TimeWithinDay (LocalTime tz t))))]> h)).
  { intros fuel day t h Ht W.
    rewrite MakeDate_Day, UTC_LocalTime, insert_id by exact Ht.
    destruct fuel; cbn [getNextFriday_while num_eqb]; rewrite getDay_day, W; reflexivity. }
  induction fuel0 as [|fuel0 IH]; intros fuel day t h r Hfuel Ht Hday Hsum Hw;
    cbn [friday_from];
    destruct (Z.eqb_spec (WeekDayOfDay (Day (LocalTime tz t))) 5) as [W|W];
    intros F; try discriminate;
    try (injection F as <-; now apply Stop).
  destruct fuel as [|fuel]; [lia |].
  cbn [getNextFriday_while num_eqb num_add]. rewrite getDay_day.
  destruct (Z.eqb_spec (WeekDayOfDay (Day (LocalTime tz t))) 5) as [|_]; [contradiction |].
  destruct (setDate_walk tz t day fuel0 Hz ltac:(lia) Hw) as [S Hw'].
  do 2 run. rewrite S. cbn [getDay].
  destruct (LocalTime_setDate tz t day) as [Ed Et].
  rewrite (IH fuel (day + 1) (time_setDate tz t day)
              (<[date := Some (time_setDate tz t day)]> h) r);
    [ | lia | apply lookup_insert_eq | lia | lia | exact Hw' | now rewrite Ed ].
  now rewrite insert_insert_eq, Et.
Qed.

Lemma getNextFriday_run tz (date : loc) fuel0 fuel t (h : heap) r :
  time_zone tz ->
  (fuel0 <= fuel)%nat -> (fuel0 <= 62)%nat ->
  h !! date = Some (Some t) ->
  walk_ok (S fuel0) (Day (LocalTime tz t)) ->
  next_friday_day fuel0 (Day (LocalTime tz t)) = Some r ->
  getNextFriday fuel tz date h
  = Ok (date, <[date := Some (UTC tz (MakeDate r (TimeWithinDay (LocalTime tz t))))]> h).
Proof.
  intros Hz Hfuel H62 Ht Hw R. unfold getNextFriday, next_friday_day in *.
  pose proof (DateFromDay_range (Day (LocalTime tz t))) as HD.
  do 2 run. cbn [getDate num_add].
  change (local_date tz t) with (DateFromDay (Day (LocalTime tz t))).
  set (day := DateFromDay (Day (LocalTime tz t)) + 1) in *.
  destruct (setDate_walk tz t day fuel0 Hz ltac:(lia) Hw) as [S Hw'].
  do 2 run. rewrite S. cbn [getDay].
  destruct (LocalTime_setDate tz t day) as [Ed Et].
  unfold mbind at 1, M_bind at 1.
  rewrite (getNextFriday_while_run tz date Hz fuel0 fuel day (time_setDate tz t day)
             (<[date := Some (time_setDate tz t day)]> h) r);
    [ | lia | apply lookup_insert_eq | lia | lia | exact Hw' | now rewrite Ed ].
  now rewrite insert_insert_eq, Et.
Qed.

(** On an Invalid Date the loop goes on for ever. *)
Lemma getNextFriday_while_NaN tz (date : loc) :
  forall fuel day (h : heap),
    h !! date = Some None ->
    getNextFriday_while fuel tz date None day h = OutOfFuel.
Proof.
  induction fuel as [|fuel IH]; intros day h Ht; cbn [getNextFriday_while num_eqb];
    [reflexivity |].
  do 2 run. cbn [setDate getDay].
  apply IH. apply lookup_insert_eq.
Qed.

(** The days of a year that is far from the ends of the range. *)
Lemma scan_year_walk tz t :
  scan_year (local_year tz t) -> walk_ok 63 (Day (LocalTime tz t)).
Proof.
  unfold scan_year, walk_ok. intros Hy.
  pose proof (local_year_days tz t) as D.
  pose proof (DayFromYear_le (-271800) (local_year tz t) ltac:(lia)) as L.
  pose proof (DayFromYear_le (local_year tz t + 1) 275701 ltac:(lia)) as U.
  change (DayFromYear (-271800)) with (-99992439) in L.
  change (DayFromYear 275701) with 99978195 in U.
  change (Z.of_nat 63) with 63. lia.
Qed.

Lemma walk_ok_less fuel fuel' d : (fuel <= fuel')%nat -> walk_ok fuel' d -> walk_ok fuel d.
Proof. unfold walk_ok. lia. Qed.

(** *** What [getNextFriday] does *)

(** C10, as the code has it.  Called on a stored valid [Date] whose year
    is at least twenty years from the ends of the time range,
    [getNextFriday] returns the reference it was given, and the store it
    leaves is the one it found with that one object overwritten: the
    object now holds a Friday that is strictly later than the date it
    held before.  The loop takes 62 rounds at most, in every zone and at
    every time of day. *)
Theorem getNextFriday_in_place tz (h : heap) (date : loc) t fuel :
  time_zone tz ->
  h !! date = Some (Some t) ->
  scan_year (local_year tz t) ->
  (62 <= fuel)%nat ->
  exists t',
    getNextFriday fuel tz date h = Ok (date, <[date := Some t']> h)
    /\ local_weekday tz t' = 5
    /\ t < t'.
Proof.
  intros Hz Ht Hy Hfuel.
  destruct (next_friday_day_total (Day (LocalTime tz t))) as (r & R & L & W).
  pose proof (TimeWithinDay_range (LocalTime tz t)) as Htw.
  exists (UTC tz (MakeDate r (TimeWithinDay (LocalTime tz t)))).
  split; [| split].
  - apply (getNextFriday_run tz date 62 fuel t h r Hz Hfuel (le_n _) Ht
             (scan_year_walk tz t Hy) R).
  - now rewrite getDay_day, LocalTime_UTC, Day_MakeDate.
  - rewrite <- (UTC_LocalTime tz t) at 1.
    rewrite <- (MakeDate_Day (LocalTime tz t)) at 1.
    unfold UTC, MakeDate, msPerDay. lia.
Qed.

Lemma getNextFriday_in_place_witness :
  exists t',
    getNextFriday 62 0 1%positive {[1%positive := Some 1706918400000]}
    = Ok (1%positive, <[1%positive := Some t']> {[1%positive := Some 1706918400000]})
    /\ local_weekday 0 t' = 5
    /\ 1706918400000 < t'.
Proof.
  apply (getNextFriday_in_place 0 {[1%positive := Some 1706918400000]} 1%positive
           1706918400000 62);
    [vm_compute; split; reflexivity | apply lookup_singleton_eq
     | vm_compute; split; discriminate | lia].
Defined.

(** C10 as stated fails.  On an Invalid Date [getDay] is NaN, which is
    never 5: the loop does not end, whatever fuel it is given.  The same
    holds on the last instant of the time range, a Saturday: the first
    [setDate] leaves the range and makes the date invalid. *)
Lemma getNextFriday_invalid_date_counterexample :
  (forall fuel, getNextFriday fuel 0 1%positive {[1%positive := None]} = OutOfFuel)
  /\ (getDay 0 (Date_of_value (Some 8640000000000000)) = Some 6
      /\ forall fuel,
           getNextFriday fuel 0 1%positive {[1%positive := Some 8640000000000000]}
           = OutOfFuel).
Proof.
  split; [| split; [reflexivity |]]; intros fuel; unfold getNextFriday;
    do 4 run; unfold mbind, M_bind;
    rewrite (getNextFriday_while_NaN 0 1%positive fuel _ _ (lookup_insert_eq _ _ _));
    reflexivity.
Qed.

(** C3.  Started on Monday 29 January 2024 (zone UTC), [getNextFriday]
    leaves January with day numbers that keep growing and stops on Friday
    29 May 2026; Friday 2 February 2024 lies in between. *)
Theorem getNextFriday_across_months :
  getNextFriday 100 0 1%positive
    {[1%positive := Date_local 0 (Some 2024) (Some 0) (Some 29)]}
  = Ok (1%positive, {[1%positive := Date_local 0 (Some 2026) (Some 4) (Some 29)]})
  /\ getDay 0 (Date_local 0 (Some 2024) (Some 1) (Some 2)) = Some 5
  /\ num_ltb (Date_local 0 (Some 2024) (Some 0) (Some 29))
             (Date_local 0 (Some 2024) (Some 1) (Some 2)) = true
  /\ num_ltb (Date_local 0 (Some 2024) (Some 1) (Some 2))
             (Date_local 0 (Some 2026) (Some 4) (Some 29)) = true.
Proof.
  split; [vm_compute; reflexivity |]. split; [reflexivity |].
  split; vm_compute; reflexivity.
Qed.

(** *** Inside a month *)

Lemma days_to_friday_spec k :
  let n := days_to_friday (WeekDayOfDay k) in
  1 <= n <= 7
  /\ WeekDayOfDay (k + n) = 5
  /\ forall i, 1 <= i < n -> WeekDayOfDay (k + i) <> 5.
Proof.
  unfold days_to_friday, WeekDayOfDay.
  destruct (Z.eqb_spec ((k + 4) mod 7) 5) as [E|E]; cbv zeta.
  - split; [lia |]. split; [Z.div_mod_to_equations; lia |].
    intros i Hi. Z.div_mod_to_equations. lia.
  - split; [Z.div_mod_to_equations; lia |]. split; [Z.div_mod_to_equations; lia |].
    intros i Hi. Z.div_mod_to_equations. lia.
Qed.

(** From day [j] of a month, with [j + 1] the next day number to try, the
    loop walks day by day to the first Friday, as long as that Friday is
    no later than the first day of the next month. *)
Lemma friday_from_walk y m :
  0 <= m <= 11 ->
  forall (r : nat) fuel j,
    1 <= j -> j + Z.of_nat r <= DaysInMonth y m + 1 ->
    (forall i, 0 <= i < Z.of_nat r -> WeekDayOfDay (MakeDay y m j + i) <> 5) ->
    WeekDayOfDay (MakeDay y m j + Z.of_nat r) = 5 ->
    (r <= fuel)%nat ->
    friday_from fuel (MakeDay y m j) (j + 1) = Some (MakeDay y m j + Z.of_nat r).
Proof.
  intros Hm. induction r as [|r IH]; intros fuel j Hj Hr Hno Hfri Hfuel.
  - rewrite Z.add_0_r in *. destruct fuel; cbn [friday_from]; now rewrite Hfri.
  - destruct fuel as [|fuel]; [lia |]. cbn [friday_from].
    pose proof (Hno 0 ltac:(lia)) as H0. rewrite Z.add_0_r in H0.
    destruct (Z.eqb_spec (WeekDayOfDay (MakeDay y m j)) 5) as [E|_]; [contradiction |].
    rewrite (set_day_in_month y m j (j + 1)) by (split; lia).
    rewrite MakeDay_add.
    replace (MakeDay y m j + Z.of_nat (S r)) with (MakeDay y m j + 1 + Z.of_nat r) by lia.
    rewrite <- MakeDay_add. apply IH; try lia.
    + intros i Hi. rewrite MakeDay_add.
      replace (MakeDay y m j + 1 + i) with (MakeDay y m j + (i + 1)) by lia.
      apply Hno. lia.
    + rewrite MakeDay_add.
      replace (MakeDay y m j + 1 + Z.of_nat r) with (MakeDay y m j + Z.of_nat (S r)) by lia.
      exact Hfri.
Qed.

Lemma next_friday_day_in_month d fuel :
  let n := days_to_friday (WeekDayOfDay d) in
  DateFromDay d + n <= DaysInMonth (YearFromDay d) (MonthFromDay d) + 1 ->
  (Z.to_nat n <= fuel)%nat ->
  next_friday_day fuel d = Some (d + n).
Proof.
  intros n Hin Hfuel.
  destruct (days_to_friday_spec d) as (Hn & Hfri & Hno). fold n in Hn, Hfri, Hno.
  destruct (civil_of_day d) as ([Hm HD] & Ed).
  unfold next_friday_day.
  set (y := YearFromDay d) in *. set (m := MonthFromDay d) in *.
  set (D := DateFromDay d) in *.
  assert (S1 : set_day d (D + 1) = MakeDay y m (D + 1)) by reflexivity.
  assert (E1 : MakeDay y m (D + 1) = d + 1) by (now rewrite MakeDay_add, Ed).
  rewrite S1.
  destruct (Z.eq_dec n 1) as [N1|N1].
  - rewrite N1 in *. rewrite E1. destruct fuel; cbn [friday_from]; now rewrite Hfri.
  - destruct fuel as [|fuel]; [lia |]. cbn [friday_from].
    pose proof (Hno 1 ltac:(lia)) as H1. rewrite <- E1 in H1.
    destruct (Z.eqb_spec (WeekDayOfDay (MakeDay y m (D + 1))) 5) as [E|_];
      [contradiction |].
    rewrite (set_day_in_month y m (D + 1) (D + 1)) by (split; lia).
    rewrite (friday_from_walk y m Hm (Z.to_nat (n - 1)) fuel (D + 1)); try lia.
    + f_equal. lia.
    + intros i Hi. rewrite E1. replace (d + 1 + i) with (d + (i + 1)) by lia.
      apply Hno. lia.
    + rewrite E1. replace (d + 1 + Z.of_nat (Z.to_nat (n - 1))) with (d + n) by lia.
      exact Hfri.
Qed.

Lemma MakeDate_shift d n tw : MakeDate (d + n) tw = MakeDate d tw + n * msPerDay.
Proof. unfold MakeDate. lia. Qed.

Lemma Day_shift t n : Day (t + n * msPerDay) = Day t + n.
Proof. unfold Day, msPerDay. Z.div_mod_to_equations. lia. Qed.

Lemma getDay_shift tz t n : local_weekday tz (t + n * msPerDay) = WeekDayOfDay (Day (LocalTime tz t) + n).
Proof.
  rewrite getDay_day. unfold LocalTime.
  replace (t + n * msPerDay + tz) with (t + tz + n * msPerDay) by lia.
  now rewrite Day_shift.
Qed.

(** X7.  When the first Friday after the date lies in the month of the
    date, or is the first day of the next month, [getNextFriday] returns
    exactly that Friday, at the same time of day: it overwrites the
    object of its argument with the instant [k] days later, where [k],
    from 1 to 7, is the distance to the first later Friday.  The loop
    then takes [k] rounds at most.  The year of the date is at least
    twenty years from the ends of the time range. *)
Theorem getNextFriday_same_month tz (h : heap) (date : loc) t fuel :
  let k := days_to_friday (local_weekday tz t) in
  time_zone tz ->
  h !! date = Some (Some t) ->
  scan_year (local_year tz t) ->
  local_date tz t + k <= DaysInMonth (local_year tz t) (local_month tz t) + 1 ->
  (Z.to_nat k <= fuel)%nat ->
  getNextFriday fuel tz date h = Ok (date, <[date := Some (t + k * msPerDay)]> h)
  /\ 1 <= k <= 7
  /\ local_weekday tz (t + k * msPerDay) = 5
  /\ forall i, 1 <= i < k -> local_weekday tz (t + i * msPerDay) <> 5.
Proof.
  intros k Hz Ht Hy Hin Hfuel. subst k.
  pose proof (scan_year_walk tz t Hy) as Hw.
  rewrite getDay_day in *.
  unfold local_date, local_year, local_month, DateFromTime, YearFromTime, MonthFromTime in Hin.
  set (d := Day (LocalTime tz t)) in *.
  destruct (days_to_friday_spec d) as (Hn & Hfri & Hno).
  split; [| split; [exact Hn | split]].
  - rewrite (getNextFriday_run tz date (Z.to_nat (days_to_friday (WeekDayOfDay d))) fuel
               t h (d + days_to_friday (WeekDayOfDay d)) Hz Hfuel ltac:(lia) Ht).
    + rewrite MakeDate_shift. subst d. rewrite MakeDate_Day.
      do 4 f_equal. unfold UTC, LocalTime. lia.
    + apply (walk_ok_less _ 63); [lia | exact Hw].
    + apply (next_friday_day_in_month d _ Hin). lia.
  - rewrite getDay_shift. exact Hfri.
  - intros i Hi. rewrite getDay_shift. now apply Hno.
Qed.

Lemma getNextFriday_same_month_witness :
  getNextFriday 6 0 1%positive {[1%positive := Some 1706918400000]}
  = Ok (1%positive, <[1%positive := Some (1706918400000 + 6 * msPerDay)]>
                      {[1%positive := Some 1706918400000]}).
Proof.
  apply (getNextFriday_same_month 0 {[1%positive := Some 1706918400000]} 1%positive
           1706918400000 6).
  - vm_compute. split; reflexivity.
  - apply lookup_singleton_eq.
  - vm_compute. split; discriminate.
  - vm_compute. discriminate.
  - vm_compute. lia.
Defined.

(** X8.  On every valid date whose year is at least twenty years from
    the ends of the time range, [getNextFriday] moves its argument by a
    whole number of days, one at least: the local time of day of the
    date is kept. *)
Theorem getNextFriday_whole_days tz (h : heap) (date : loc) t fuel :
  time_zone tz ->
  h !! date = Some (Some t) ->
  scan_year (local_year tz t) ->
  (62 <= fuel)%nat ->
  exists n,
    1 <= n
    /\ getNextFriday fuel tz date h = Ok (date, <[date := Some (t + n * msPerDay)]> h).
Proof.
  intros Hz Ht Hy Hfuel.
  destruct (next_friday_day_total (Day (LocalTime tz t))) as (r & R & L & _).
  exists (r - Day (LocalTime tz t)). split; [lia |].
  rewrite (getNextFriday_run tz date 62 fuel t h r Hz Hfuel (le_n _) Ht
             (scan_year_walk tz t Hy) R).
  replace r with (Day (LocalTime tz t) + (r - Day (LocalTime tz t))) at 1 by lia.
  rewrite MakeDate_shift, MakeDate_Day.
  do 4 f_equal. unfold UTC, LocalTime. lia.
Qed.

Lemma getNextFriday_whole_days_witness :
  exists n,
    1 <= n
    /\ getNextFriday 62 0 1%positive {[1%positive := Some 1706486400000]}
       = Ok (1%positive, <[1%positive := Some (1706486400000 + n * msPerDay)]>
                           {[1%positive := Some 1706486400000]}).
Proof.
  apply (getNextFriday_whole_days 0 {[1%positive := Some 1706486400000]} 1%positive
           1706486400000 62);
    [vm_compute; split; reflexivity | apply lookup_singleton_eq
     | vm_compute; split; discriminate | lia].
Defined.

(** ** [getNextFridayThe13th] *)

(** [setDate] moves a date by whole days. *)
Lemma setDate_shift tz t n : time_setDate tz t n = t + (n - local_date tz t) * msPerDay.
Proof.
  rewrite setDate_day. unfold local_date, DateFromTime.
  set (d := Day (LocalTime tz t)).
  rewrite set_day_shift, MakeDate_shift. subst d. rewrite MakeDate_Day.
  unfold UTC, LocalTime. lia.
Qed.

(** A day number up to 28 is a day of every month. *)
Lemma getDate_setDate tz t n : 1 <= n <= 28 -> local_date tz (time_setDate tz t n) = n.
Proof.
  intros Hn. unfold local_date, DateFromTime.
  destruct (LocalTime_setDate tz t n) as [-> _].
  set (d := Day (LocalTime tz t)).
  destruct (civil_of_day d) as ([Hm _] & _).
  pose proof (DaysInMonth_range (YearFromDay d) (MonthFromDay d)).
  apply DateFromDay_MakeDay. split; [exact Hm | lia].
Qed.

(** [setDate] with a day of the month of the date stays in that month. *)
Lemma setDate_in_month tz t n :
  1 <= n <= DaysInMonth (local_year tz t) (local_month tz t) ->
  local_year tz (time_setDate tz t n) = local_year tz t
  /\ local_month tz (time_setDate tz t n) = local_month tz t
  /\ local_date tz (time_setDate tz t n) = n.
Proof.
  unfold local_year, local_month, local_date, YearFromTime, MonthFromTime, DateFromTime.
  destruct (LocalTime_setDate tz t n) as [-> _].
  set (d := Day (LocalTime tz t)). intros Hn.
  destruct (civil_of_day d) as ([Hm _] & _).
  assert (C : civil_ok (YearFromDay d) (MonthFromDay d) n) by (split; assumption).
  unfold set_day.
  now rewrite YearFromDay_MakeDay, MonthFromDay_MakeDay, DateFromDay_MakeDay.
Qed.

Lemma first_scan_S tz n (date : loc) i :
  first_scan tz (S n) date i
  = (_ ← Obj.setDate tz date (Some i);
     dayName ← Obj.getDay tz date;
     if num_eqb dayName (Some 5) && (i =? 13) then mret (Some date)
     else first_scan tz n date (i + 1)).
Proof. reflexivity. Qed.

Lemma month_scan_S tz n (copy : loc) j :
  month_scan tz (S n) copy j
  = (_ ← Obj.setDate tz copy (Some j);
     dayName ← Obj.getDay tz copy;
     if num_eqb dayName (Some 5) && (j =? 13) then mret (Some copy)
     else month_scan tz n copy (j + 1)).
Proof. reflexivity. Qed.

(** The test of the scans holds on a valid date only, a Friday the 13th. *)
Lemma clipped_friday_13th tz x :
  num_eqb (getDay tz (TimeClip x)) (Some 5) = true -> local_date tz x = 13 ->
  exists t', TimeClip x = Some t' /\ local_weekday tz t' = 5 /\ local_date tz t' = 13.
Proof.
  intros C5 G.
  destruct (TimeClip x) as [t'|] eqn:E; [| discriminate C5].
  apply TimeClip_Some in E as [E _]. subst t'.
  exists x. split; [reflexivity |]. split; [| exact G].
  unfold getDay, num_eqb in C5. now apply Z.eqb_eq in C5.
Qed.

Lemma set_friday_13th tz tv :
  num_eqb (getDay tz (setDate tz tv (Some 13))) (Some 5) = true ->
  exists t',
    setDate tz tv (Some 13) = Some t' /\ local_weekday tz t' = 5 /\ local_date tz t' = 13.
Proof.
  intros C5.
  destruct tv as [t|]; [| discriminate C5].
  rewrite setDate_Some in *. apply (clipped_friday_13th tz); [exact C5 |].
  apply getDate_setDate. lia.
Qed.

Lemma found_friday_13th tz tv i :
  num_eqb (getDay tz (setDate tz tv (Some i))) (Some 5) && (i =? 13) = true ->
  exists t',
    setDate tz tv (Some i) = Some t' /\ local_weekday tz t' = 5 /\ local_date tz t' = 13.
Proof.
  intros C. apply andb_prop in C as [C5 C13]. apply Z.eqb_eq in C13. subst i.
  now apply set_friday_13th.
Qed.

Lemma first_scan_run tz (date : loc) n :
  forall i tv (h : heap),
    h !! date = Some tv ->
    exists res tv',
      first_scan tz n date i h = Ok (res, <[date := tv']> h)
      /\ (res = None \/ res = Some date)
      /\ friday_13th tz (<[date := tv']> h) res.
Proof.
  induction n as [|n IH]; intros i tv h Ht.
  - exists None, tv. rewrite insert_id by exact Ht. repeat split. now left.
  - rewrite first_scan_S. do 2 run.
    destruct (num_eqb (getDay tz (setDate tz tv (Some i))) (Some 5) && (i =? 13)) eqn:C.
    + exists (Some date), (setDate tz tv (Some i)). split; [reflexivity |].
      split; [now right |].
      destruct (found_friday_13th tz tv i C) as (t' & E & W & D).
      exists t'. rewrite lookup_insert_eq, E. now split.
    + destruct (IH (i + 1) (setDate tz tv (Some i)) (<[date := setDate tz tv (Some i)]> h))
        as (res & tv' & E & R & F); [apply lookup_insert_eq |].
      rewrite insert_insert_eq in E, F. exists res, tv'. exact (conj E (conj R F)).
Qed.

Lemma month_scan_run tz (copy : loc) n :
  forall j tv (h : heap),
    h !! copy = Some tv ->
    exists res tv',
      month_scan tz n copy j h = Ok (res, <[copy := tv']> h)
      /\ (res = None \/ res = Some copy)
      /\ friday_13th tz (<[copy := tv']> h) res.
Proof.
  induction n as [|n IH]; intros j tv h Ht.
  - exists None, tv. rewrite insert_id by exact Ht. repeat split. now left.
  - rewrite month_scan_S. do 2 run.
    destruct (num_eqb (getDay tz (setDate tz tv (Some j))) (Some 5) && (j =? 13)) eqn:C.
    + exists (Some copy), (setDate tz tv (Some j)). split; [reflexivity |].
      split; [now right |].
      destruct (found_friday_13th tz tv j C) as (t' & E & W & D).
      exists t'. rewrite lookup_insert_eq, E. now split.
    + destruct (IH (j + 1) (setDate tz tv (Some j)) (<[copy := setDate tz tv (Some j)]> h))
        as (res & tv' & E & R & F); [apply lookup_insert_eq |].
      rewrite insert_insert_eq in E, F. exists res, tv'. exact (conj E (conj R F)).
Qed.

Lemma later_months_S tz n (copy : loc) i :
  later_months tz (S n) copy i
  = (y ← Obj.getFullYear tz copy;
     m ← Obj.getMonth tz copy;
     _ ← Obj.setMonth tz copy (Some i);
     r ← month_scan tz (rounds (Some 1) (getDate tz (Date_local tz y m (Some 0)))) copy 1;
     match r with
     | Some d => mret (Some d)
     | None => later_months tz n copy (i + 1)
     end).
Proof. reflexivity. Qed.

Lemma later_months_run tz (copy : loc) n :
  forall i tv (h : heap),
    h !! copy = Some tv ->
    exists res tv',
      later_months tz n copy i h = Ok (res, <[copy := tv']> h)
      /\ (res = None \/ res = Some copy)
      /\ friday_13th tz (<[copy := tv']> h) res.
Proof.
  induction n as [|n IH]; intros i tv h Ht.
  - exists None, tv. rewrite insert_id by exact Ht. repeat split. now left.
  - rewrite later_months_S. do 3 run.
    destruct (month_scan_run tz copy
                (rounds (Some 1)
                   (getDate tz (Date_local tz (getFullYear tz tv) (getMonth tz tv) (Some 0))))
                1 (setMonth tz tv (Some i)) (<[copy := setMonth tz tv (Some i)]> h))
      as (res & tv' & E & R & F); [apply lookup_insert_eq |].
    rewrite insert_insert_eq in E, F.
    rewrite (bind_Ok _ _ _ _ _ E).
    destruct R as [-> | ->].
    + destruct (IH (i + 1) tv' (<[copy := tv']> h)) as (res & tv'' & E' & R' & F');
        [apply lookup_insert_eq |].
      rewrite insert_insert_eq in E', F'. exists res, tv''. exact (conj E' (conj R' F')).
    + exists (Some copy), tv'. split; [reflexivity |]. split; [now right | exact F].
Qed.

Lemma getNextFridayThe13th_head tz (date : loc) tv (h : heap) :
  h !! date = Some tv ->
  getNextFridayThe13th tz date h
  = (r ← rest_of_month tz date tv;
     match r with
     | Some d => mret (Some d)
     | None => rest_of_year tz (fresh (dom h))
     end) (<[fresh (dom h) := Date_of_value tv]> h).
Proof.
  intros Ht. unfold getNextFridayThe13th.
  rewrite (bind_Ok _ _ _ _ _ (valueOf_run _ _ _ Ht)).
  rewrite (bind_Ok _ _ _ _ _ (new_Date_run (Date_of_value tv) h)).
  assert (H0 : <[fresh (dom h) := Date_of_value tv]> h !! date = Some tv).
  { rewrite lookup_insert_ne; [exact Ht |].
    intros E. pose proof (fresh_not_stored h) as N. rewrite E in N. congruence. }
  rewrite (bind_Ok _ _ _ _ _ (getDate_run tz _ _ _ H0)).
  rewrite (bind_Ok _ _ _ _ _ (getFullYear_run tz _ _ _ H0)).
  rewrite (bind_Ok _ _ _ _ _ (getMonth_run tz _ _ _ H0)).
  reflexivity.
Qed.

Lemma rest_of_month_run tz (date : loc) tv (h : heap) :
  h !! date = Some tv ->
  exists res tv',
    rest_of_month tz date tv h = Ok (res, <[date := tv']> h)
    /\ (res = None \/ res = Some date)
    /\ friday_13th tz (<[date := tv']> h) res.
Proof.
  intros Ht. unfold rest_of_month. destruct (getDate tz tv) as [day|].
  - now apply first_scan_run with tv.
  - exists None, tv. rewrite insert_id by exact Ht. repeat split. now left.
Qed.

Lemma rest_of_year_run tz (copy : loc) tv (h : heap) :
  h !! copy = Some tv ->
  exists res tv',
    rest_of_year tz copy h = Ok (res, <[copy := tv']> h)
    /\ (res = None \/ res = Some copy)
    /\ friday_13th tz (<[copy := tv']> h) res.
Proof.
  intros Ht. unfold rest_of_year. run. destruct (getMonth tz tv) as [month|].
  - now apply later_months_run with tv.
  - exists None, tv. rewrite insert_id by exact Ht. repeat split. now left.
Qed.

(** *** What [getNextFridayThe13th] does *)

(** C2.  Started on 14 December 2024 (zone UTC), [getNextFridayThe13th]
    scans the rest of December, then no month at all, and falls off its
    end: it returns [undefined], where the next Friday the 13th is
    13 June 2025. *)
Theorem getNextFridayThe13th_december :
  exists h,
    getNextFridayThe13th 0 1%positive
      {[1%positive := Date_local 0 (Some 2024) (Some 11) (Some 14)]}
    = Ok (None, h).
Proof. eexists. vm_compute. reflexivity. Qed.

(** X9.  [getNextFridayThe13th] always returns, on a valid date and on
    the Invalid Date, and a date it returns is a Friday and the 13th of
    its month; the object returned is the argument itself, overwritten,
    or an object that was not in the store before the call. *)
Theorem getNextFridayThe13th_finds_friday_13th tz (h : heap) (date : loc) tv :
  h !! date = Some tv ->
  exists res h',
    getNextFridayThe13th tz date h = Ok (res, h')
    /\ match res with
       | None => True
       | Some r =>
           (r = date \/ h !! r = None)
           /\ exists t', h' !! r = Some (Some t')
                         /\ local_weekday tz t' = 5 /\ local_date tz t' = 13
       end.
Proof.
  intros Ht. rewrite (getNextFridayThe13th_head tz date tv h Ht).
  set (copy := fresh (dom h)).
  assert (Hc : h !! copy = None) by apply fresh_not_stored.
  assert (Hne : copy <> date) by (intros E; rewrite E in Hc; congruence).
  set (h0 := <[copy := Date_of_value tv]> h).
  assert (H0 : h0 !! date = Some tv) by (subst h0; now rewrite lookup_insert_ne).
  destruct (rest_of_month_run tz date tv h0 H0) as (res & tv1 & E & R & F).
  rewrite (bind_Ok _ _ _ _ _ E).
  destruct R as [-> | ->].
  - assert (H1 : <[date := tv1]> h0 !! copy = Some (Date_of_value tv)).
    { rewrite lookup_insert_ne by congruence. subst h0. apply lookup_insert_eq. }
    destruct (rest_of_year_run tz copy _ _ H1) as (res & tv2 & E' & R' & F').
    exists res, (<[copy := tv2]> (<[date := tv1]> h0)). split; [exact E' |].
    destruct R' as [-> | ->]; [exact I |].
    split; [now right | exact F'].
  - exists (Some date), (<[date := tv1]> h0). split; [reflexivity |].
    split; [now left | exact F].
Qed.

Lemma getNextFridayThe13th_finds_friday_13th_witness :
  exists res h',
    getNextFridayThe13th 0 1%positive
      {[1%positive := Date_local 0 (Some 2023) (Some 1) (Some 1)]}
    = Ok (res, h')
    /\ match res with
       | None => True
       | Some r =>
           (r = 1%positive
            \/ ({[1%positive := Date_local 0 (Some 2023) (Some 1) (Some 1)]} : heap) !! r
               = None)
           /\ exists t', h' !! r = Some (Some t')
                         /\ local_weekday 0 t' = 5 /\ local_date 0 t' = 13
       end.
Proof.
  apply (getNextFridayThe13th_finds_friday_13th 0
           {[1%positive := Date_local 0 (Some 2023) (Some 1) (Some 1)]}
           1%positive (Date_local 0 (Some 2023) (Some 1) (Some 1))).
  apply lookup_singleton_eq.
Defined.

(** Past the 13th the scan of the rest of the month finds nothing and
    leaves the date on the last day it tried. *)
Lemma first_scan_past_13 tz (date : loc) y m n :
  time_zone tz -> year_ok y ->
  forall i t (h : heap),
    h !! date = Some (Some t) ->
    local_year tz t = y -> local_month tz t = m -> local_date tz t = i - 1 ->
    13 < i -> i - 1 + Z.of_nat n <= DaysInMonth y m ->
    first_scan tz n date i h
    = Ok (None, <[date := Some (t + Z.of_nat n * msPerDay)]> h).
Proof.
  intros Hz Hok. induction n as [|n IH]; intros i t h Ht Hy Hm Hd Hi Hn.
  - cbn [first_scan Z.of_nat]. rewrite Z.mul_0_l, Z.add_0_r, insert_id by exact Ht.
    reflexivity.
  - rewrite first_scan_S. do 2 run.
    pose proof (DaysInMonth_range y m) as L.
    rewrite setDate_ok by (trivial; try lia; now rewrite Hy).
    unfold getDay, num_eqb.
    destruct (Z.eqb_spec i 13) as [E|_]; [lia |]. rewrite andb_false_r.
    destruct (setDate_in_month tz t i) as (Hy' & Hm' & Hd'); [rewrite Hy, Hm; lia |].
    rewrite (IH (i + 1) (time_setDate tz t i) (<[date := Some (time_setDate tz t i)]> h));
      [ | apply lookup_insert_eq | congruence | congruence | rewrite Hd'; lia
        | lia | lia ].
    rewrite insert_insert_eq, setDate_shift, Hd. do 4 f_equal. lia.
Qed.

(** X10.  In November and December, on the 13th of the month or later,
    [getNextFridayThe13th] returns [undefined], and it leaves its
    argument on the last day of its month, at the same time of day (for
    a year that [new Date(year, ...)] reads as it is and that is neither
    the first nor the last of the time range). *)
Theorem getNextFridayThe13th_late_in_year tz (h : heap) (date : loc) t :
  time_zone tz ->
  h !! date = Some (Some t) ->
  year_ok (local_year tz t) ->
  ~ 0 <= local_year tz t <= 99 ->
  10 <= local_month tz t ->
  13 <= local_date tz t ->
  exists h',
    getNextFridayThe13th tz date h = Ok (None, h')
    /\ h' !! date
       = Some (Some (t + (DaysInMonth (local_year tz t) (local_month tz t)
                          - local_date tz t) * msPerDay)).
Proof.
  intros Hz Ht Hok Hy Hm Hd. rewrite (getNextFridayThe13th_head tz date _ h Ht).
  set (copy := fresh (dom h)).
  assert (Hc : h !! copy = None) by apply fresh_not_stored.
  assert (Hne : copy <> date) by (intros E; rewrite E in Hc; congruence).
  unfold Date_of_value. rewrite (time_value_ok tz t Hz Hok).
  set (h0 := <[copy := Some t]> h).
  assert (H0 : h0 !! date = Some (Some t)) by (subst h0; now rewrite lookup_insert_ne).
  destruct (local_fields tz t) as [Hm11 HD].
  unfold rest_of_month, getDate at 1, getFullYear, getMonth, num_add.
  rewrite days_of_month, (MakeFullYear_id _ Hy) by (trivial; now rewrite (MakeFullYear_id _ Hy)).
  set (len := DaysInMonth (local_year tz t) (local_month tz t)) in *.
  unfold rounds.
  rewrite (bind_Ok _ _ _ _ _
             (first_scan_past_13 tz date (local_year tz t) (local_month tz t)
                (Z.to_nat (len - (local_date tz t + 1) + 1)) Hz Hok
                (local_date tz t + 1) t h0 H0
                eq_refl eq_refl ltac:(lia) ltac:(lia) ltac:(subst len; lia))).
  assert (H1 : <[date := Some (t + Z.of_nat (Z.to_nat (len - (local_date tz t + 1) + 1))
                                   * msPerDay)]> h0
               !! copy = Some (Some t)).
  { rewrite lookup_insert_ne by congruence. subst h0. apply lookup_insert_eq. }
  unfold rest_of_year.
  rewrite (bind_Ok _ _ _ _ _ (getMonth_run tz _ _ _ H1)).
  unfold getMonth, rounds_lt.
  replace (Z.to_nat (11 - (local_month tz t + 1))) with 0%nat by lia.
  eexists. split; [reflexivity |].
  rewrite lookup_insert_eq. do 4 f_equal. lia.
Qed.

Lemma getNextFridayThe13th_late_in_year_witness :
  exists h',
    getNextFridayThe13th 0 1%positive {[1%positive := Some (time_of_date 0 2024 10 20)]}
    = Ok (None, h')
    /\ h' !! 1%positive = Some (Some (time_of_date 0 2024 10 20 + (30 - 20) * msPerDay)).
Proof.
  apply (getNextFridayThe13th_late_in_year 0
           {[1%positive := Some (time_of_date 0 2024 10 20)]}
           1%positive (time_of_date 0 2024 10 20)).
  - vm_compute. split; reflexivity.
  - apply lookup_singleton_eq.
  - vm_compute. split; discriminate.
  - vm_compute. intros [_ H]. apply H. reflexivity.
  - vm_compute. discriminate.
  - vm_compute. discriminate.
Defined.

(** *** Friday the 13th later in the month *)

(** The only 13th of a month among the last days of the time range and
    the days that follow is 13 September 275760, a Saturday. *)
Lemma no_friday_13th_at_the_end d :
  99999970 <= d <= 100000012 -> DateFromDay d = 13 -> WeekDayOfDay d = 5 -> False.
Proof.
  intros Hd H13 H5.
  pose proof (range_forallb
                (fun d => negb ((DateFromDay d =? 13) && (WeekDayOfDay d =? 5)))
                99999970 100000012 ltac:(vm_compute; reflexivity) d Hd) as P.
  cbv beta in P. rewrite H13, H5 in P. discriminate P.
Qed.

(** A Friday the 13th that follows a time value in its month is at least
    a month before the end of the time range. *)
Lemma friday_13th_in_range tz t :
  time_zone tz -> Z.abs t <= maxTime ->
  local_date tz t < 13 ->
  local_weekday tz (t + (13 - local_date tz t) * msPerDay) = 5 ->
  Day (LocalTime tz t) + (13 - local_date tz t) <= 99999969.
Proof.
  intros Hz Ht Hd H5. rewrite getDay_shift in H5.
  pose proof (time_value_day tz t Hz Ht) as HD.
  destruct (local_fields tz t) as [Hm H1].
  unfold local_date, local_month, local_year, DateFromTime, MonthFromTime,
    YearFromTime in *.
  set (d := Day (LocalTime tz t)) in *.
  assert (H13 : DateFromDay (d + (13 - DateFromDay d)) = 13).
  { rewrite <- set_day_shift. unfold set_day.
    pose proof (DaysInMonth_range (YearFromDay d) (MonthFromDay d)).
    apply DateFromDay_MakeDay. split; lia. }
  destruct (Z_le_gt_dec (d + (13 - DateFromDay d)) 99999969) as [L|G]; [exact L |].
  exfalso. apply (no_friday_13th_at_the_end (d + (13 - DateFromDay d))); trivial. lia.
Qed.

Lemma first_scan_to_13 tz (date : loc) :
  forall (k : nat) n i t (h : heap),
    h !! date = Some (Some t) ->
    local_date tz t < i -> i + Z.of_nat k = 13 -> (k < n)%nat ->
    - maxTime <= t -> t + (13 - local_date tz t) * msPerDay <= maxTime ->
    local_weekday tz (t + (13 - local_date tz t) * msPerDay) = 5 ->
    first_scan tz n date i h
    = Ok (Some date, <[date := Some (t + (13 - local_date tz t) * msPerDay)]> h).
Proof.
  induction k as [|k IH]; intros n i t h Ht Hi Hk Hn Hlo Hhi H5;
    (destruct n as [|n]; [lia |]); rewrite first_scan_S; do 2 run;
    pose proof (local_fields tz t) as [_ [H1 _]];
    rewrite setDate_Some, setDate_shift;
    (rewrite TimeClip_in by (unfold msPerDay in *; lia)); unfold getDay, num_eqb.
  - assert (i = 13) as -> by lia. rewrite H5. reflexivity.
  - destruct (Z.eqb_spec i 13) as [E|_]; [lia |]. rewrite andb_false_r.
    assert (G : local_date tz (t + (i - local_date tz t) * msPerDay) = i)
      by (rewrite <- setDate_shift; apply getDate_setDate; lia).
    rewrite (IH n (i + 1) (t + (i - local_date tz t) * msPerDay)
               (<[date := Some (t + (i - local_date tz t) * msPerDay)]> h));
      [ | apply lookup_insert_eq | lia | lia | lia | unfold msPerDay in *; lia
        | rewrite G; unfold msPerDay in *; lia | ].
    + rewrite insert_insert_eq, G. do 4 f_equal. lia.
    + rewrite G.
      replace (t + (i - local_date tz t) * msPerDay + (13 - i) * msPerDay)
        with (t + (13 - local_date tz t) * msPerDay) by lia.
      exact H5.
Qed.

(** The month of such a date is read in full by [new Date(year, month +
    1, 0)]. *)
Lemma month_of_friday_13th_safe tz t :
  time_zone tz -> Z.abs t <= maxTime ->
  local_date tz t < 13 ->
  Day (LocalTime tz t) + (13 - local_date tz t) <= 99999969 ->
  safe_day (MakeDay (MakeFullYear (local_year tz t)) (local_month tz t + 1) 0).
Proof.
  intros Hz Ht Hd H13.
  pose proof (time_value_day tz t Hz Ht) as HD.
  destruct (local_fields tz t) as [Hm H1].
  rewrite MakeDay_day_0 by exact Hm.
  set (y := local_year tz t) in *.
  pose proof (DaysInMonth_range (MakeFullYear y) (local_month tz t)) as L.
  destruct (Z_le_gt_dec 0 y) as [H0|H0]; [destruct (Z_le_gt_dec y 99) as [H99|H99] |].
  - assert (Hy : year_ok (MakeFullYear y)).
    { unfold year_ok, MakeFullYear.
      destruct (Z.leb_spec 0 y), (Z.leb_spec y 99); cbn [andb]; lia. }
    apply (year_ok_days _ _ Hy). apply MakeDay_near_year; lia.
  - rewrite MakeFullYear_id in * by lia.
    pose proof (DaysInMonth_range y (local_month tz t)) as L'.
    destruct (civil_of_day (Day (LocalTime tz t))) as (_ & Ed).
    assert (S : MakeDay y (local_month tz t) (DaysInMonth y (local_month tz t))
                = MakeDay y (local_month tz t) (local_date tz t)
                  + (DaysInMonth y (local_month tz t) - local_date tz t))
      by (rewrite <- MakeDay_add; f_equal; lia).
    rewrite S. subst y.
    unfold local_year, local_month, local_date, YearFromTime, MonthFromTime,
      DateFromTime in *.
    rewrite Ed. unfold safe_day. lia.
  - rewrite MakeFullYear_id in * by lia.
    pose proof (DaysInMonth_range y (local_month tz t)) as L'.
    destruct (civil_of_day (Day (LocalTime tz t))) as (_ & Ed).
    assert (S : MakeDay y (local_month tz t) (DaysInMonth y (local_month tz t))
                = MakeDay y (local_month tz t) (local_date tz t)
                  + (DaysInMonth y (local_month tz t) - local_date tz t))
      by (rewrite <- MakeDay_add; f_equal; lia).
    rewrite S. subst y.
    unfold local_year, local_month, local_date, YearFromTime, MonthFromTime,
      DateFromTime in *.
    rewrite Ed. unfold safe_day. lia.
Qed.

(** X23.  Before the 13th of a month whose 13th is a Friday,
    [getNextFridayThe13th] returns its argument, moved to that 13th at
    the same time of day. *)
Theorem getNextFridayThe13th_same_month tz (h : heap) (date : loc) t :
  time_zone tz ->
  h !! date = Some (Some t) ->
  Z.abs t <= maxTime ->
  local_date tz t < 13 ->
  local_weekday tz (t + (13 - local_date tz t) * msPerDay) = 5 ->
  exists h',
    getNextFridayThe13th tz date h = Ok (Some date, h')
    /\ h' !! date = Some (Some (t + (13 - local_date tz t) * msPerDay)).
Proof.
  intros Hz Ht Hr Hd H5. rewrite (getNextFridayThe13th_head tz date _ h Ht).
  set (copy := fresh (dom h)).
  assert (Hc : h !! copy = None) by apply fresh_not_stored.
  assert (Hne : copy <> date) by (intros E; rewrite E in Hc; congruence).
  unfold Date_of_value. rewrite (TimeClip_in t Hr).
  set (h0 := <[copy := Some t]> h).
  assert (H0 : h0 !! date = Some (Some t)) by (subst h0; now rewrite lookup_insert_ne).
  destruct (local_fields tz t) as [Hm11 [HD _]].
  pose proof (friday_13th_in_range tz t Hz Hr Hd H5) as H13.
  pose proof (month_of_friday_13th_safe tz t Hz Hr Hd H13) as Hs.
  unfold rest_of_month, getDate at 1, getFullYear, getMonth, num_add.
  rewrite (Date_local_safe tz _ _ _ Hz Hs). unfold getDate.
  rewrite length_of_month by exact Hm11.
  pose proof (DaysInMonth_range (MakeFullYear (local_year tz t)) (local_month tz t)) as L.
  unfold rounds.
  assert (Hhi : t + (13 - local_date tz t) * msPerDay <= maxTime).
  { pose proof (TimeWithinDay_range (LocalTime tz t)) as Htw.
    pose proof (MakeDate_Day (LocalTime tz t)) as E.
    unfold time_zone, MakeDate, LocalTime, maxTime, msPerDay in *. lia. }
  rewrite (bind_Ok _ _ _ _ _
             (first_scan_to_13 tz date (Z.to_nat (12 - local_date tz t))
                (Z.to_nat (DaysInMonth (MakeFullYear (local_year tz t)) (local_month tz t)
                           - (local_date tz t + 1) + 1))
                (local_date tz t + 1) t h0 H0 ltac:(lia) ltac:(lia) ltac:(lia)
                ltac:(lia) Hhi H5)).
  eexists. split; [reflexivity |]. apply lookup_insert_eq.
Qed.

Lemma getNextFridayThe13th_same_month_witness :
  exists h',
    getNextFridayThe13th 0 1%positive {[1%positive := Some (time_of_date 0 2024 8 2)]}
    = Ok (Some 1%positive, h')
    /\ h' !! 1%positive = Some (Some (time_of_date 0 2024 8 2 + (13 - 2) * msPerDay)).
Proof.
  apply (getNextFridayThe13th_same_month 0
           {[1%positive := Some (time_of_date 0 2024 8 2)]}
           1%positive (time_of_date 0 2024 8 2)).
  - vm_compute. split; reflexivity.
  - apply lookup_singleton_eq.
  - vm_compute. discriminate.
  - vm_compute. reflexivity.
  - reflexivity.
Defined.

(** ** [getWeekNumberByDate] *)

Lemma mondays_from_app a b k :
  mondays_from (a + b) k = mondays_from a k + mondays_from b (k + Z.of_nat a).
Proof.
  revert k. induction a as [|a IH]; intros k.
  - cbn [Nat.add mondays_from]. rewrite Z.add_0_r. lia.
  - cbn [Nat.add mondays_from]. rewrite IH.
    replace (k + 1 + Z.of_nat a) with (k + Z.of_nat (S a)) by lia. lia.
Qed.

Lemma mondays_from_nonneg n : forall k, 0 <= mondays_from n k.
Proof.
  induction n as [|n IH]; intros k; cbn [mondays_from]; [lia |].
  pose proof (IH (k + 1)). destruct (WeekDayOfDay k =? 1); lia.
Qed.

Lemma mondays_from_mono n n' k :
  (n <= n')%nat -> mondays_from n k <= mondays_from n' k.
Proof.
  intros H. replace n' with (n + (n' - n))%nat by lia.
  rewrite mondays_from_app. pose proof (mondays_from_nonneg (n' - n) (k + Z.of_nat n)). lia.
Qed.

(** *** Inside the time range *)

Lemma scan_days_S tz n j d count :
  scan_days tz (S n) j (d, count)
  = scan_days tz n (j + 1)
      (setDate tz d (Some j),
       if num_eqb (getDay tz d) (Some 1) then count + 1 else count).
Proof. reflexivity. Qed.

(** The loop over the days of a month counts the Mondays it walks over
    and leaves its cursor on the last day. *)
Lemma scan_days_spec tz y i :
  time_zone tz -> year_ok y -> 0 <= i <= 11 ->
  forall n j d count,
    2 <= j -> j - 1 + Z.of_nat n <= DaysInMonth y i ->
    Day (LocalTime tz d) = MakeDay y i (j - 1) ->
    exists d',
      scan_days tz n j (Some d, count)
      = (Some d', count + mondays_from n (MakeDay y i (j - 1)))
      /\ Day (LocalTime tz d') = MakeDay y i (j - 1 + Z.of_nat n).
Proof.
  intros Hz Hy Hi. induction n as [|n IH]; intros j d count Hj Hn Hd.
  - exists d. cbn [scan_days mondays_from]. rewrite !Z.add_0_r. now split.
  - pose proof (DaysInMonth_range y i) as L.
    assert (C : civil_ok y i (j - 1)) by (split; lia).
    rewrite scan_days_S. cbn [mondays_from].
    rewrite setDate_ok;
      [ | exact Hz
        | unfold local_year, YearFromTime; now rewrite Hd, (YearFromDay_MakeDay y i _ C)
        | lia ].
    unfold getDay, num_eqb. rewrite getDay_day, Hd.
    destruct (LocalTime_setDate tz d j) as [Hd' _].
    rewrite Hd, (set_day_in_month y i (j - 1) j C) in Hd'.
    replace j with (j + 1 - 1) in Hd' at 2 by lia.
    destruct (IH (j + 1) (time_setDate tz d j)
                 (if WeekDayOfDay (MakeDay y i (j - 1)) =? 1 then count + 1 else count))
      as (d' & E & D); [lia | lia | exact Hd' |].
    exists d'. rewrite E. split.
    + f_equal. replace (j + 1 - 1) with (j - 1 + 1) by lia. rewrite MakeDay_add.
      destruct (WeekDayOfDay (MakeDay y i (j - 1)) =? 1); lia.
    + rewrite D. f_equal. lia.
Qed.

Lemma scan_month_spec tz y i d days count :
  time_zone tz -> year_ok y ->
  0 <= i <= 11 -> 1 <= days <= DaysInMonth y i ->
  Day (LocalTime tz d) = MakeDay y i 1 ->
  scan_month tz (Some d) (Some days) count
  = count + mondays_from (Z.to_nat days) (MakeDay y i 1).
Proof.
  intros Hz Hy Hi Hdays Hd. unfold scan_month, rounds.
  replace (Z.to_nat (days - 2 + 1)) with (Z.to_nat (days - 1)) by lia.
  destruct (scan_days_spec tz y i Hz Hy Hi (Z.to_nat (days - 1)) 2 d count)
    as (d' & E & D); [lia | lia | exact Hd |].
  rewrite E. unfold getDay, num_eqb. rewrite getDay_day, D.
  replace (Z.to_nat days) with (Z.to_nat (days - 1) + 1)%nat by lia.
  rewrite mondays_from_app. cbn [mondays_from].
  change (2 - 1) with 1. rewrite <- MakeDay_add.
  destruct (WeekDayOfDay (MakeDay y i (1 + Z.of_nat (Z.to_nat (days - 1)))) =? 1); lia.
Qed.

Lemma scan_months_S tz n y i count :
  scan_months tz (S n) y i count
  = scan_months tz n y (i + 1)
      (scan_month tz (Date_local tz y (Some i) (Some 1))
                  (getDate tz (Date_local tz y (Some (i + 1)) (Some 0))) count).
Proof. unfold scan_months at 1. fold scan_months. reflexivity. Qed.

Lemma scan_months_spec tz y :
  time_zone tz -> year_ok y -> ~ 0 <= y <= 99 ->
  forall n i count,
    0 <= i -> i + Z.of_nat n <= 11 ->
    exists N,
      Z.of_nat N = MakeDay y (i + Z.of_nat n) 1 - MakeDay y i 1
      /\ scan_months tz n (Some y) i count = count + mondays_from N (MakeDay y i 1).
Proof.
  intros Hz Hok Hy. induction n as [|n IH]; intros i count Hi Hn.
  - exists 0%nat. cbn [scan_months mondays_from Z.of_nat]. rewrite !Z.add_0_r. lia.
  - pose proof (MakeFullYear_id y Hy) as Hf.
    rewrite scan_months_S, days_of_month, Date_local_ok, Hf;
      try lia; trivial; try (now rewrite Hf).
    pose proof (DaysInMonth_range y i) as L.
    rewrite (scan_month_spec tz y i) by (try apply Day_Date_local; trivial; lia).
    destruct (IH (i + 1) (count + mondays_from (Z.to_nat (DaysInMonth y i)) (MakeDay y i 1)))
      as (N & EN & E); [lia | lia |].
    exists (Z.to_nat (DaysInMonth y i) + N)%nat. split.
    + rewrite Nat2Z.inj_add, EN, (first_of_next_month y i) by lia.
      replace (i + 1 + Z.of_nat n) with (i + Z.of_nat (S n)) by lia. lia.
    + rewrite E, mondays_from_app, (first_of_next_month y i) by lia.
      rewrite Z2Nat.id by lia. lia.
Qed.

Lemma getWeekNumberByDate_run tz date :
  time_zone tz -> year_ok (local_year tz date) ->
  ~ 0 <= local_year tz date <= 99 ->
  getWeekNumberByDate tz (Some date) = week_counter tz date.
Proof.
  intros Hz Hok Hy. unfold getWeekNumberByDate, week_counter.
  unfold getFullYear, getMonth, getDate.
  pose proof (MakeFullYear_id _ Hy) as Hf.
  unfold local_year, local_month, local_date, YearFromTime, MonthFromTime, DateFromTime in *.
  set (d := Day (LocalTime tz date)) in *.
  destruct (civil_of_day d) as ([Hm Hdd] & Ed).
  set (y := YearFromDay d) in *. set (m := MonthFromDay d) in *.
  set (dd := DateFromDay d) in *.
  assert (J : MakeDay y 0 1 = DayFromYear y).
  { rewrite MakeDay_in_year by lia. cbn [DaysBeforeMonth]. lia. }
  rewrite !Date_local_ok by (trivial; try lia; now rewrite Hf).
  unfold getDay at 1. unfold num_eqb at 1.
  rewrite getDay_day, (Day_Date_local tz y 0 1 Hy), J.
  unfold rounds_lt. rewrite Z.sub_0_r.
  destruct (scan_months_spec tz y Hz Hok Hy (Z.to_nat m) 0
              (if negb (WeekDayOfDay (DayFromYear y) =? 1) then 1 else 0))
    as (N & EN & E); [lia | lia |].
  rewrite E, (scan_month_spec tz y m) by (try apply Day_Date_local; trivial; lia).
  rewrite Z.add_0_l, Z2Nat.id, J in EN by lia. rewrite J.
  assert (T : d = MakeDay y m 1 + (dd - 1)).
  { rewrite <- MakeDay_add, <- Ed. f_equal. lia. }
  replace (Z.to_nat (d - DayFromYear y + 1)) with (N + Z.to_nat dd)%nat by lia.
  rewrite mondays_from_app.
  replace (DayFromYear y + Z.of_nat N) with (MakeDay y m 1) by lia.
  destruct (WeekDayOfDay (DayFromYear y) =? 1); cbn [negb]; lia.
Qed.

(** C4.  [new Date(year, 0, 1)] reads a year from 0 to 99 as 1900 + year.
    On Sunday 7 January of year 1 (zone UTC) [getWeekNumberByDate]
    therefore scans January 1901 and returns 2, where the counter of the
    specification, which scans January of year 1, is 1. *)
Theorem getWeekNumberByDate_two_digit_year :
  Date_of_string 0 "0001-01-07T00:00:00Z" = Ok (Some (-62135078400000)) /\
  getFullYear 0 (Some (-62135078400000)) = Some 1 /\
  getWeekNumberByDate 0 (Some (-62135078400000)) = 2 /\
  week_counter 0 (-62135078400000) = 1.
Proof. repeat split. Qed.

(** X1.  For a date whose local year is outside 0 to 99, and neither the
    first nor the last year of the time range, [getWeekNumberByDate] is
    the counter of the scan, in every zone and at every time of day: 1
    if January 1 of the year is not a Monday, else 0, plus one for every
    Monday from January 1 up to and including the date. *)
Theorem getWeekNumberByDate_scan tz date :
  time_zone tz -> year_ok (local_year tz date) ->
  ~ 0 <= local_year tz date <= 99 ->
  getWeekNumberByDate tz (Some date) = week_counter tz date.
Proof. exact (getWeekNumberByDate_run tz date). Qed.

Lemma getWeekNumberByDate_scan_witness :
  getWeekNumberByDate 0 (Some (time_of_date 0 2024 1 23))
  = week_counter 0 (time_of_date 0 2024 1 23).
Proof.
  apply (getWeekNumberByDate_scan 0 (time_of_date 0 2024 1 23)).
  - vm_compute. split; reflexivity.
  - vm_compute. split; discriminate.
  - vm_compute. intros [_ H]. apply H. reflexivity.
Defined.

(** *** The range of the week number *)

Lemma mondays_week k : mondays_from 7 k = 1.
Proof. cbn [mondays_from]. by_weekday k; reflexivity. Qed.

Lemma mondays_few n k : (n <= 7)%nat -> 0 <= mondays_from n k <= 1.
Proof.
  intros Hn.
  assert (n = 0 \/ n = 1 \/ n = 2 \/ n = 3 \/ n = 4 \/ n = 5 \/ n = 6 \/ n = 7)%nat
    as H by lia.
  repeat (destruct H as [-> | H]); subst; cbn [mondays_from];
    by_weekday k; split; discriminate.
Qed.

Lemma mondays_weeks q : forall r k,
  (r <= 7)%nat ->
  Z.of_nat q <= mondays_from (7 * q + r) k <= Z.of_nat q + 1.
Proof.
  induction q as [|q IH]; intros r k Hr.
  - cbn [Nat.mul Nat.add]. pose proof (mondays_few r k Hr). lia.
  - replace (7 * S q + r)%nat with (7 + (7 * q + r))%nat by lia.
    rewrite mondays_from_app, mondays_week.
    pose proof (IH r (k + Z.of_nat 7) Hr). lia.
Qed.

Lemma mondays_year n k : (n <= 366)%nat -> mondays_from n k <= 53.
Proof.
  intros Hn.
  pose proof (mondays_weeks (n / 7) (n mod 7) k
                ltac:(pose proof (Nat.mod_upper_bound n 7); lia)) as B.
  rewrite <- Nat.div_mod_eq in B.
  assert (Hq : (n / 7 < 53)%nat) by (apply Nat.Div0.div_lt_upper_bound; lia).
  lia.
Qed.

(** *** The scan, whatever is clipped

    A cursor stands on a day when it is valid; once invalid it stays
    so, and counts nothing. *)

Lemma scan_days_mono tz n : forall j d count,
  count <= snd (scan_days tz n j (d, count)).
Proof.
  induction n as [|n IH]; intros j d count; [cbn [scan_days snd]; lia |].
  rewrite scan_days_S.
  etransitivity; [| apply IH].
  destruct (num_eqb (getDay tz d) (Some 1)); lia.
Qed.

Lemma scan_month_mono tz d days count : count <= scan_month tz d days count.
Proof.
  unfold scan_month.
  pose proof (scan_days_mono tz (rounds (Some 2) days) 2 d count) as M.
  destruct (scan_days tz (rounds (Some 2) days) 2 (d, count)) as [d' count'].
  cbn [snd] in M. destruct (num_eqb (getDay tz d') (Some 1)); lia.
Qed.

Lemma scan_months_mono tz n : forall y i count, count <= scan_months tz n y i count.
Proof.
  induction n as [|n IH]; intros y i count; [cbn [scan_months]; lia |].
  rewrite scan_months_S. etransitivity; [| apply IH]. apply scan_month_mono.
Qed.

(** A scan that starts on a valid Monday counts it. *)
Lemma scan_month_first tz d days count :
  local_weekday tz d = 1 -> count + 1 <= scan_month tz (Some d) days count.
Proof.
  intros W. unfold scan_month. destruct (rounds (Some 2) days) as [|n].
  - cbn [scan_days]. rewrite getDay_Some, num_eqb_Some, W. cbn [Z.eqb Pos.eqb]. lia.
  - rewrite scan_days_S, getDay_Some, num_eqb_Some, W. cbn [Z.eqb Pos.eqb].
    pose proof (scan_days_mono tz n (2 + 1) (setDate tz (Some d) (Some 2)) (count + 1)) as M.
    destruct (scan_days tz n (2 + 1) (setDate tz (Some d) (Some 2), count + 1))
      as [d' count'].
    cbn [snd] in M. destruct (num_eqb (getDay tz d') (Some 1)); lia.
Qed.

Lemma scan_days_bound tz y i :
  0 <= i <= 11 ->
  forall n j d count,
    2 <= j -> j - 1 + Z.of_nat n <= DaysInMonth y i ->
    on_day tz d (MakeDay y i (j - 1)) ->
    on_day tz (fst (scan_days tz n j (d, count))) (MakeDay y i (j - 1 + Z.of_nat n))
    /\ snd (scan_days tz n j (d, count))
       <= count + mondays_from n (MakeDay y i (j - 1)).
Proof.
  intros Hi. induction n as [|n IH]; intros j d count Hj Hn Hd.
  - cbn [scan_days mondays_from fst snd]. rewrite !Z.add_0_r. split; [exact Hd | lia].
  - pose proof (DaysInMonth_range y i) as L.
    assert (C : civil_ok y i (j - 1)) by (split; lia).
    rewrite scan_days_S. cbn [mondays_from].
    assert (Hd' : on_day tz (setDate tz d (Some j)) (MakeDay y i (j + 1 - 1))).
    { destruct d as [t|]; [| exact I]. rewrite setDate_Some.
      destruct (TimeClip_cases (time_setDate tz t j)) as [-> | ->]; [exact I |].
      cbn [on_day] in *. destruct (LocalTime_setDate tz t j) as [E _].
      rewrite E, Hd, (set_day_in_month y i (j - 1) j C). f_equal. lia. }
    destruct (IH (j + 1) (setDate tz d (Some j))
                 (if num_eqb (getDay tz d) (Some 1) then count + 1 else count))
      as [P Q]; [lia | lia | exact Hd' |].
    split.
    + replace (j - 1 + Z.of_nat (S n)) with (j + 1 - 1 + Z.of_nat n) by lia. exact P.
    + etransitivity; [exact Q |].
      replace (j + 1 - 1) with (j - 1 + 1) by lia. rewrite MakeDay_add.
      assert (G : (if num_eqb (getDay tz d) (Some 1) then count + 1 else count)
                  <= count + (if WeekDayOfDay (MakeDay y i (j - 1)) =? 1 then 1 else 0)).
      { destruct d as [t|]; unfold getDay, num_eqb.
        - cbn [on_day] in Hd. rewrite getDay_day, Hd.
          destruct (WeekDayOfDay (MakeDay y i (j - 1)) =? 1); lia.
        - destruct (WeekDayOfDay (MakeDay y i (j - 1)) =? 1); lia. }
      lia.
Qed.

(** The scan of a month counts no more Mondays than the first [M] days
    of the month hold, when it runs over [M] days at most. *)
Lemma scan_month_bound tz y i d days count M :
  0 <= i <= 11 -> 1 <= M <= DaysInMonth y i ->
  match days with Some dn => 1 <= dn <= M | None => True end ->
  on_day tz d (MakeDay y i 1) ->
  scan_month tz d days count <= count + mondays_from (Z.to_nat M) (MakeDay y i 1).
Proof.
  intros Hi HM Hdays Hd. unfold scan_month.
  set (n := rounds (Some 2) days).
  assert (Hn : (S n <= Z.to_nat M)%nat).
  { subst n. unfold rounds. destruct days as [dn|]; lia. }
  destruct (scan_days_bound tz y i Hi n 2 d count) as [P Q]; [lia | lia | exact Hd |].
  destruct (scan_days tz n 2 (d, count)) as [d' count']. cbn [fst snd] in P, Q.
  change (2 - 1) with 1 in *.
  etransitivity; [| apply Z.add_le_mono_l, (mondays_from_mono (S n)); exact Hn].
  replace (S n) with (n + 1)%nat by lia.
  rewrite mondays_from_app. cbn [mondays_from]. rewrite <- MakeDay_add.
  assert (G : (if num_eqb (getDay tz d') (Some 1) then count' + 1 else count')
              <= count' + (if WeekDayOfDay (MakeDay y i (1 + Z.of_nat n)) =? 1
                           then 1 else 0)).
  { destruct d' as [t|]; unfold getDay, num_eqb.
    - cbn [on_day] in P. rewrite getDay_day, P.
      destruct (WeekDayOfDay (MakeDay y i (1 + Z.of_nat n)) =? 1); lia.
    - destruct (WeekDayOfDay (MakeDay y i (1 + Z.of_nat n)) =? 1); lia. }
  lia.
Qed.

Lemma Date_local_on_day tz y m n :
  ~ 0 <= y <= 99 ->
  on_day tz (Date_local tz (Some y) (Some m) (Some n)) (MakeDay y m n).
Proof.
  intros Hy. unfold Date_local, Date_of_fields.
  destruct (TimeClip_cases (time_of_fields tz y m n 0 0 0)) as [-> | ->]; [exact I |].
  cbn [on_day]. now apply Day_Date_local.
Qed.

Lemma days_of_month_or_NaN tz y m :
  ~ 0 <= y <= 99 -> 0 <= m <= 11 ->
  match getDate tz (Date_local tz (Some y) (Some (m + 1)) (Some 0)) with
  | Some dn => 1 <= dn <= DaysInMonth y m
  | None => True
  end.
Proof.
  intros Hy Hm. unfold Date_local, Date_of_fields.
  destruct (TimeClip_cases (time_of_fields tz y (m + 1) 0 0 0 0)) as [-> | ->]; [exact I |].
  unfold getDate. change (time_of_fields tz y (m + 1) 0 0 0 0) with (time_of_date tz y (m + 1) 0).
  rewrite length_of_month, (MakeFullYear_id y Hy) by exact Hm.
  pose proof (DaysInMonth_range y m). lia.
Qed.

Lemma scan_months_bound tz y :
  ~ 0 <= y <= 99 ->
  forall n i count,
    0 <= i -> i + Z.of_nat n <= 11 ->
    exists N,
      Z.of_nat N = MakeDay y (i + Z.of_nat n) 1 - MakeDay y i 1
      /\ scan_months tz n (Some y) i count <= count + mondays_from N (MakeDay y i 1).
Proof.
  intros Hy. induction n as [|n IH]; intros i count Hi Hn.
  - exists 0%nat. cbn [scan_months mondays_from Z.of_nat]. rewrite !Z.add_0_r. lia.
  - rewrite scan_months_S.
    pose proof (DaysInMonth_range y i) as L.
    pose proof (scan_month_bound tz y i (Date_local tz (Some y) (Some i) (Some 1))
                  (getDate tz (Date_local tz (Some y) (Some (i + 1)) (Some 0))) count
                  (DaysInMonth y i) ltac:(lia) ltac:(lia)) as B.
    set (c1 := scan_month tz _ _ count) in *.
    assert (B1 : c1 <= count + mondays_from (Z.to_nat (DaysInMonth y i)) (MakeDay y i 1)).
    { apply B; [| now apply Date_local_on_day].
      pose proof (days_of_month_or_NaN tz y i Hy ltac:(lia)) as D.
      destruct (getDate tz _); [lia | exact I]. }
    clearbody c1.
    destruct (IH (i + 1) c1) as (N & EN & E); [lia | lia |].
    exists (Z.to_nat (DaysInMonth y i) + N)%nat. split.
    + rewrite Nat2Z.inj_add, EN, (first_of_next_month y i) by lia.
      replace (i + 1 + Z.of_nat n) with (i + Z.of_nat (S n)) by lia. lia.
    + rewrite mondays_from_app, Z2Nat.id by lia.
      rewrite (first_of_next_month y i) in E by lia. lia.
Qed.

(** X12.  For a date whose local year is outside 0 to 99 the week number
    is at least 1 and at most 54, in every year of the time range. *)
Theorem getWeekNumberByDate_range tz date :
  ~ 0 <= local_year tz date <= 99 ->
  1 <= getWeekNumberByDate tz (Some date) <= 54.
Proof.
  intros Hy. unfold getWeekNumberByDate.
  rewrite getFullYear_Some, getMonth_Some, getDate_Some.
  destruct (local_fields tz date) as [Hm HD].
  pose proof (local_year_days tz date) as HY. rewrite DayFromYear_step in HY.
  pose proof (DaysInYear_pos (local_year tz date)) as HL.
  assert (Ed : MakeDay (local_year tz date) (local_month tz date) (local_date tz date)
               = Day (LocalTime tz date))
    by apply civil_of_day.
  set (y := local_year tz date) in *. set (m := local_month tz date) in *.
  set (dd := local_date tz date) in *.
  assert (J : MakeDay y 0 1 = DayFromYear y).
  { rewrite MakeDay_in_year by lia. cbn [DaysBeforeMonth]. lia. }
  unfold rounds_lt. rewrite Z.sub_0_r.
  set (d0 := Date_local tz (Some y) (Some 0) (Some 1)).
  set (init := if negb (num_eqb (getDay tz d0) (Some 1)) then 1 else 0).
  set (count1 := scan_months tz (Z.to_nat m) (Some y) 0 init).
  split.
  - (* at least 1 *)
    assert (Hi : 0 <= init) by (subst init; destruct (negb _); lia).
    pose proof (scan_month_mono tz (Date_local tz (Some y) (Some m) (Some 1)) (Some dd) count1)
      as M1.
    pose proof (scan_months_mono tz (Z.to_nat m) (Some y) 0 init) as M0. fold count1 in M0.
    destruct (num_eqb (getDay tz d0) (Some 1)) eqn:E0; [| subst init; cbn [negb] in *; lia].
    destruct d0 as [v|] eqn:Ev; [| discriminate E0].
    rewrite getDay_Some, num_eqb_Some in E0. apply Z.eqb_eq in E0.
    destruct (Z.to_nat m) as [|n] eqn:En.
    + assert (m = 0) as -> by lia. fold d0. rewrite Ev.
      pose proof (scan_month_first tz v (Some dd) count1 E0). lia.
    + subst count1. rewrite scan_months_S in M0 |- *. fold d0 in M0 |- *. rewrite Ev in *.
      pose proof (scan_month_first tz v
                    (getDate tz (Date_local tz (Some y) (Some (0 + 1)) (Some 0))) init E0)
        as F.
      pose proof (scan_months_mono tz n (Some y) (0 + 1)
                    (scan_month tz (Some v)
                       (getDate tz (Date_local tz (Some y) (Some (0 + 1)) (Some 0))) init))
        as M2.
      pose proof (scan_month_mono tz (Date_local tz (Some y) (Some m) (Some 1)) (Some dd)
                    (scan_months tz n (Some y) (0 + 1)
                       (scan_month tz (Some v)
                          (getDate tz (Date_local tz (Some y) (Some (0 + 1)) (Some 0)))
                          init))) as M3.
      subst init. cbn [negb] in *. lia.
  - (* at most 54 *)
    assert (Hi : init <= 1) by (subst init; destruct (negb _); lia).
    destruct (scan_months_bound tz y Hy (Z.to_nat m) 0 init) as (N & EN & B0); [lia | lia |].
    fold count1 in B0.
    pose proof (scan_month_bound tz y m (Date_local tz (Some y) (Some m) (Some 1))
                  (Some dd) count1 dd Hm ltac:(lia) (conj (proj1 HD) (Z.le_refl dd))
                  (Date_local_on_day tz y m 1 Hy)) as B1.
    rewrite Z.add_0_l, Z2Nat.id in EN by lia.
    assert (T : Day (LocalTime tz date) = MakeDay y m 1 + (dd - 1)).
    { rewrite <- MakeDay_add, <- Ed. f_equal. lia. }
    pose proof (mondays_from_app N (Z.to_nat dd) (MakeDay y 0 1)) as A.
    replace (MakeDay y 0 1 + Z.of_nat N) with (MakeDay y m 1) in A by lia.
    pose proof (mondays_year (N + Z.to_nat dd) (MakeDay y 0 1) ltac:(lia)). lia.
Qed.

Lemma getWeekNumberByDate_range_witness :
  1 <= getWeekNumberByDate 0 (Some (time_of_date 0 2024 11 31)) <= 54.
Proof.
  apply (getWeekNumberByDate_range 0 (time_of_date 0 2024 11 31)).
  vm_compute. intros [_ H]. apply H. reflexivity.
Defined.

(** *** The week number from one day to the next *)

(** X22.  Inside a year (outside 0 to 99, and neither the first nor the
    last of the time range) the week number of the next day is the week
    number of the day, plus one when the next day is a Monday: the
    number never goes down and changes on Mondays only. *)
Theorem getWeekNumberByDate_next_day tz date :
  time_zone tz -> year_ok (local_year tz date) ->
  ~ 0 <= local_year tz date <= 99 ->
  local_year tz (date + 1 * msPerDay) = local_year tz date ->
  getWeekNumberByDate tz (Some (date + 1 * msPerDay))
  = getWeekNumberByDate tz (Some date)
    + (if local_weekday tz (date + 1 * msPerDay) =? 1 then 1 else 0).
Proof.
  intros Hz Hok Hy Hsame.
  rewrite (getWeekNumberByDate_run tz (date + 1 * msPerDay)) by (trivial; now rewrite Hsame).
  rewrite (getWeekNumberByDate_run tz date Hz Hok Hy), getDay_shift.
  unfold week_counter, local_year, YearFromTime in *.
  assert (E : Day (LocalTime tz (date + 1 * msPerDay)) = Day (LocalTime tz date) + 1).
  { unfold LocalTime.
    replace (date + 1 * msPerDay + tz) with (date + tz + 1 * msPerDay) by lia.
    apply Day_shift. }
  rewrite E in *. rewrite Hsame.
  set (d := Day (LocalTime tz date)) in *.
  pose proof (YearFromDay_spec d) as S.
  set (jan1 := DayFromYear (YearFromDay d)) in *.
  replace (Z.to_nat (d + 1 - jan1 + 1)) with (Z.to_nat (d - jan1 + 1) + 1)%nat by lia.
  rewrite mondays_from_app. cbn [mondays_from].
  replace (jan1 + Z.of_nat (Z.to_nat (d - jan1 + 1))) with (d + 1) by lia.
  lia.
Qed.

Lemma getWeekNumberByDate_next_day_witness :
  getWeekNumberByDate 0 (Some (time_of_date 0 2024 0 7 + 1 * msPerDay))
  = getWeekNumberByDate 0 (Some (time_of_date 0 2024 0 7)) + 1.
Proof.
  rewrite (getWeekNumberByDate_next_day 0 (time_of_date 0 2024 0 7)).
  - reflexivity.
  - vm_compute. split; reflexivity.
  - vm_compute. split; discriminate.
  - vm_compute. intros [_ H]. apply H. reflexivity.
  - reflexivity.
Defined.

(** ** Days of a month, leap years and weekend days *)

(** X2.  [getCountDaysInMonth] gives the length of the month in every
    zone: 31, 30, or 28 and 29 for February by the Gregorian rule, for
    the year that [new Date(year, ...)] reads (1900 + year for a year
    from 0 to 99), when that year is neither the first nor the last of
    the time range. *)
Theorem getCountDaysInMonth_table tz month year :
  time_zone tz -> year_ok (MakeFullYear year) ->
  1 <= month <= 12 ->
  getCountDaysInMonth tz month year
  = Some match month with
         | 2 => if leap (MakeFullYear year) then 29 else 28
         | 4 | 6 | 9 | 11 => 30
         | _ => 31
         end.
Proof.
  intros Hz Hy Hm. unfold getCountDaysInMonth.
  pose (m := month - 1). assert (Em : month = m + 1) by (subst m; lia).
  assert (Hm' : 0 <= m <= 11) by (subst m; lia).
  clearbody m. subst month. clear Hm.
  rewrite days_of_month by trivial. f_equal.
  each_month Hm'; reflexivity.
Qed.

Lemma getCountDaysInMonth_table_witness :
  getCountDaysInMonth 7200000 2 2024 = Some 29
  /\ getCountDaysInMonth 7200000 2 0 = Some 28.
Proof.
  split.
  - apply (getCountDaysInMonth_table 7200000 2 2024);
      try lia; vm_compute; split; first [reflexivity | discriminate].
  - apply (getCountDaysInMonth_table 7200000 2 0);
      try lia; vm_compute; split; first [reflexivity | discriminate].
Defined.

Lemma rem_zero a b : b <> 0 -> (Z.rem a b =? 0) = (a mod b =? 0).
Proof.
  intros Hb.
  destruct (Z.eqb_spec (Z.rem a b) 0) as [E|E], (Z.eqb_spec (a mod b) 0) as [E'|E'];
    try reflexivity; exfalso.
  - apply E', Z.mod_divide, Z.rem_divide; assumption.
  - apply E, Z.rem_divide, Z.mod_divide; assumption.
Qed.

Lemma isLeapYear_rem tz date :
  isLeapYear tz (Some date)
  = let year := local_year tz date in
    if negb (Z.rem year 4 =? 0) then false
    else if negb (Z.rem year 100 =? 0) then true
    else if negb (Z.rem year 400 =? 0) then false
    else true.
Proof. reflexivity. Qed.

Lemma isLeapYear_leap tz date : isLeapYear tz (Some date) = leap (local_year tz date).
Proof.
  rewrite isLeapYear_rem. unfold leap. cbv zeta. rewrite !rem_zero by discriminate.
  destruct (local_year tz date mod 4 =? 0), (local_year tz date mod 100 =? 0),
    (local_year tz date mod 400 =? 0); reflexivity.
Qed.

(** X3.  [isLeapYear] is the Gregorian rule on the local year of the
    date, also for the years before year 0, where [%] gives negative
    remainders. *)
Theorem isLeapYear_gregorian tz date :
  isLeapYear tz (Some date) = true
  <-> (4 | local_year tz date)
      /\ (~ (100 | local_year tz date) \/ (400 | local_year tz date)).
Proof.
  rewrite isLeapYear_rem. cbv zeta. set (y := local_year tz date).
  rewrite <- !(Z.rem_divide y) by discriminate.
  destruct (Z.eqb_spec (Z.rem y 4) 0) as [E4|E4];
    destruct (Z.eqb_spec (Z.rem y 100) 0) as [E100|E100];
    destruct (Z.eqb_spec (Z.rem y 400) 0) as [E400|E400]; cbn [negb];
    split; intros H; try discriminate; try reflexivity; try tauto.
Qed.

(** X4.  February has 29 days exactly in the years of [isLeapYear], as
    far as [new Date(year, ...)] reads the year as it is (outside 0 to
    99) and the year is neither the first nor the last of the time
    range. *)
Theorem isLeapYear_february tz date :
  time_zone tz -> year_ok (local_year tz date) ->
  ~ 0 <= local_year tz date <= 99 ->
  getCountDaysInMonth tz 2 (local_year tz date)
  = Some (if isLeapYear tz (Some date) then 29 else 28).
Proof.
  intros Hz Hok Hy. rewrite isLeapYear_leap.
  unfold getCountDaysInMonth. change 2 with (1 + 1).
  pose proof (MakeFullYear_id _ Hy) as Hf.
  rewrite days_of_month, Hf by (trivial; try lia; now rewrite Hf). reflexivity.
Qed.

Lemma isLeapYear_february_witness :
  getCountDaysInMonth 0 2 (local_year 0 (time_of_date 0 2000 5 1))
  = Some (if isLeapYear 0 (Some (time_of_date 0 2000 5 1)) then 29 else 28).
Proof.
  apply (isLeapYear_february 0 (time_of_date 0 2000 5 1)).
  - vm_compute. split; reflexivity.
  - vm_compute. split; discriminate.
  - vm_compute. intros [_ H]. apply H. reflexivity.
Defined.

(** *** Weekend days *)

Lemma weekends_from_app a b k :
  weekends_from (a + b) k = weekends_from a k + weekends_from b (k + Z.of_nat a).
Proof.
  revert k. induction a as [|a IH]; intros k.
  - cbn [Nat.add weekends_from]. rewrite Z.add_0_r. lia.
  - cbn [Nat.add weekends_from]. rewrite IH.
    replace (k + 1 + Z.of_nat a) with (k + Z.of_nat (S a)) by lia. lia.
Qed.

(** Seven days in a row hold one Saturday and one Sunday. *)
Lemma weekends_week k : weekends_from 7 k = 2.
Proof. cbn [weekends_from]. by_weekday k; reflexivity. Qed.

Lemma weekends_few n k : (n <= 3)%nat -> 0 <= weekends_from n k <= 2.
Proof.
  intros Hn.
  assert (n = 0 \/ n = 1 \/ n = 2 \/ n = 3)%nat as H by lia.
  destruct H as [-> | [-> | [-> | ->]]]; cbn [weekends_from];
    by_weekday k; split; discriminate.
Qed.

Lemma weekends_month n k :
  (28 <= n <= 31)%nat -> 8 <= weekends_from n k <= 10.
Proof.
  intros Hn.
  replace n with (7 + (7 + (7 + (7 + (n - 28)))))%nat by lia.
  rewrite !weekends_from_app, !weekends_week.
  pose proof (weekends_few (n - 28) (k + Z.of_nat 7 + Z.of_nat 7 + Z.of_nat 7 + Z.of_nat 7)
                ltac:(lia)).
  lia.
Qed.

Lemma weekend_days_S tz n i date count :
  weekend_days tz (S n) i (date, count)
  = weekend_days tz n (i + 1)
      (setDate tz date (Some i),
       if num_eqb (getDay tz date) (Some 0) || num_eqb (getDay tz date) (Some 6)
       then count + 1 else count).
Proof. reflexivity. Qed.

(** The loop over the days of a month counts the weekend days it walks
    over and leaves its cursor on the last day. *)
Lemma weekend_days_spec tz y m :
  time_zone tz -> year_ok y -> 0 <= m <= 11 ->
  forall n i date count,
    2 <= i -> i - 1 + Z.of_nat n <= DaysInMonth y m ->
    Day (LocalTime tz date) = MakeDay y m (i - 1) ->
    exists date',
      weekend_days tz n i (Some date, count)
      = (Some date', count + weekends_from n (MakeDay y m (i - 1)))
      /\ Day (LocalTime tz date') = MakeDay y m (i - 1 + Z.of_nat n).
Proof.
  intros Hz Hy Hm. induction n as [|n IH]; intros i date count Hi Hn Hd.
  - exists date. cbn [weekend_days weekends_from]. rewrite !Z.add_0_r. now split.
  - pose proof (DaysInMonth_range y m) as L.
    assert (C : civil_ok y m (i - 1)) by (split; lia).
    rewrite weekend_days_S. cbn [weekends_from].
    rewrite setDate_ok;
      [ | exact Hz
        | unfold local_year, YearFromTime; now rewrite Hd, (YearFromDay_MakeDay y m _ C)
        | lia ].
    rewrite getDay_Some, !num_eqb_Some, getDay_day, Hd.
    destruct (LocalTime_setDate tz date i) as [Hd' _].
    rewrite Hd, (set_day_in_month y m (i - 1) i C) in Hd'.
    replace i with (i + 1 - 1) in Hd' at 2 by lia.
    destruct (IH (i + 1) (time_setDate tz date i)
                 (if (WeekDayOfDay (MakeDay y m (i - 1)) =? 0)
                     || (WeekDayOfDay (MakeDay y m (i - 1)) =? 6)
                  then count + 1 else count))
      as (date' & E & D); [lia | lia | exact Hd' |].
    exists date'. rewrite E. split.
    + f_equal. replace (i + 1 - 1) with (i - 1 + 1) by lia. rewrite MakeDay_add.
      destruct ((WeekDayOfDay (MakeDay y m (i - 1)) =? 0)
                || (WeekDayOfDay (MakeDay y m (i - 1)) =? 6)); lia.
    + rewrite D. f_equal. lia.
Qed.

Lemma getCountWeekendsInMonth_run tz month year :
  time_zone tz -> year_ok (MakeFullYear year) ->
  1 <= month <= 12 ->
  getCountWeekendsInMonth tz month year
  = weekends_from (Z.to_nat (DaysInMonth (MakeFullYear year) (month - 1)))
                  (MakeDay (MakeFullYear year) (month - 1) 1).
Proof.
  intros Hz Hy Hm. unfold getCountWeekendsInMonth.
  pose (m := month - 1). assert (Em : month = m + 1) by (subst m; lia).
  assert (Hm' : 0 <= m <= 11) by (subst m; lia).
  clearbody m. subst month. clear Hm.
  replace (m + 1 - 1) with m by lia.
  rewrite days_of_month, Date_local_ok by (trivial; lia).
  set (y := MakeFullYear year) in *.
  pose proof (DaysInMonth_range y m) as L.
  unfold rounds. replace (Z.to_nat (DaysInMonth y m - 2 + 1))
    with (Z.to_nat (DaysInMonth y m - 1)) by lia.
  destruct (weekend_days_spec tz y m Hz Hy Hm' (Z.to_nat (DaysInMonth y m - 1)) 2
              (time_of_date tz year m 1) 0)
    as (date' & E & D); [lia | lia | apply Day_Date_local_full |].
  rewrite E, getDay_Some, !num_eqb_Some, getDay_day, D.
  replace (Z.to_nat (DaysInMonth y m)) with (Z.to_nat (DaysInMonth y m - 1) + 1)%nat by lia.
  rewrite weekends_from_app. cbn [weekends_from].
  change (2 - 1) with 1. rewrite <- MakeDay_add.
  destruct ((WeekDayOfDay (MakeDay y m (1 + Z.of_nat (Z.to_nat (DaysInMonth y m - 1)))) =? 0)
            || (WeekDayOfDay (MakeDay y m (1 + Z.of_nat (Z.to_nat (DaysInMonth y m - 1)))) =? 6));
    lia.
Qed.

(** X5.  [getCountWeekendsInMonth] counts the Saturdays and Sundays among
    the days of the month, from its first day to its last, in every zone
    (for the year that [new Date(year, ...)] reads, when it is neither
    the first nor the last of the time range). *)
Theorem getCountWeekendsInMonth_counts tz month year :
  time_zone tz -> year_ok (MakeFullYear year) ->
  1 <= month <= 12 ->
  getCountWeekendsInMonth tz month year
  = weekends_from (Z.to_nat (DaysInMonth (MakeFullYear year) (month - 1)))
                  (MakeDay (MakeFullYear year) (month - 1) 1).
Proof. exact (getCountWeekendsInMonth_run tz month year). Qed.

Lemma getCountWeekendsInMonth_counts_witness :
  getCountWeekendsInMonth 0 12 2023 = 10.
Proof.
  rewrite (getCountWeekendsInMonth_counts 0 12 2023);
    [reflexivity | vm_compute; split; reflexivity | vm_compute; split; discriminate | lia].
Defined.

(** X6.  In such a year a month never has fewer than 8 nor more than 10
    weekend days. *)
Theorem getCountWeekendsInMonth_bounds tz month year :
  time_zone tz -> year_ok (MakeFullYear year) ->
  1 <= month <= 12 -> 8 <= getCountWeekendsInMonth tz month year <= 10.
Proof.
  intros Hz Hy Hm. rewrite getCountWeekendsInMonth_run by trivial.
  pose proof (DaysInMonth_range (MakeFullYear year) (month - 1)).
  apply weekends_month. lia.
Qed.

Lemma getCountWeekendsInMonth_bounds_witness :
  8 <= getCountWeekendsInMonth 0 5 2022 <= 10.
Proof.
  apply (getCountWeekendsInMonth_bounds 0 5 2022);
    [vm_compute; split; reflexivity | vm_compute; split; discriminate | lia].
Defined.

(** ** [getQuarter] *)

Lemma time_of_date_value tz y m n :
  ~ 0 <= y <= 99 -> time_of_date tz y m n = UTC tz (MakeDate (MakeDay y m n) 0).
Proof.
  intros Hy. unfold time_of_date, time_of_fields. now rewrite (MakeFullYear_id y Hy).
Qed.

Ltac decide_comparisons :=
  repeat match goal with
         | |- context [?a <=? ?b] => destruct (Z.leb_spec a b); try (exfalso; lia)
         | |- context [?a <? ?b] => destruct (Z.ltb_spec a b); try (exfalso; lia)
         | |- context [?a =? ?b] => destruct (Z.eqb_spec a b); try (exfalso; lia)
         end.

(** Inside the time range the comparisons are comparisons of times. *)
Lemma getQuarter_valid tz t :
  time_zone tz -> year_ok (local_year tz t) ->
  getQuarter tz (Some t)
  = if t <=? time_of_date tz (local_year tz t) 2 31 then 1
    else if (time_of_date tz (local_year tz t) 2 31 <? t)
            && (t <=? time_of_date tz (local_year tz t) 5 31) then 2
    else if (time_of_date tz (local_year tz t) 5 31 <? t)
            && (t <=? time_of_date tz (local_year tz t) 8 31) then 3
    else 4.
Proof.
  intros Hz Hy. unfold getQuarter. rewrite getFullYear_Some.
  rewrite !Date_local_ok by (trivial; try lia; now apply MakeFullYear_ok).
  unfold valueOf. rewrite !num_leb_Some, !num_ltb_Some. reflexivity.
Qed.

Lemma local_year_of_fields tz y m n h mi s :
  ~ 0 <= y <= 99 -> civil_ok y m n ->
  0 <= h < 24 -> 0 <= mi < 60 -> 0 <= s < 60 ->
  local_year tz (time_of_fields tz y m n h mi s) = y.
Proof.
  intros Hy C Hh Hmi Hs. unfold local_year, YearFromTime, time_of_fields.
  rewrite LocalTime_UTC, (MakeFullYear_id y Hy), Day_MakeDate.
  - now apply YearFromDay_MakeDay.
  - unfold MakeTime, msPerDay, msPerHour, msPerMinute, msPerSecond. lia.
Qed.

(** C5.  [getQuarter] compares instants with the midnights that open
    March 31, "June 31" (July 1) and "September 31" (October 1): in every
    zone the midnight that opens July 1 is put in quarter 2 and the one
    that opens October 1 in quarter 3, and noon of March 31 in quarter 2,
    where the months say 3, 4 and 1. *)
Theorem getQuarter_boundary_instants tz :
  time_zone tz ->
  (getMonth tz (Date_local tz (Some 2024) (Some 6) (Some 1)) = Some 6 /\
   getQuarter tz (Date_local tz (Some 2024) (Some 6) (Some 1)) = 2) /\
  (getMonth tz (Date_local tz (Some 2024) (Some 9) (Some 1)) = Some 9 /\
   getQuarter tz (Date_local tz (Some 2024) (Some 9) (Some 1)) = 3) /\
  (getMonth tz (Date_of_fields tz (Some 2024) (Some 2) (Some 31) (Some 12) (Some 0) (Some 0))
   = Some 2 /\
   getQuarter tz (Date_of_fields tz (Some 2024) (Some 2) (Some 31) (Some 12) (Some 0) (Some 0))
   = 2).
Proof.
  intros Hz.
  assert (Hy : year_ok (MakeFullYear 2024)) by (vm_compute; split; discriminate).
  assert (Hn : ~ 0 <= 2024 <= 99) by lia.
  assert (Y : forall m n h,
             civil_ok 2024 m n -> 0 <= h < 24 ->
             local_year tz (time_of_fields tz 2024 m n h 0 0) = 2024)
    by (intros; apply local_year_of_fields; trivial; lia).
  rewrite !Date_local_ok, Date_of_fields_ok by (trivial; lia).
  unfold time_of_date.
  rewrite !getQuarter_valid, !getMonth_Some;
    try exact Hz; rewrite ?Y; try exact Hy;
    try (split; [lia | vm_compute; split; discriminate]); try lia.
  unfold local_month, MonthFromTime, time_of_date, time_of_fields.
  rewrite !LocalTime_UTC, !UTC_leb, !UTC_ltb.
  repeat split; reflexivity.
Qed.

Lemma getQuarter_boundary_instants_witness :
  getQuarter 3600000 (Date_local 3600000 (Some 2024) (Some 6) (Some 1)) = 2.
Proof.
  apply (getQuarter_boundary_instants 3600000). vm_compute. split; reflexivity.
Defined.

(** X11.  [getQuarter] is the quarter of the month of the date, except on
    three stretches of time: after the first instant of 31 March it
    already gives 2, and on the very first instant of 1 July and of
    1 October it still gives 2 and 3 (for a year that
    [new Date(year, ...)] reads as it is, and that is neither the first
    nor the last of the time range). *)
Theorem getQuarter_by_month tz date :
  let m := local_month tz date in
  let D := local_date tz date in
  let tw := TimeWithinDay (LocalTime tz date) in
  time_zone tz -> year_ok (local_year tz date) ->
  ~ 0 <= local_year tz date <= 99 ->
  getQuarter tz (Some date)
  = if (m =? 2) && (D =? 31) && (0 <? tw) then 2
    else if ((m =? 6) || (m =? 9)) && (D =? 1) && (tw =? 0) then m / 3
    else m / 3 + 1.
Proof.
  intros m D tw Hz Hok Hy. rewrite (getQuarter_valid tz date Hz Hok).
  rewrite !(time_of_date_value tz _ _ _ Hy).
  pose proof (date_value tz date) as Hdate.
  pose proof (TimeWithinDay_range (LocalTime tz date)) as Htw.
  unfold local_year, local_month, local_date, YearFromTime, MonthFromTime, DateFromTime in *.
  fold tw in Hdate, Htw.
  set (d := Day (LocalTime tz date)) in *.
  destruct (civil_of_day d) as ([Hm HD] & Ed).
  set (y := YearFromDay d) in *. fold m in Hm, HD, Ed. fold D in HD, Ed.
  rewrite <- Ed in Hdate. rewrite MakeDay_in_year in Hdate by lia.
  rewrite !MakeDay_in_year by lia.
  clearbody m D tw y. clear Ed Hy Hok. clearbody d. subst date.
  rewrite !UTC_leb, !UTC_ltb.
  unfold MakeDate, msPerDay in *. revert HD.
  each_month Hm; cbn [DaysInMonth DaysBeforeMonth]; destruct (leap y); intros HD;
    match goal with
    | |- context [?a / 3] => let v := eval vm_compute in (a / 3) in change (a / 3) with v
    end;
    decide_comparisons; cbn [andb orb]; try reflexivity; exfalso; lia.
Qed.

Lemma getQuarter_by_month_witness :
  getQuarter 0 (Some (time_of_date 0 2024 10 10)) = 4.
Proof.
  rewrite (getQuarter_by_month 0 (time_of_date 0 2024 10 10)); [reflexivity | | |].
  - vm_compute. split; reflexivity.
  - vm_compute. split; discriminate.
  - vm_compute. intros [_ H]. apply H. reflexivity.
Defined.

(** ** Conversion functions *)




(** C8, as the code has it.  What [formatDate] returns is a function of
    the instant its argument is read as: two runs that read the same
    instant print the same string, whatever their local zones.  A string
    in the date-only form, in a date-time form with a zone designator or
    in the [UTC] form is read, and as the same instant in every zone, so
    two runs on it return the same string. *)
Theorem formatDate_fixed_zone :
  (forall tz1 tz2 s1 s2,
      Date_parse tz1 s1 = Date_parse tz2 s2 -> formatDate tz1 s1 = formatDate tz2 s2) /\
  (forall tz1 tz2 s,
      utc_form s = true ->
      exists out, formatDate tz1 s = Ok out /\ formatDate tz2 s = Ok out).
Proof.
  split.
  - intros tz1 tz2 s1 s2 H. unfold formatDate, Date_of_string. rewrite H.
    destruct (Date_parse tz2 s2) as [tv| |]; reflexivity.
  - intros tz1 tz2 s H. destruct (Date_parse_utc_form s H) as (tv & P).
    unfold formatDate, Date_of_string. rewrite !P.
    cbn [mbind result_bind mret result_ret].
    destruct (Date_of_value tv); eexists; split; reflexivity.
Qed.

Lemma formatDate_fixed_zone_witness :
  (exists out, formatDate 0 "2024-02-01T15:00:00.000Z" = Ok out
               /\ formatDate 32400000 "2024-02-01T15:00:00.000Z" = Ok out)
  /\ formatDate 0 "2024-02-01T15:00:00.000Z" = formatDate (-18000000) "2024-02-01T10:00:00".
Proof.
  split.
  - apply (proj2 formatDate_fixed_zone 0 32400000 "2024-02-01T15:00:00.000Z"). reflexivity.
  - apply (proj1 formatDate_fixed_zone 0 (-18000000)). reflexivity.
Defined.

(** C8 as stated fails: a date-time string without zone is local time, so
    the same string is another instant, and another output, in another
    zone. *)
Lemma formatDate_local_form_counterexample :
  formatDate 0 "2024-01-30T00:00:00" = Ok "1/30/2024, 12:00:00 AM" /\
  formatDate 3600000 "2024-01-30T00:00:00" = Ok "1/29/2024, 11:00:00 PM" /\
  formatDate 0 "2024-01-30T00:00:00" <> formatDate 3600000 "2024-01-30T00:00:00".
Proof.
  split; [reflexivity |]. split; [reflexivity |].
  vm_compute. discriminate.
Qed.

(** C6.  [getDayName] names the weekday of the local day: five hours west
    of UTC the epoch is a Wednesday evening, while the example of the
    source gives ['Thursday']. *)
Theorem getDayName_west_of_UTC :
  Date_of_string (-18000000) "01 Jan 1970 00:00:00 UTC" = Ok (Some 0) /\
  getDayName 0 "01 Jan 1970 00:00:00 UTC" = Ok "Thursday" /\
  getDayName (-18000000) "01 Jan 1970 00:00:00 UTC" = Ok "Wednesday".
Proof. repeat split. Qed.

(** C7.  [getTime] prints the clock of the ambient locale: under [en-US]
    the date [new Date(2023, 5, 1, 8, 20, 55)] gives ['8:20:55 AM'], in
    every zone, while the example of the source gives ['08:20:55'], which
    is what a 24-hour locale prints. *)
Theorem getTime_ambient_locale tz :
  time_zone tz ->
  getTime en_US tz
    (Date_of_fields tz (Some 2023) (Some 5) (Some 1) (Some 8) (Some 20) (Some 55))
  = "8:20:55 AM" /\
  getTime en_GB tz
    (Date_of_fields tz (Some 2023) (Some 5) (Some 1) (Some 8) (Some 20) (Some 55))
  = "08:20:55".
Proof.
  intros Hz.
  rewrite Date_of_fields_ok by (trivial; try lia; vm_compute; split; discriminate).
  unfold getTime, toLocaleTimeString, time_of_fields.
  rewrite LocalTime_UTC. split; reflexivity.
Qed.

Lemma getTime_ambient_locale_witness :
  getTime en_US (-18000000)
    (Date_of_fields (-18000000) (Some 2023) (Some 5) (Some 1) (Some 8) (Some 20) (Some 55))
  = "8:20:55 AM".
Proof.
  apply (getTime_ambient_locale (-18000000)). vm_compute. split; reflexivity.
Defined.

(** ** Instants read from strings *)

(** X14.  [getDayName] names the weekday of the local day: it is the
    weekday of the UTC day of the instant whenever the zone does not move
    the instant out of that day, as for a midnight UTC read east of
    Greenwich. *)
Theorem getDayName_utc_day tz s t :
  Date_of_string tz s = Ok (Some t) ->
  0 <= TimeWithinDay t + tz < msPerDay ->
  getDayName tz s = Ok (weekday_long (WeekDay t)).
Proof.
  intros Hp Hz. unfold getDayName, toLocaleDateString_en_US.
  rewrite Hp. cbn [mbind result_bind mret result_ret weekday hour timeZone]. do 2 f_equal.
  unfold WeekDay. f_equal.
  unfold LocalTime, Day, TimeWithinDay, msPerDay in *. Z.div_mod_to_equations. lia.
Qed.

Lemma getDayName_utc_day_witness :
  getDayName 10800000 "2024-01-30T00:00:00.000Z" = Ok "Tuesday".
Proof.
  rewrite (getDayName_utc_day 10800000 "2024-01-30T00:00:00.000Z" 1706572800000);
    [reflexivity | reflexivity | vm_compute; split; [discriminate | reflexivity]].
Defined.

(** ** Periods *)

(** X15.  For three strings that are read, [isDateInPeriod] holds exactly
    when all three are valid dates and the instant of the date lies
    between those of the start and of the end, both included. *)
Theorem isDateInPeriod_between tz date period d s e :
  Date_of_string tz date = Ok d ->
  Date_of_string tz (start period) = Ok s ->
  Date_of_string tz (end_ period) = Ok e ->
  exists b,
    isDateInPeriod tz date period = Ok b
    /\ (b = true <-> exists d' s' e', d = Some d' /\ s = Some s' /\ e = Some e'
                                      /\ s' <= d' <= e').
Proof.
  intros Hd Hs He. unfold isDateInPeriod. rewrite Hd, Hs. cbn.
  destruct d as [d'|], s as [s'|]; cbn;
    try (exists false; split; [reflexivity |];
         split; [discriminate | intros (? & ? & ? & ? & ? & ?); discriminate]).
  destruct (Z.leb_spec s' d') as [L|L].
  - rewrite He. cbn. destruct e as [e'|]; cbn.
    + exists (d' <=? e'). split; [reflexivity |]. split.
      * intros H. apply Z.leb_le in H. exists d', s', e'. repeat split; lia.
      * intros (? & ? & ? & [= <-] & [= <-] & [= <-] & H). apply Z.leb_le. lia.
    + exists false. split; [reflexivity |].
      split; [discriminate | intros (? & ? & ? & ? & ? & ? & ?); discriminate].
  - exists false. split; [reflexivity |].
    split; [discriminate | intros (? & ? & ? & [= <-] & [= <-] & _ & H); lia].
Qed.

Lemma isDateInPeriod_between_witness :
  exists b,
    isDateInPeriod 0 "2024-02-10" {| start := "2024-02-02"; end_ := "2024-03-02" |} = Ok b
    /\ (b = true <-> exists d' s' e',
                       Some 1707523200000 = Some d' /\ Some 1706832000000 = Some s'
                       /\ Some 1709337600000 = Some e' /\ s' <= d' <= e').
Proof.
  apply (isDateInPeriod_between 0 "2024-02-10"
           {| start := "2024-02-02"; end_ := "2024-03-02" |}); reflexivity.
Defined.

(** X16.  For two strings read as instants a whole number [k] of days
    apart, [getCountDaysOnPeriod] is [k + 1]: both ends count, the same
    instant twice gives 1, and an end before the start gives a number
    below 1.  When both strings are read and one of them is no valid
    date, the result is NaN. *)
Theorem getCountDaysOnPeriod_whole_days tz dateStart dateEnd :
  (forall s e k,
      Date_of_string tz dateStart = Ok (Some s) ->
      Date_of_string tz dateEnd = Ok (Some e) ->
      e - s = k * msPerDay ->
      getCountDaysOnPeriod tz dateStart dateEnd = Ok (Some (k + 1)))
  /\ (forall s e,
      Date_of_string tz dateStart = Ok s -> Date_of_string tz dateEnd = Ok e ->
      s = None \/ e = None ->
      getCountDaysOnPeriod tz dateStart dateEnd = Ok None).
Proof.
  unfold getCountDaysOnPeriod. split.
  - intros s e k -> -> Hk. cbn [mbind result_bind valueOf].
    change (1000 * 60 * 60 * 24) with msPerDay. rewrite Hk.
    rewrite Z_mod_mult, Z_div_mult by reflexivity. reflexivity.
  - intros s e -> -> [-> | ->]; cbn [mbind result_bind valueOf];
      [destruct e |]; reflexivity.
Qed.

Lemma getCountDaysOnPeriod_whole_days_witness :
  getCountDaysOnPeriod 0 "2024-02-01T00:00:00.000Z" "2024-02-12T00:00:00.000Z"
  = Ok (Some (11 + 1)).
Proof.
  apply (proj1 (getCountDaysOnPeriod_whole_days 0 "2024-02-01T00:00:00.000Z"
                  "2024-02-12T00:00:00.000Z") 1706745600000 1707696000000 11);
    reflexivity.
Defined.

(** ** The fields that are printed *)

Lemma clock_of_MakeDate day h mi sec ms :
  0 <= h < 24 -> 0 <= mi < 60 -> 0 <= sec < 60 -> 0 <= ms < 1000 ->
  Day (MakeDate day (MakeTime h mi sec ms)) = day
  /\ HourFromTime (MakeDate day (MakeTime h mi sec ms)) = h
  /\ MinFromTime (MakeDate day (MakeTime h mi sec ms)) = mi
  /\ SecFromTime (MakeDate day (MakeTime h mi sec ms)) = sec.
Proof.
  intros Hh Hmi Hsec Hms.
  unfold Day, HourFromTime, MinFromTime, SecFromTime, MakeDate, MakeTime,
    msPerDay, msPerHour, msPerMinute, msPerSecond.
  repeat split; Z.div_mod_to_equations; lia.
Qed.

(** X20.  In a zone of fixed offset, and for a year inside the range of
    time values, a month from 0 to 11 and a day from 1 to 31, [getTime]
    gives back the clock that the date was built with: as [HH:MM:SS] on
    two digits each under a locale of the 24-hour clock, with the hour
    from 1 to 12, not padded, and [AM] or [PM] under [en-US]. *)
Theorem getTime_clock tz year month date h mi sec :
  time_zone tz -> year_ok (MakeFullYear year) ->
  0 <= month <= 11 -> 1 <= date <= 31 ->
  0 <= h < 24 -> 0 <= mi < 60 -> 0 <= sec < 60 ->
  getTime en_GB tz
    (Date_of_fields tz (Some year) (Some month) (Some date) (Some h) (Some mi) (Some sec))
  = (two_digit h ++ ":" ++ two_digit mi ++ ":" ++ two_digit sec)%string
  /\ getTime en_US tz
       (Date_of_fields tz (Some year) (Some month) (Some date) (Some h) (Some mi) (Some sec))
     = (String_of_Z (if (h mod 12 =? 0)%Z then 12 else h mod 12) ++ ":" ++ two_digit mi
        ++ ":" ++ two_digit sec ++ (if (h <? 12)%Z then " AM" else " PM"))%string.
Proof.
  intros Hz Hy Hmo Hd Hh Hmi Hsec.
  rewrite Date_of_fields_ok by (trivial; lia).
  unfold getTime, toLocaleTimeString, time_of_fields, h23_time, en_US_time.
  rewrite LocalTime_UTC.
  destruct (clock_of_MakeDate (MakeDay (MakeFullYear year) month date) h mi sec 0
              Hh Hmi Hsec ltac:(lia)) as (_ & -> & -> & ->).
  split; reflexivity.
Qed.

Lemma getTime_clock_witness :
  getTime en_GB 3600000
    (Date_of_fields 3600000 (Some 2015) (Some 10) (Some 20) (Some 23) (Some 15) (Some 1))
  = "23:15:01"%string.
Proof.
  apply (getTime_clock 3600000 2015 10 20 23 15 1); try lia.
  - vm_compute. split; reflexivity.
  - vm_compute. split; discriminate.
Defined.

Lemma string_append_assoc (a b c : string) :
  ((a ++ b) ++ c)%string = (a ++ (b ++ c))%string.
Proof.
  induction a as [|x a IH]; [reflexivity |].
  change (String x ((a ++ b) ++ c) = String x (a ++ (b ++ c)))%string.
  now rewrite IH.
Qed.

(** X21.  For an instant of the years since 1912, when [Africa/Dakar] is on
    GMT, [formatDate] prints the UTC fields of the instant it reads:
    month, day and year as they are, the hour on the 12-hour clock, the
    minutes and seconds on two digits, whatever the local zone. *)
Theorem formatDate_fields tz s y mo d h mi sec ms :
  Date_of_string tz s
  = Ok (Some (MakeDate (MakeDay y (mo - 1) d) (MakeTime h mi sec ms))) ->
  1 <= y -> 1 <= mo <= 12 -> 1 <= d <= DaysInMonth y (mo - 1) ->
  0 <= h < 24 -> 0 <= mi < 60 -> 0 <= sec < 60 -> 0 <= ms < 1000 ->
  -1830383032000 <= MakeDate (MakeDay y (mo - 1) d) (MakeTime h mi sec ms) ->
  formatDate tz s
  = Ok (String_of_Z mo ++ "/" ++ String_of_Z d ++ "/" ++ String_of_Z y ++ ", "
        ++ String_of_Z (if (h mod 12 =? 0)%Z then 12 else h mod 12) ++ ":"
        ++ two_digit mi ++ ":" ++ two_digit sec
        ++ (if (h <? 12)%Z then " AM" else " PM"))%string.
Proof.
  intros Hp Hy Hmo Hd Hh Hmi Hsec Hms Ht.
  unfold formatDate. rewrite Hp.
  cbn [mbind result_bind mret result_ret]. f_equal.
  unfold toLocaleDateString_en_US.
  cbn [weekday hour minute second timeZone zoneOffset].
  destruct (Z.ltb_spec (MakeDate (MakeDay y (mo - 1) d) (MakeTime h mi sec ms))
              (-1830383032000)) as [L|_]; [lia |].
  unfold LocalTime. rewrite Z.add_0_r.
  unfold en_US_date, en_US_time, YearFromTime, MonthFromTime, DateFromTime.
  destruct (clock_of_MakeDate (MakeDay y (mo - 1) d) h mi sec ms Hh Hmi Hsec Hms)
    as (-> & -> & -> & ->).
  assert (C : civil_ok y (mo - 1) d) by (split; lia).
  rewrite (YearFromDay_MakeDay _ _ _ C), (MonthFromDay_MakeDay _ _ _ C),
    (DateFromDay_MakeDay _ _ _ C).
  replace (mo - 1 + 1) with mo by lia.
  unfold yearOfEra. destruct (Z.leb_spec y 0); [lia |].
  rewrite !string_append_assoc. reflexivity.
Qed.

Lemma formatDate_fields_witness :
  formatDate 7200000 "2010-12-15T22:59:00.000Z" = Ok "12/15/2010, 10:59:00 PM"%string.
Proof.
  apply (formatDate_fields 7200000 "2010-12-15T22:59:00.000Z" 2010 12 15 22 59 0 0);
    try lia; try reflexivity.
  - vm_compute. split; discriminate.
  - vm_compute. discriminate.
Defined.

(** Before 1912 the zone of [formatDate] is 16 minutes and 8 seconds
    behind Greenwich, and the fields printed are those of that local
    mean time. *)
Example formatDate_before_1912 :
  formatDate 0 "1900-01-01T00:00:00Z" = Ok "12/31/1899, 11:43:52 PM".
Proof. reflexivity. Qed.
